(** * synapse-cdc-poc: the sample data generator (generate_sample_data.py)

    A shallow embedding of the generator and the properties of its six
    CSV files.

    The script draws every random value from Python's module-level
    generator, keeps each scenario's snapshot in a dictionary of mutable
    record objects, and writes three files per scenario with [csv.DictWriter].
    The embedding follows that structure:

    - the generator is a tape of 32-bit words (the outputs of
      [genrand_uint32]); [getrandbits], [_randbelow], [randint], [choice],
      [random] and [uniform] consume it the way CPython does, and
      [MT19937.tape 42] is the tape the script really runs on;
    - floats are binary64 values held as exact rationals, every operation
      rounding to nearest-even at 53 bits; [round] and [repr] are the
      correctly rounded decimal conversions of CPython;
    - records are insertion-ordered dictionaries living in a heap, so the
      snapshot and the delta lists share them by reference;
    - files are a finite map from path to contents.

    Standard output (the progress messages) and directory creation are not
    modelled. *)

From Stdlib Require Import ZArith QArith Qround Qpower Qabs Qfield Lia Lqa Bool String Ascii.
From stdpp Require Import base list gmap strings.

Open Scope string_scope.
Open Scope Z_scope.

Infix "+++" := String.append (at level 60, right associativity).

(* ================================================================== *)
(** ** Exceptions and the state-and-exception monad *)

Inductive error : Type :=
  | KeyError      (* dict[key] on a missing key *)
  | IndexError    (* seq[i] out of range, choice of an empty sequence *)
  | TypeError     (* arithmetic on a field that is not a float *)
  | ValueError    (* DictWriter: a row has a key that is not a field name *)
  | Starved.      (* the tape ended before the computation did *)

Inductive result (S A : Type) : Type :=
  | Ok (a : A) (s : S)
  | Raise (e : error) (s : S).
Arguments Ok {S A} a s.
Arguments Raise {S A} e s.

Definition M (S A : Type) : Type := S -> result S A.

Definition ret {S A} (a : A) : M S A := fun s => Ok a s.
Definition raise {S A} (e : error) : M S A := fun s => Raise e s.
Definition bind {S A B} (m : M S A) (k : A -> M S B) : M S B :=
  fun s => match m s with
           | Ok a s' => k a s'
           | Raise e s' => Raise e s'
           end.

Notation "'let*' x ':=' m 'in' k" := (bind m (fun x => k))
  (at level 10, x pattern, m at level 100, k at level 200).

Definition of_option {S A} (e : error) (o : option A) : M S A :=
  match o with Some a => ret a | None => raise e end.

(** [for x in xs: st = body x st] *)
Fixpoint for_each {S A St} (xs : list A) (body : A -> St -> M S St) (st : St) : M S St :=
  match xs with
  | [] => ret st
  | x :: xs' => let* st' := body x st in for_each xs' body st'
  end.

(** [range(a, b)] *)
Definition range (a b : Z) : list Z := seqZ a (b - a).

(* ================================================================== *)
(** ** binary64 arithmetic *)

Module Float64.
Local Open Scope Q_scope.

Definition pow2 (e : Z) : Q := Qpower 2 e.
Definition pow10 (e : Z) : Q := Qpower 10 e.

(** floor (log2 x), for 0 < x *)
Definition ilog2 (x : Q) : Z :=
  let d := (Z.log2 (Qnum x) - Z.log2 (Zpos (Qden x)))%Z in
  if Qle_bool (pow2 d) x then d else (d - 1)%Z.

(** the nearest integer, ties to even *)
Definition rne (x : Q) : Z :=
  let f := Qfloor x in
  match Qcompare (x - inject_Z f) (1 # 2) with
  | Lt => f
  | Gt => (f + 1)%Z
  | Eq => if Z.even f then f else (f + 1)%Z
  end.

(** Rounding of a positive real to binary64: 53 significant bits, the
    subnormal grid 2^-1074 below the normal range ([fexp] is the exponent
    of the last place).  Overflow to infinity
    is left out: the model is exact below 2^1024, and no value of this
    program exceeds 2^17. *)
Definition fexp (x : Q) : Z := Z.max (ilog2 x - 52) (-1074).

Definition rnd_pos (x : Q) : Q :=
  let e := fexp x in
  Qred (inject_Z (rne (x / pow2 e)) * pow2 e).

Definition rnd53 (x : Q) : Q :=
  match Qcompare x 0 with
  | Eq => 0
  | Gt => rnd_pos x
  | Lt => Qred (- rnd_pos (- x))
  end.

Definition fadd (x y : Q) : Q := rnd53 (x + y).
Definition fsub (x y : Q) : Q := rnd53 (x - y).
Definition fmul (x y : Q) : Q := rnd53 (x * y).

(** [float(n)] for an int, and the float literal [num / 10^decimals]
    (so [lit 999 2] is the literal [9.99]) *)
Definition of_int (n : Z) : Q := rnd53 (inject_Z n).
Definition lit (num decimals : Z) : Q := rnd53 (inject_Z num / pow10 decimals).

(** [round(x, ndigits)]: the decimal with [ndigits] places nearest to the
    exact value of [x] (ties to even), read back as a float *)
Definition round_ndigits (x : Q) (ndigits : Z) : Q :=
  rnd53 (inject_Z (rne (x * pow10 ndigits)) / pow10 ndigits).
End Float64.

(* ================================================================== *)
(** ** str, format and lower *)

Module PyStr.
Definition digit_char (d : Z) : ascii := ascii_of_nat (48 + Z.to_nat d)%nat.

Fixpoint digits_fuel (fuel : nat) (n : Z) (acc : string) : string :=
  match fuel with
  | O => acc
  | S fuel' =>
      let acc' := String (digit_char (n mod 10)) acc in
      if n <? 10 then acc' else digits_fuel fuel' (n / 10) acc'
  end.

(** the decimal digits of a non-negative integer *)
Definition digits (n : Z) : string := digits_fuel (S (Z.to_nat (Z.log2 n))) n EmptyString.

(** [str(n)] *)
Definition str_int (n : Z) : string :=
  if n <? 0 then String "-" (digits (- n)) else digits n.

Fixpoint zeros (n : nat) : string :=
  match n with O => EmptyString | S n' => String "0" (zeros n') end.

(** [format(n, "0<width>d")] *)
Definition format_0d (width : nat) (n : Z) : string :=
  if n <? 0
  then String "-" (zeros (width - 1 - String.length (digits (- n)))%nat +++ digits (- n))
  else zeros (width - String.length (digits n))%nat +++ digits n.

Definition lower_char (c : ascii) : ascii :=
  let n := nat_of_ascii c in
  if andb (Nat.leb 65 n) (Nat.leb n 90) then ascii_of_nat (n + 32)%nat else c.

(** [s.lower()], on ASCII *)
Fixpoint lower (s : string) : string :=
  match s with
  | EmptyString => EmptyString
  | String c s' => String (lower_char c) (lower s')
  end.

Definition substr_from (n : nat) (s : string) : string :=
  substring n (String.length s - n)%nat s.
End PyStr.

(* ================================================================== *)
(** ** repr of a float *)

Module Repr.
Import Float64 PyStr.
Local Open Scope Q_scope.

Fixpoint ilog10_up (fuel : nat) (k : Z) (x : Q) : Z :=
  match fuel with
  | O => k
  | S f => if Qle_bool (pow10 (k + 1)) x then ilog10_up f (k + 1)%Z x else k
  end.

Fixpoint ilog10_down (fuel : nat) (k : Z) (x : Q) : Z :=
  match fuel with
  | O => k
  | S f => if Qle_bool (pow10 k) x then k else ilog10_down f (k - 1)%Z x
  end.

(** floor (log10 x), for 0 < x *)
Definition ilog10 (x : Q) : Z :=
  if Qle_bool 1 x then ilog10_up (S (Z.to_nat (Z.log2 (Qnum x)))) 0 x
  else ilog10_down (S (Z.to_nat (Z.log2 (Zpos (Qden x))))) (-1) x.

Definition round_trips (x d : Q) : bool := Qeq_bool (rnd53 d) x.

(** The decimal [c * 10^ex] with [n] significant digits that reads back as
    [x], the one nearer to [x] when both neighbours do. *)
Definition candidate (x : Q) (n : Z) : option (Z * Z) :=
  let ex := (ilog10 x + 1 - n)%Z in
  let lo := Qfloor (x / pow10 ex) in
  let hi := (lo + 1)%Z in
  let dlo := inject_Z lo * pow10 ex in
  let dhi := inject_Z hi * pow10 ex in
  match round_trips x dlo, round_trips x dhi with
  | true, false => Some (lo, ex)
  | false, true => Some (hi, ex)
  | false, false => None
  | true, true =>
      match Qcompare (x - dlo) (dhi - x) with
      | Lt => Some (lo, ex)
      | Gt => Some (hi, ex)
      | Eq => Some (if Z.even lo then lo else hi, ex)
      end
  end.

Fixpoint shortest_from (fuel : nat) (n : Z) (x : Q) : Z * Z :=
  match fuel with
  | O => (0%Z, 0%Z)
  | S f =>
      match candidate x n with
      | Some c => c
      | None => shortest_from f (n + 1)%Z x
      end
  end.

(** the shortest decimal that reads back as [x]: 17 digits always do *)
Definition shortest (x : Q) : Z * Z := shortest_from 17 1 x.

Fixpoint strip_zeros (fuel : nat) (c ex : Z) : Z * Z :=
  match fuel with
  | O => (c, ex)
  | S f =>
      if andb (c mod 10 =? 0)%Z (negb (c =? 0)%Z)
      then strip_zeros f (c / 10)%Z (ex + 1)%Z
      else (c, ex)
  end.

(** [repr] lays the digits out: exponent notation when the decimal point
    falls at or before -4 or after 16, a fractional part always present. *)
Definition layout (c ex : Z) : string :=
  let ds := digits c in
  let nd := Z.of_nat (String.length ds) in
  let decpt := (nd + ex)%Z in
  if orb (decpt <=? -4)%Z (16 <? decpt)%Z then
    let mant := if (nd =? 1)%Z then ds
                else substring 0 1 ds +++ "." +++ substr_from 1 ds in
    let e := (decpt - 1)%Z in
    mant +++ "e" +++ (if (e <? 0)%Z then "-" else "+") +++ format_0d 2 (Z.abs e)
  else if (decpt <=? 0)%Z then "0." +++ zeros (Z.to_nat (- decpt)) +++ ds
  else if (nd <=? decpt)%Z then ds +++ zeros (Z.to_nat (decpt - nd)) +++ ".0"
  else substring 0 (Z.to_nat decpt) ds +++ "." +++ substr_from (Z.to_nat decpt) ds.

Definition repr_pos (x : Q) : string :=
  let '(c0, ex0) := shortest x in
  let '(c, ex) := strip_zeros 18 c0 ex0 in
  layout c ex.

Definition repr (x : Q) : string :=
  match Qcompare x 0 with
  | Eq => "0.0"
  | Gt => repr_pos x
  | Lt => "-" +++ repr_pos (Qopp x)
  end.
End Repr.

(* ================================================================== *)
(** ** The Mersenne Twister behind [random.seed(42)] *)

Module MT19937.
Definition uint32 (x : Z) : Z := Z.land x 0xffffffff.

Fixpoint list_set (l : list Z) (i : nat) (v : Z) : list Z :=
  match l, i with
  | [], _ => []
  | _ :: t, O => v :: t
  | h :: t, S i' => h :: list_set t i' v
  end.
Definition mt_get (mt : list Z) (i : Z) : Z := nth (Z.to_nat i) mt 0.
Definition mt_set (mt : list Z) (i v : Z) : list Z := list_set mt (Z.to_nat i) v.

Fixpoint init_genrand_from (prev i : Z) (n : nat) : list Z :=
  match n with
  | O => []
  | S n' =>
      let v := uint32 (1812433253 * Z.lxor prev (Z.shiftr prev 30) + i) in
      v :: init_genrand_from v (i + 1) n'
  end.

Definition init_genrand (s : Z) : list Z :=
  let s0 := uint32 s in s0 :: init_genrand_from s0 1 623.

Definition wrap (st : list Z * Z) : list Z * Z :=
  let '(mt, i) := st in
  if 624 <=? i then (mt_set mt 0 (mt_get mt 623), 1) else (mt, i).

Fixpoint init_key_loop (key : list Z) (k : nat) (mt : list Z) (i j : Z) : list Z * Z :=
  match k with
  | O => (mt, i)
  | S k' =>
      let p := mt_get mt (i - 1) in
      let v := uint32 (Z.lxor (mt_get mt i) (Z.lxor p (Z.shiftr p 30) * 1664525)
                       + nth (Z.to_nat j) key 0 + j) in
      let '(mt', i') := wrap (mt_set mt i v, i + 1) in
      let j' := if Z.of_nat (length key) <=? j + 1 then 0 else j + 1 in
      init_key_loop key k' mt' i' j'
  end.

Fixpoint init_index_loop (k : nat) (mt : list Z) (i : Z) : list Z :=
  match k with
  | O => mt
  | S k' =>
      let p := mt_get mt (i - 1) in
      let v := uint32 (Z.lxor (mt_get mt i) (Z.lxor p (Z.shiftr p 30) * 1566083941) - i) in
      let '(mt', i') := wrap (mt_set mt i v, i + 1) in
      init_index_loop k' mt' i'
  end.

Definition init_by_array (key : list Z) : list Z :=
  let '(mt, i) :=
    init_key_loop key (Z.to_nat (Z.max 624 (Z.of_nat (length key)))) (init_genrand 19650218) 1 0 in
  mt_set (init_index_loop 623 mt i) 0 0x80000000.

Definition mix (a b : Z) : Z :=
  let y := Z.lor (Z.land a 0x80000000) (Z.land b 0x7fffffff) in
  Z.lxor (Z.shiftr y 1) (if Z.testbit y 0 then 0x9908b0df else 0).

Fixpoint twist_loop (n : nat) (kk : Z) (mt : list Z) : list Z :=
  match n with
  | O => mt
  | S n' =>
      let nxt := if kk + 1 <? 624 then kk + 1 else 0 in
      let far := if kk + 397 <? 624 then kk + 397 else kk + 397 - 624 in
      let v := Z.lxor (mt_get mt far) (mix (mt_get mt kk) (mt_get mt nxt)) in
      twist_loop n' (kk + 1) (mt_set mt kk v)
  end.
Definition twist (mt : list Z) : list Z := twist_loop 624 0 mt.

Definition temper (y : Z) : Z :=
  let y := Z.lxor y (Z.shiftr y 11) in
  let y := Z.lxor y (Z.land (Z.shiftl y 7) 0x9d2c5680) in
  let y := Z.lxor y (Z.land (Z.shiftl y 15) 0xefc60000) in
  Z.lxor y (Z.shiftr y 18).

(** the first [624 * blocks] outputs of [genrand_uint32] *)
Fixpoint outputs (blocks : nat) (mt : list Z) : list Z :=
  match blocks with
  | O => []
  | S b => let mt' := twist mt in map temper mt' ++ outputs b mt'
  end.

Fixpoint key_words (fuel : nat) (n : Z) : list Z :=
  match fuel with
  | O => []
  | S f => uint32 n :: (if n <? 0x100000000 then [] else key_words f (Z.shiftr n 32))
  end.

(** [random.seed(n)] for an int: the key is [abs(n)] in 32-bit words,
    least significant first *)
Definition seed (n : Z) : list Z :=
  init_by_array (key_words (S (Z.to_nat (Z.log2 (Z.abs n)))) (Z.abs n)).

Definition tape (n : Z) (blocks : nat) : list Z := outputs blocks (seed n).
End MT19937.

(* ================================================================== *)
(** ** The [random] module over a tape of generator outputs *)

Module Random.
Import Float64.

Definition Rand (A : Type) : Type := M (list Z) A.

Definition genrand_uint32 : Rand Z :=
  fun t => match t with
           | [] => Raise Starved []
           | w :: t' => Ok (MT19937.uint32 w) t'
           end.

Definition bit_length (n : Z) : Z := if n =? 0 then 0 else Z.log2 (Z.abs n) + 1.

(** [r = getrandbits(k); while r >= n: r = getrandbits(k)], for
    [k <= 32], where [getrandbits(k)] is [genrand_uint32() >> (32 - k)].
    The loop is the recursion on the tape. *)
Fixpoint randbelow_loop (n k : Z) (t : list Z) : result (list Z) Z :=
  match t with
  | [] => Raise Starved []
  | w :: t' =>
      let r := Z.shiftr (MT19937.uint32 w) (32 - k) in
      if r <? n then Ok r t' else randbelow_loop n k t'
  end.

(** [_randbelow(n)], for [n < 2^32] *)
Definition randbelow (n : Z) : Rand Z :=
  if n =? 0 then ret 0 else randbelow_loop n (bit_length n).

(** [randint(a, b)] is [randrange(a, b + 1)] *)
Definition randint (a b : Z) : Rand Z :=
  if b + 1 - a <=? 0 then raise ValueError
  else let* r := randbelow (b + 1 - a) in ret (a + r).

Definition choice {A} (seq : list A) : Rand A :=
  match seq with
  | [] => raise IndexError
  | _ => let* i := randbelow (Z.of_nat (length seq)) in
         of_option IndexError (seq !! Z.to_nat i)
  end.

(** [random()]: 53 bits out of two words, scaled by 2^-53 *)
Definition random : Rand Q :=
  let* a := genrand_uint32 in
  let* b := genrand_uint32 in
  ret (Qred (inject_Z (Z.shiftr a 5 * 67108864 + Z.shiftr b 6) / inject_Z 9007199254740992)).

(** [uniform(a, b)] is [a + (b - a) * random()] *)
Definition uniform (a b : Q) : Rand Q :=
  let* r := random in
  ret (fadd a (fmul (fsub b a) r)).
End Random.

(* ================================================================== *)
(** ** datetime and timedelta *)

Module DateTime.
Import PyStr.

Record datetime : Type := mk_datetime {
  year : Z; month : Z; day : Z; hour : Z; minute : Z; second : Z
}.

(** a timedelta, in seconds *)
Definition timedelta_minutes (m : Z) : Z := 60 * m.
Definition timedelta_hours (h : Z) : Z := 3600 * h.

Definition is_leap (y : Z) : bool :=
  andb (y mod 4 =? 0) (orb (negb (y mod 100 =? 0)) (y mod 400 =? 0)).

Definition DAYS_IN_MONTH : list Z := [0; 31; 28; 31; 30; 31; 30; 31; 31; 30; 31; 30; 31].
Definition DAYS_BEFORE_MONTH : list Z :=
  [0; 0; 31; 59; 90; 120; 151; 181; 212; 243; 273; 304; 334].

Definition days_before_year (y : Z) : Z :=
  (y - 1) * 365 + (y - 1) / 4 - (y - 1) / 100 + (y - 1) / 400.
Definition days_in_month (y m : Z) : Z :=
  if andb (m =? 2) (is_leap y) then 29 else nth (Z.to_nat m) DAYS_IN_MONTH 0.
Definition days_before_month (y m : Z) : Z :=
  nth (Z.to_nat m) DAYS_BEFORE_MONTH 0 + (if andb (2 <? m) (is_leap y) then 1 else 0).

Definition ymd2ord (y m d : Z) : Z := days_before_year y + days_before_month y m + d.

Definition ord2ymd (ord : Z) : Z * Z * Z :=
  let n := ord - 1 in
  let n400 := n / 146097 in let n := n mod 146097 in
  let n100 := n / 36524 in let n := n mod 36524 in
  let n4 := n / 1461 in let n := n mod 1461 in
  let n1 := n / 365 in let n := n mod 365 in
  let y := n400 * 400 + 1 + n100 * 100 + n4 * 4 + n1 in
  if orb (n1 =? 4) (n100 =? 4) then (y - 1, 12, 31)
  else
    let leapyear := andb (n1 =? 3) (orb (negb (n4 =? 24)) (n100 =? 3)) in
    let m := Z.shiftr (n + 50) 5 in
    let preceding :=
      nth (Z.to_nat m) DAYS_BEFORE_MONTH 0 + (if andb (2 <? m) leapyear then 1 else 0) in
    if n <? preceding then
      let m' := m - 1 in
      let preceding' :=
        preceding - (nth (Z.to_nat m') DAYS_IN_MONTH 0
                     + (if andb (m' =? 2) leapyear then 1 else 0)) in
      (y, m', n - preceding' + 1)
    else (y, m, n - preceding + 1).

(** [dt + timedelta(seconds = delta)] *)
Definition add (dt : datetime) (delta : Z) : datetime :=
  let secs := hour dt * 3600 + minute dt * 60 + second dt + delta in
  let '(y, m, d) := ord2ymd (ymd2ord (year dt) (month dt) (day dt) + secs / 86400) in
  let s := secs mod 86400 in
  mk_datetime y m d (s / 3600) (s mod 3600 / 60) (s mod 60).

(** [dt.strftime("%Y-%m-%d %H:%M:%S")] *)
Definition strftime (dt : datetime) : string :=
  format_0d 4 (year dt) +++ "-" +++ format_0d 2 (month dt) +++ "-" +++ format_0d 2 (day dt)
  +++ " " +++ format_0d 2 (hour dt) +++ ":" +++ format_0d 2 (minute dt)
  +++ ":" +++ format_0d 2 (second dt).
End DateTime.

(* ================================================================== *)
(** ** Python values: insertion-ordered dicts, records, the object heap *)

Section ODict.
Context {K V : Type} (eqb : K -> K -> bool).

(** [d.get(k)] *)
Fixpoint od_get (d : list (K * V)) (k : K) : option V :=
  match d with
  | [] => None
  | (k', v) :: d' => if eqb k' k then Some v else od_get d' k
  end.

(** [d[k] = v]: an existing key keeps its position, a new one goes last *)
Fixpoint od_set (d : list (K * V)) (k : K) (v : V) : list (K * V) :=
  match d with
  | [] => [(k, v)]
  | (k', v') :: d' => if eqb k' k then (k', v) :: d' else (k', v') :: od_set d' k v
  end.
End ODict.

Definition od_keys {K V} (d : list (K * V)) : list K := map fst d.
Definition od_values {K V} (d : list (K * V)) : list V := map snd d.

Inductive value : Type :=
  | VInt (n : Z)
  | VStr (s : string)
  | VFloat (x : Q).

(** a record is a dict from field name to value *)
Definition record : Type := list (string * value).

(** [seq[i]], a negative index counting from the end *)
Definition py_index {A} (seq : list A) (i : Z) : option A :=
  if i <? 0 then
    (if Z.of_nat (length seq) + i <? 0 then None else seq !! Z.to_nat (Z.of_nat (length seq) + i))
  else seq !! Z.to_nat i.

(** [v * f] for a float [f] *)
Definition mul_float (v : value) (f : Q) : option Q :=
  match v with
  | VFloat x => Some (Float64.fmul x f)
  | VInt n => Some (Float64.fmul (Float64.of_int n) f)
  | VStr _ => None
  end.

(** [str(v)] *)
Definition str_value (v : value) : string :=
  match v with
  | VInt n => PyStr.str_int n
  | VStr s => s
  | VFloat x => Repr.repr x
  end.

(** The local variables of a scenario pipeline.  Records are objects:
    [heap] holds them, [snapshot] (the dict [customers] or [products]) and
    [delta_records] (the list [delta1_records] or [delta2_records]) hold
    references into it. *)
Record Env : Type := mk_env {
  heap : list record;
  snapshot : list (Z * nat);
  delta_records : list nat
}.

Definition empty_env : Env := mk_env [] [] [].

Definition deref (h : list record) (r : nat) : record := h !!! r.

(** [snapshot[i] = record], with [record] a new object; [append] says
    whether [delta_records.append(record)] comes with it *)
Definition insert_record (append : bool) (i : Z) (rec : record) (st : Env) : Env :=
  let r := length (heap st) in
  mk_env (heap st ++ [rec]) (od_set Z.eqb (snapshot st) i r)
         (if append then delta_records st ++ [r] else delta_records st).

(** [snapshot[i]] *)
Definition snapshot_ref {S} (st : Env) (i : Z) : M S nat :=
  of_option KeyError (od_get Z.eqb (snapshot st) i).

(** [snapshot[i][key]] *)
Definition get_field {S} (st : Env) (i : Z) (key : string) : M S value :=
  let* r := snapshot_ref st i in
  of_option KeyError (od_get String.eqb (deref (heap st) r) key).

(** [snapshot[i][key] = v] *)
Definition set_field {S} (st : Env) (i : Z) (key : string) (v : value) : M S Env :=
  let* r := snapshot_ref st i in
  ret (mk_env (<[r := od_set String.eqb (deref (heap st) r) key v]> (heap st))
              (snapshot st) (delta_records st)).

(** [delta_records.append(snapshot[i])] *)
Definition append_ref {S} (st : Env) (i : Z) : M S Env :=
  let* r := snapshot_ref st i in
  ret (mk_env (heap st) (snapshot st) (delta_records st ++ [r])).

Definition new_delta (st : Env) : Env := mk_env (heap st) (snapshot st) [].

Definition snapshot_values (st : Env) : list record :=
  map (deref (heap st)) (od_values (snapshot st)).
Definition delta_values (st : Env) : list record :=
  map (deref (heap st)) (delta_records st).

(* ================================================================== *)
(** ** The csv module: the excel dialect, minimal quoting *)

Module Csv.
Definition QUOTE : ascii := ascii_of_nat 34.
Definition CR : ascii := ascii_of_nat 13.
Definition LF : ascii := ascii_of_nat 10.
Definition CRLF : string := String CR (String LF EmptyString).

Definition special (c : ascii) : bool :=
  orb (Ascii.eqb c ",") (orb (Ascii.eqb c QUOTE) (orb (Ascii.eqb c CR) (Ascii.eqb c LF))).

Fixpoint has_special (s : string) : bool :=
  match s with
  | EmptyString => false
  | String c s' => orb (special c) (has_special s')
  end.

Fixpoint double_quotes (s : string) : string :=
  match s with
  | EmptyString => EmptyString
  | String c s' =>
      if Ascii.eqb c QUOTE then String QUOTE (String QUOTE (double_quotes s'))
      else String c (double_quotes s')
  end.

Definition field (s : string) : string :=
  if has_special s then String QUOTE (double_quotes s +++ String QUOTE EmptyString) else s.

Fixpoint join (fields : list string) : string :=
  match fields with
  | [] => EmptyString
  | [f] => f
  | f :: fields' => f +++ "," +++ join fields'
  end.

(** one line of output; a lone empty field is written quoted *)
Definition row (fields : list string) : string :=
  match fields with
  | [EmptyString] => String QUOTE (String QUOTE CRLF)
  | _ => join (map field fields) +++ CRLF
  end.

(** [DictWriter._dict_to_list] with [extrasaction='raise'] and
    [restval=''] *)
Definition dict_to_list (fieldnames : list string) (rowdict : record) : option (list string) :=
  if forallb (fun k => existsb (String.eqb k) fieldnames) (od_keys rowdict)
  then Some (map (fun k => match od_get String.eqb rowdict k with
                           | Some v => str_value v
                           | None => EmptyString
                           end) fieldnames)
  else None.

(** [writerows]: the text written so far, and whether every row was *)
Fixpoint writerows (fieldnames : list string) (rows : list record) (out : string)
  : string * bool :=
  match rows with
  | [] => (out, true)
  | r :: rows' =>
      match dict_to_list fieldnames r with
      | Some cells => writerows fieldnames rows' (out +++ row cells)
      | None => (out, false)
      end
  end.
End Csv.

(* ================================================================== *)
(** ** The world: the generator and the files *)

Record World : Type := mk_world {
  rng : list Z;
  files : gmap string string
}.

Definition IO (A : Type) : Type := M World A.

Definition lift {A} (m : Random.Rand A) : IO A :=
  fun w => match m (rng w) with
           | Ok a t => Ok a (mk_world t (files w))
           | Raise e t => Raise e (mk_world t (files w))
           end.

(** [open(filepath, 'w')], the writes, and the close *)
Definition write_file (filepath content : string) (w : World) : World :=
  mk_world (rng w) (<[filepath := content]> (files w)).

Definition write_csv (filepath : string) (records : list record) : IO unit :=
  match records with
  | [] => ret tt
  | first :: _ =>
      let fieldnames := od_keys first in
      fun w =>
        match Csv.writerows fieldnames records (Csv.row fieldnames) with
        | (content, true) => Ok tt (write_file filepath content w)
        | (content, false) => Raise ValueError (write_file filepath content w)
        end
  end.

(* ================================================================== *)
(** ** generate_sample_data.py *)

Import Float64 PyStr Random DateTime.

Definition OUTPUT_DIR : string := "sample-data".
Definition SCENARIO_WITH_TS_DIR : string := OUTPUT_DIR +++ "/scenario_with_timestamp".
Definition SCENARIO_NO_TS_DIR : string := OUTPUT_DIR +++ "/scenario_without_timestamp".

Definition FIRST_NAMES : list string := [
  "James"; "Mary"; "John"; "Patricia"; "Robert"; "Jennifer"; "Michael"; "Linda";
  "William"; "Elizabeth"; "David"; "Barbara"; "Richard"; "Susan"; "Joseph"; "Jessica";
  "Thomas"; "Sarah"; "Charles"; "Karen"; "Christopher"; "Nancy"; "Daniel"; "Lisa";
  "Matthew"; "Betty"; "Anthony"; "Margaret"; "Mark"; "Sandra"
].

Definition LAST_NAMES : list string := [
  "Smith"; "Johnson"; "Williams"; "Brown"; "Jones"; "Garcia"; "Miller"; "Davis";
  "Rodriguez"; "Martinez"; "Hernandez"; "Lopez"; "Gonzalez"; "Wilson"; "Anderson";
  "Thomas"; "Taylor"; "Moore"; "Jackson"; "Martin"; "Lee"; "Perez"; "Thompson";
  "White"; "Harris"; "Sanchez"; "Clark"; "Ramirez"; "Lewis"; "Robinson"
].

Definition CITIES : list string := [
  "New York"; "Los Angeles"; "Chicago"; "Houston"; "Phoenix"; "Philadelphia";
  "San Antonio"; "San Diego"; "Dallas"; "San Jose"; "Austin"; "Jacksonville";
  "Fort Worth"; "Columbus"; "Charlotte"; "Seattle"; "Denver"; "Boston"
].

Definition STATES : list string := [
  "NY"; "CA"; "IL"; "TX"; "AZ"; "PA"; "TX"; "CA"; "TX"; "CA";
  "TX"; "FL"; "TX"; "OH"; "NC"; "WA"; "CO"; "MA"
].

Definition PRODUCT_CATEGORIES : list string :=
  ["Electronics"; "Clothing"; "Home & Garden"; "Sports"; "Books"; "Toys"].
Definition PRODUCT_ADJECTIVES : list string :=
  ["Premium"; "Basic"; "Pro"; "Ultra"; "Eco"; "Smart"; "Classic"; "Modern"].
Definition PRODUCT_NOUNS : list string :=
  ["Widget"; "Gadget"; "Device"; "Tool"; "Kit"; "Set"; "Pack"; "Bundle"].

Definition len {A} (l : list A) : Z := Z.of_nat (length l).

Definition generate_email (first_name last_name : string) (customer_id : Z) : Rand string :=
  let domains := ["gmail.com"; "yahoo.com"; "outlook.com"; "hotmail.com"; "company.com"] in
  let* domain := choice domains in
  ret (lower first_name +++ "." +++ lower last_name +++ str_int customer_id +++ "@" +++ domain).

Definition generate_phone : Rand string :=
  let* area := randint 200 999 in
  let* exchange := randint 200 999 in
  let* line := randint 1000 9999 in
  ret ("(" +++ str_int area +++ ") " +++ str_int exchange +++ "-" +++ str_int line).

Definition format_timestamp (dt : datetime) : string := strftime dt.

(** *** Scenario A: customers, with a timestamp column *)

Definition generate_customer_record (customer_id : Z) (timestamp : datetime) : Rand record :=
  let* first_name := choice FIRST_NAMES in
  let* last_name := choice LAST_NAMES in
  let* city_idx := randint 0 (len CITIES - 1) in
  let* email := generate_email first_name last_name customer_id in
  let* phone := generate_phone in
  let* city := of_option IndexError (py_index CITIES city_idx) in
  let* state := of_option IndexError (py_index STATES city_idx) in
  let* credit := uniform (of_int 1000) (of_int 50000) in
  ret [("customer_id", VInt customer_id);
       ("first_name", VStr first_name);
       ("last_name", VStr last_name);
       ("email", VStr email);
       ("phone", VStr phone);
       ("city", VStr city);
       ("state", VStr state);
       ("credit_limit", VFloat (round_ndigits credit 2));
       ("last_updated_ts", VStr (format_timestamp timestamp))].

(** the body of the three loops that add customers; [spread] is the bound
    of the minutes drawn *)
Definition add_customer (append : bool) (time : datetime) (spread : Z) (i : Z) (st : Env)
  : Rand Env :=
  let* minutes := randint 0 spread in
  let timestamp := add time (timedelta_minutes minutes) in
  let* rec := generate_customer_record i timestamp in
  ret (insert_record append i rec st).

(** the body of [for cid in [3, 7, 15]] *)
Definition modify_customer_delta1 (delta1_time : datetime) (cid : Z) (st : Env) : Rand Env :=
  let* minutes := randint 0 30 in
  let timestamp := add delta1_time (timedelta_minutes minutes) in
  let* old := get_field st cid "credit_limit" in
  let* scaled := of_option TypeError (mul_float old (lit 12 1)) in
  let* st := set_field st cid "credit_limit" (VFloat (round_ndigits scaled 2)) in
  let* st := set_field st cid "last_updated_ts" (VStr (format_timestamp timestamp)) in
  append_ref st cid.

(** the body of [for cid in [1, 10, 21, 25]] *)
Definition modify_customer_delta2 (delta2_time : datetime) (cid : Z) (st : Env) : Rand Env :=
  let* minutes := randint 0 30 in
  let timestamp := add delta2_time (timedelta_minutes minutes) in
  let* city := choice CITIES in
  let* st := set_field st cid "city" (VStr city) in
  let* phone := generate_phone in
  let* st := set_field st cid "phone" (VStr phone) in
  let* st := set_field st cid "last_updated_ts" (VStr (format_timestamp timestamp)) in
  append_ref st cid.

Definition base_time : datetime := mk_datetime 2025 1 1 10 0 0.
Definition delta1_time : datetime := add base_time (timedelta_hours 2).
Definition delta2_time : datetime := add base_time (timedelta_hours 4).

Definition customers_file1_path : string :=
  SCENARIO_WITH_TS_DIR +++ "/customers_with_ts_initial.csv".
Definition customers_file2_path : string :=
  SCENARIO_WITH_TS_DIR +++ "/customers_with_ts_delta1.csv".
Definition customers_file3_path : string :=
  SCENARIO_WITH_TS_DIR +++ "/customers_with_ts_delta2.csv".

(** the three generations, up to the point where each file is written *)
Definition customers_initial : Rand Env :=
  for_each (range 1 21) (add_customer false base_time 60) empty_env.

Definition customers_delta1 (st : Env) : Rand Env :=
  let* st := for_each (range 21 26) (add_customer true delta1_time 30) (new_delta st) in
  for_each [3; 7; 15] (modify_customer_delta1 delta1_time) st.

Definition customers_delta2 (st : Env) : Rand Env :=
  let* st := for_each (range 26 29) (add_customer true delta2_time 30) (new_delta st) in
  for_each [1; 10; 21; 25] (modify_customer_delta2 delta2_time) st.

Definition generate_customers_with_timestamp : IO unit :=
  let* customers := lift customers_initial in
  let* _ := write_csv customers_file1_path (snapshot_values customers) in
  let* delta1 := lift (customers_delta1 customers) in
  let* _ := write_csv customers_file2_path (delta_values delta1) in
  let* delta2 := lift (customers_delta2 delta1) in
  write_csv customers_file3_path (delta_values delta2).

(** *** Scenario B: products, without a timestamp column *)

Definition generate_product_record (product_id : Z) : Rand record :=
  let* category := choice PRODUCT_CATEGORIES in
  let* adjective := choice PRODUCT_ADJECTIVES in
  let* noun := choice PRODUCT_NOUNS in
  let name := adjective +++ " " +++ noun +++ " " +++ str_int product_id in
  let* price := uniform (lit 999 2) (lit 99999 2) in
  let* stock_quantity := randint 0 500 in
  let* supplier := randint 1 20 in
  let* is_active := choice ["true"; "true"; "true"; "false"] in
  ret [("product_id", VStr ("PROD-" +++ format_0d 4 product_id));
       ("product_name", VStr name);
       ("category", VStr category);
       ("price", VFloat (round_ndigits price 2));
       ("stock_quantity", VInt stock_quantity);
       ("supplier_id", VStr ("SUP-" +++ format_0d 3 supplier));
       ("is_active", VStr is_active)].

Definition add_product (append : bool) (i : Z) (st : Env) : Rand Env :=
  let* rec := generate_product_record i in
  ret (insert_record append i rec st).

(** the body of [for pid in [2, 8, 15, 22]] *)
Definition modify_product_delta1 (pid : Z) (st : Env) : Rand Env :=
  let* old := get_field st pid "price" in
  let* factor := uniform (lit 8 1) (lit 13 1) in
  let* scaled := of_option TypeError (mul_float old factor) in
  let* st := set_field st pid "price" (VFloat (round_ndigits scaled 2)) in
  let* stock_quantity := randint 0 500 in
  let* st := set_field st pid "stock_quantity" (VInt stock_quantity) in
  append_ref st pid.

(** the body of [for pid in [1, 5, 12, 26, 28, 30]] *)
Definition modify_product_delta2 (pid : Z) (st : Env) : Rand Env :=
  let* old := get_field st pid "price" in
  let* factor := uniform (lit 9 1) (lit 12 1) in
  let* scaled := of_option TypeError (mul_float old factor) in
  let* st := set_field st pid "price" (VFloat (round_ndigits scaled 2)) in
  let* stock_quantity := randint 0 500 in
  let* st := set_field st pid "stock_quantity" (VInt stock_quantity) in
  let* is_active := choice ["true"; "false"] in
  let* st := set_field st pid "is_active" (VStr is_active) in
  append_ref st pid.

Definition products_file1_path : string :=
  SCENARIO_NO_TS_DIR +++ "/products_no_ts_initial.csv".
Definition products_file2_path : string :=
  SCENARIO_NO_TS_DIR +++ "/products_no_ts_delta1.csv".
Definition products_file3_path : string :=
  SCENARIO_NO_TS_DIR +++ "/products_no_ts_delta2.csv".

Definition products_initial : Rand Env :=
  for_each (range 1 26) (add_product false) empty_env.

Definition products_delta1 (st : Env) : Rand Env :=
  let* st := for_each (range 26 31) (add_product true) (new_delta st) in
  for_each [2; 8; 15; 22] modify_product_delta1 st.

Definition products_delta2 (st : Env) : Rand Env :=
  let* st := for_each (range 31 35) (add_product true) (new_delta st) in
  for_each [1; 5; 12; 26; 28; 30] modify_product_delta2 st.

Definition generate_products_without_timestamp : IO unit :=
  let* products := lift products_initial in
  let* _ := write_csv products_file1_path (snapshot_values products) in
  let* delta1 := lift (products_delta1 products) in
  let* _ := write_csv products_file2_path (delta_values delta1) in
  let* delta2 := lift (products_delta2 delta1) in
  write_csv products_file3_path (delta_values delta2).

Definition main : IO unit :=
  let* _ := generate_customers_with_timestamp in
  generate_products_without_timestamp.

(** the run of the script: [random.seed(42)] at import, then [main()] *)
Definition script (fs : gmap string string) : result World unit :=
  main (mk_world (MT19937.tape 42 2) fs).

(* ================================================================== *)
(** ** Specifications *)

(** [spec m P]: wherever [m] runs, it returns a value satisfying [P], or the
    tape ends first; it raises no Python exception. *)
Definition spec {S A} (m : M S A) (P : A -> Prop) : Prop :=
  forall s, match m s with
            | Ok a _ => P a
            | Raise e _ => e = Starved
            end.

(** [R2 lo hi v]: [v] is [round(y, 2)] for a float [y] between [lo] and [hi] *)
Definition R2 (lo hi : Q) (v : Q) : Prop :=
  exists y, (lo <= y)%Q /\ (y <= hi)%Q /\ v = round_ndigits y 2.

(** *** The records of the two scenarios *)

Definition CUSTOMER_COLUMNS : list string :=
  ["customer_id"; "first_name"; "last_name"; "email"; "phone"; "city"; "state";
   "credit_limit"; "last_updated_ts"].

Definition PRODUCT_COLUMNS : list string :=
  ["product_id"; "product_name"; "category"; "price"; "stock_quantity"; "supplier_id";
   "is_active"].

Definition customer_record (id : Z) (first_name last_name email phone city state : string)
    (credit : Q) (ts : string) : record :=
  [("customer_id", VInt id); ("first_name", VStr first_name); ("last_name", VStr last_name);
   ("email", VStr email); ("phone", VStr phone); ("city", VStr city); ("state", VStr state);
   ("credit_limit", VFloat credit); ("last_updated_ts", VStr ts)].

Definition product_record (id : Z) (name category : string) (price : Q) (stock : Z)
    (supplier is_active : string) : record :=
  [("product_id", VStr ("PROD-" +++ format_0d 4 id)); ("product_name", VStr name);
   ("category", VStr category); ("price", VFloat price); ("stock_quantity", VInt stock);
   ("supplier_id", VStr supplier); ("is_active", VStr is_active)].

(** a pair of [CITIES] and [STATES] at one index *)
Definition aligned (city state : string) : Prop :=
  exists i : nat, CITIES !! i = Some city /\ STATES !! i = Some state.

(** the record of customer [id], its credit limit satisfying [C] *)
Definition Customer (C : Q -> Prop) (id : Z) (rec : record) : Prop :=
  exists fn ln email phone city state credit ts,
    rec = customer_record id fn ln email phone city state credit ts /\ C credit.

(** the record of product [id], its price satisfying [C] *)
Definition Product (C : Q -> Prop) (id : Z) (rec : record) : Prop :=
  exists name category price stock supplier is_active,
    rec = product_record id name category price stock supplier is_active /\ C price.

(** the credit limit of a customer, [scaled] listing those multiplied by 1.2 *)
Definition credit_range (scaled : list Z) (id : Z) : Q -> Prop :=
  if bool_decide (id ∈ scaled)
  then R2 (of_int 1200) (of_int 60000)
  else R2 (of_int 1000) (of_int 50000).

(** the price of a product, [repriced] listing those multiplied by a factor
    drawn between 0.8 and 1.3 *)
Definition price_range (repriced : list Z) (id : Z) : Q -> Prop :=
  if bool_decide (id ∈ repriced)
  then R2 (fmul (lit 999 2) (lit 8 1)) (fmul (lit 99999 2) (lit 13 1))
  else R2 (lit 999 2) (lit 99999 2).

(** *** The state of a pipeline

    Identifiers are given out from 1 and every record is allocated once, so
    after [n] insertions the snapshot maps [k + 1] to the reference [k]. *)
Definition snap (n : nat) : list (Z * nat) :=
  map (fun k => (Z.of_nat k + 1, k)) (seq 0 n).

Definition Inv (P : Z -> record -> Prop) (n : nat) (D : list nat) (st : Env) : Prop :=
  snapshot st = snap n /\ delta_records st = D /\ length (heap st) = n /\
  forall k rec, heap st !! k = Some rec -> P (Z.of_nat k + 1) rec.

(** *** The text of a file *)

Definition csv_lines (table : list (list string)) : string :=
  fold_right (fun cells text => Csv.row cells +++ text) EmptyString table.

Definition cells (rec : record) : list string := map str_value (od_values rec).

(** the header and one line per record, for records with the same keys *)
Definition csv_text (records : list record) : string :=
  match records with
  | [] => EmptyString
  | first :: _ => csv_lines (od_keys first :: map cells records)
  end.

(** what [write_csv] leaves in the file system when it returns *)
Definition written (filepath : string) (records : list record) (fs : gmap string string)
  : gmap string string :=
  match records with
  | [] => fs
  | first :: _ =>
      <[filepath := (Csv.writerows (od_keys first) records (Csv.row (od_keys first))).1]> fs
  end.

(** the record lists the three [write_csv] calls of a scenario receive *)
Definition customers_records : Rand (list record * list record * list record) :=
  let* customers := customers_initial in
  let* delta1 := customers_delta1 customers in
  let* delta2 := customers_delta2 delta1 in
  ret (snapshot_values customers, delta_values delta1, delta_values delta2).

Definition products_records : Rand (list record * list record * list record) :=
  let* products := products_initial in
  let* delta1 := products_delta1 products in
  let* delta2 := products_delta2 delta1 in
  ret (snapshot_values products, delta_values delta1, delta_values delta2).

Definition output_paths : list string :=
  [customers_file1_path; customers_file2_path; customers_file3_path;
   products_file1_path; products_file2_path; products_file3_path].

(** digits after the decimal point of a number written in positional
    notation *)
Fixpoint after_point (s : string) : option nat :=
  match s with
  | EmptyString => None
  | String c s' => if Ascii.eqb c "." then Some (String.length s') else after_point s'
  end.

(** *** What the invariants say of the written records *)

Definition CustomerAt (scaled : list Z) (id : Z) (rec : record) : Prop :=
  Customer (credit_range scaled id) id rec.

Definition ProductAt (repriced : list Z) (id : Z) (rec : record) : Prop :=
  Product (price_range repriced id) id rec.

Definition ids_from (a m : nat) : list Z := map (fun k : nat => Z.of_nat k + 1) (seq a m).

(** a list [write_csv] accepts: every record has the keys of the first,
    each once *)
Definition homogeneous (records : list record) : Prop :=
  match records with
  | [] => True
  | first :: rest => NoDup (od_keys first) /\ Forall (fun r => od_keys r = od_keys first) rest
  end.

(** the records of the initial, delta1 and delta2 customer files *)
Definition customer_files (c : list record * list record * list record) : Prop :=
  Forall2 (CustomerAt []) (range 1 21) c.1.1 /\
  Forall2 (CustomerAt [3; 7; 15]) [21; 22; 23; 24; 25; 3; 7; 15] c.1.2 /\
  Forall2 (CustomerAt []) [26; 27; 28; 1; 10; 21; 25] c.2.

(** the records of the initial, delta1 and delta2 product files *)
Definition product_files (p : list record * list record * list record) : Prop :=
  Forall2 (ProductAt []) (range 1 26) p.1.1 /\
  Forall2 (ProductAt [2; 8; 15; 22]) [26; 27; 28; 29; 30; 2; 8; 15; 22] p.1.2 /\
  Forall2 (ProductAt [1; 5; 12; 26; 28; 30])
          [31; 32; 33; 34; 1; 5; 12; 26; 28; 30] p.2.

(** the six files written over a file system *)
Definition six_files (c p : list record * list record * list record)
    (fs : gmap string string) : gmap string string :=
  <[products_file3_path := csv_text p.2]>
    (<[products_file2_path := csv_text p.1.2]>
       (<[products_file1_path := csv_text p.1.1]>
          (<[customers_file3_path := csv_text c.2]>
             (<[customers_file2_path := csv_text c.1.2]>
                (<[customers_file1_path := csv_text c.1.1]> fs))))).

(** *** Reading the files *)

(** the text of a product identifier *)
Definition product_id_text (id : Z) : string := "PROD-" +++ format_0d 4 id.

(** the cells of one column *)
Definition column (i : nat) (rows : list (list string)) : list string :=
  map (fun row => nth i row EmptyString) rows.

(** the float under [key] lies between [lo] and [hi] *)
Definition float_within (key : string) (lo hi : Q) (rec : record) : Prop :=
  exists x, od_get String.eqb rec key = Some (VFloat x) /\ (lo <= x)%Q /\ (x <= hi)%Q.

(** the world the script starts in, and the one it ends in *)
Definition script_world : World := mk_world (MT19937.tape 42 2) ∅.

Definition end_of (r : result World unit) : World :=
  match r with Ok _ w => w | Raise _ w => w end.

Definition script_end : World := end_of (main script_world).

(** a generator state whose outputs are all zero, but for the two words of
    the [random()] call that draws the credit limit of customer 3: every
    record before takes ten words *)
Definition limit_tape : list Z :=
  repeat 0 28 ++ [0xffffffff; 0xffffffff] ++ repeat 0 593.

(** a cell with one or two digits after the decimal point *)
Definition one_or_two_decimals (cell : string) : Prop :=
  after_point cell = Some 1%nat \/ after_point cell = Some 2%nat.

Fixpoint no_dot (s : string) : bool :=
  match s with
  | EmptyString => true
  | String c s' => negb (Ascii.eqb c ".") && no_dot s'
  end.

(* ================================================================== *)
(** ** The records, field by field *)

Definition EMAIL_DOMAINS : list string :=
  ["gmail.com"; "yahoo.com"; "outlook.com"; "hotmail.com"; "company.com"].

(** the text [generate_email] composes *)
Definition email_text (first_name last_name : string) (customer_id : Z) (domain : string)
  : string :=
  lower first_name +++ "." +++ lower last_name +++ str_int customer_id +++ "@" +++ domain.

(** the text [generate_phone] composes *)
Definition phone_text (area exchange line : Z) : string :=
  "(" +++ str_int area +++ ") " +++ str_int exchange +++ "-" +++ str_int line.

(** the timestamp [minutes] minutes after [time] *)
Definition stamp (time : datetime) (minutes : Z) : string :=
  format_timestamp (add time (timedelta_minutes minutes)).

(** a record as [generate_customer_record] returns it for [id], stamped
    between [time] and [time + spread] minutes *)
Definition BuiltCustomer (time : datetime) (spread : Z) (id : Z) (rec : record) : Prop :=
  exists first_name last_name domain area exchange line (city_idx : nat) city state y minutes,
    first_name ∈ FIRST_NAMES /\ last_name ∈ LAST_NAMES /\ domain ∈ EMAIL_DOMAINS /\
    200 <= area <= 999 /\ 200 <= exchange <= 999 /\ 1000 <= line <= 9999 /\
    CITIES !! city_idx = Some city /\ STATES !! city_idx = Some state /\
    (of_int 1000 <= y)%Q /\ (y <= of_int 50000)%Q /\
    0 <= minutes <= spread /\
    rec = customer_record id first_name last_name (email_text first_name last_name id domain)
            (phone_text area exchange line) city state (round_ndigits y 2)
            (stamp time minutes).

(** what the loop over [3, 7, 15] does to a record *)
Definition Rescaled (time : datetime) (old new : record) : Prop :=
  exists x minutes,
    od_get String.eqb old "credit_limit" = Some (VFloat x) /\ 0 <= minutes <= 30 /\
    new = od_set String.eqb
            (od_set String.eqb old "credit_limit"
               (VFloat (round_ndigits (fmul x (lit 12 1)) 2)))
            "last_updated_ts" (VStr (stamp time minutes)).

(** what the loop over [1, 10, 21, 25] does to a record *)
Definition Moved (time : datetime) (old new : record) : Prop :=
  exists city area exchange line minutes,
    city ∈ CITIES /\
    200 <= area <= 999 /\ 200 <= exchange <= 999 /\ 1000 <= line <= 9999 /\
    0 <= minutes <= 30 /\
    new = od_set String.eqb
            (od_set String.eqb
               (od_set String.eqb old "city" (VStr city))
               "phone" (VStr (phone_text area exchange line)))
            "last_updated_ts" (VStr (stamp time minutes)).

(** a record as [generate_product_record] returns it for [id] *)
Definition BuiltProduct (id : Z) (rec : record) : Prop :=
  exists category adjective noun y stock supplier is_active,
    category ∈ PRODUCT_CATEGORIES /\ adjective ∈ PRODUCT_ADJECTIVES /\
    noun ∈ PRODUCT_NOUNS /\
    (lit 999 2 <= y)%Q /\ (y <= lit 99999 2)%Q /\
    0 <= stock <= 500 /\ 1 <= supplier <= 20 /\ is_active ∈ ["true"; "false"] /\
    rec = product_record id (adjective +++ " " +++ noun +++ " " +++ str_int id) category
            (round_ndigits y 2) stock ("SUP-" +++ format_0d 3 supplier) is_active.

(** the price multiplied by a factor drawn between [lo] and [hi], and a
    new stock quantity *)
Definition Repriced (lo hi : Q) (old new : record) : Prop :=
  exists x factor stock,
    od_get String.eqb old "price" = Some (VFloat x) /\
    (lo <= factor)%Q /\ (factor <= hi)%Q /\ 0 <= stock <= 500 /\
    new = od_set String.eqb
            (od_set String.eqb old "price" (VFloat (round_ndigits (fmul x factor) 2)))
            "stock_quantity" (VInt stock).

(** what the loop over [1, 5, 12, 26, 28, 30] does to a record *)
Definition Reflagged (lo hi : Q) (old new : record) : Prop :=
  exists mid is_active,
    Repriced lo hi old mid /\ is_active ∈ ["true"; "false"] /\
    new = od_set String.eqb mid "is_active" (VStr is_active).

(** *** Tracking the records through the generations *)

(** [P] up to identifier [n], [Q] beyond *)
Definition ext (P Q : Z -> record -> Prop) (n : nat) (id : Z) (rec : record) : Prop :=
  if id <=? Z.of_nat n then P id rec else Q id rec.

(** [P], but for the record of [i], which [F] relates to one satisfying [P] *)
Definition upd (P : Z -> record -> Prop) (i : Z) (F : record -> record -> Prop)
    (id : Z) (rec : record) : Prop :=
  if id =? i then exists old, P i old /\ F old rec else P id rec.

(** a loop of mutation steps over the identifiers [ids] *)
Fixpoint upd_all (P : Z -> record -> Prop) (ids : list Z) (F : record -> record -> Prop)
  : Z -> record -> Prop :=
  match ids with
  | [] => P
  | i :: ids' => upd_all (upd P i F) ids' F
  end.

(** the state after a mutation step on the record of [i]: the object is
    updated in place and a reference to it joins the delta list *)
Definition modified (F : record -> record -> Prop) (i : Z) (st st' : Env) : Prop :=
  exists old new,
    heap st !! Z.to_nat (i - 1) = Some old /\ F old new /\
    st' = mk_env (<[Z.to_nat (i - 1) := new]> (heap st)) (snapshot st)
                 (delta_records st ++ [Z.to_nat (i - 1)])%list.

(** the records of the three customer files, each with its origin: built
    in its generation, or the mutation of the record an earlier file
    shows under the same identifier *)
Definition customers_history (c : list record * list record * list record) : Prop :=
  Forall2 (BuiltCustomer base_time 60) (range 1 21) c.1.1 /\
  Forall2 (BuiltCustomer delta1_time 30) (range 21 26) (take 5 c.1.2) /\
  Forall2 (fun id new => exists old,
             c.1.1 !! Z.to_nat (id - 1) = Some old /\ Rescaled delta1_time old new)
          [3; 7; 15] (drop 5 c.1.2) /\
  Forall2 (BuiltCustomer delta2_time 30) (range 26 29) (take 3 c.2) /\
  Forall2 (fun id new => exists old,
             (c.1.1 ++ take 5 c.1.2)%list !! Z.to_nat (id - 1) = Some old /\
             Moved delta2_time old new)
          [1; 10; 21; 25] (drop 3 c.2).

(** the same for the three product files *)
Definition products_history (p : list record * list record * list record) : Prop :=
  Forall2 BuiltProduct (range 1 26) p.1.1 /\
  Forall2 BuiltProduct (range 26 31) (take 5 p.1.2) /\
  Forall2 (fun id new => exists old,
             p.1.1 !! Z.to_nat (id - 1) = Some old /\ Repriced (lit 8 1) (lit 13 1) old new)
          [2; 8; 15; 22] (drop 5 p.1.2) /\
  Forall2 BuiltProduct (range 31 35) (take 4 p.2) /\
  Forall2 (fun id new => exists old,
             (p.1.1 ++ take 5 p.1.2)%list !! Z.to_nat (id - 1) = Some old /\
             Reflagged (lit 9 1) (lit 12 1) old new)
          [1; 5; 12; 26; 28; 30] (drop 4 p.2).

(** the rows of the three customer files, below the header *)
Definition customer_tables (w : World) (initial delta1 delta2 : list (list string)) : Prop :=
  files w !! customers_file1_path = Some (csv_lines (CUSTOMER_COLUMNS :: initial)) /\
  files w !! customers_file2_path = Some (csv_lines (CUSTOMER_COLUMNS :: delta1)) /\
  files w !! customers_file3_path = Some (csv_lines (CUSTOMER_COLUMNS :: delta2)).

(** the rows of the three product files, below the header *)
Definition product_tables (w : World) (initial delta1 delta2 : list (list string)) : Prop :=
  files w !! products_file1_path = Some (csv_lines (PRODUCT_COLUMNS :: initial)) /\
  files w !! products_file2_path = Some (csv_lines (PRODUCT_COLUMNS :: delta1)) /\
  files w !! products_file3_path = Some (csv_lines (PRODUCT_COLUMNS :: delta2)).

(** *** Reading the rows *)

(** the cell of column [i] *)
Definition cell (i : nat) (row : list string) : string := nth i row EmptyString.

(** the timestamp of 1 January 2025 at [h]:[m]:00 *)
Definition clock (h m : Z) : string :=
  "2025-01-01 " +++ format_0d 2 h +++ ":" +++ format_0d 2 m +++ ":00".

(** [new] has the keys of [old], and its values but under [keys] *)
Definition same_but (keys : list string) (old new : record) : Prop :=
  od_keys new = od_keys old /\
  forall key, key ∉ keys -> od_get String.eqb new key = od_get String.eqb old key.

(** the float under [key] *)
Definition float_at (key : string) (rec : record) (x : Q) : Prop :=
  od_get String.eqb rec key = Some (VFloat x).

(** what every customer record in a file looks like *)
Definition CustomerShape (id : Z) (rec : record) : Prop :=
  exists first_name last_name domain area exchange line city state credit ts,
    first_name ∈ FIRST_NAMES /\ last_name ∈ LAST_NAMES /\ domain ∈ EMAIL_DOMAINS /\
    200 <= area <= 999 /\ 200 <= exchange <= 999 /\ 1000 <= line <= 9999 /\
    city ∈ CITIES /\ state ∈ STATES /\
    rec = customer_record id first_name last_name (email_text first_name last_name id domain)
            (phone_text area exchange line) city state credit ts.

(** what every product record in a file looks like *)
Definition ProductShape (id : Z) (rec : record) : Prop :=
  exists category adjective noun price stock supplier is_active,
    category ∈ PRODUCT_CATEGORIES /\ adjective ∈ PRODUCT_ADJECTIVES /\
    noun ∈ PRODUCT_NOUNS /\
    0 <= stock <= 500 /\ 1 <= supplier <= 20 /\ is_active ∈ ["true"; "false"] /\
    rec = product_record id (adjective +++ " " +++ noun +++ " " +++ str_int id) category
            price stock ("SUP-" +++ format_0d 3 supplier) is_active.

(** the cells [DictWriter] writes for a record: one per field name, empty
    where the record lacks the key *)
Definition projected (fieldnames : list string) (rowdict : record) : list string :=
  map (fun k => match od_get String.eqb rowdict k with
                | Some v => str_value v
                | None => EmptyString
                end) fieldnames.

(** *** Money cells *)

(** [k] hundredths as a decimal without a trailing zero: the integer part,
    a point, the tenths digit, and the hundredths digit unless it is zero *)
Definition money_text (k : Z) : string :=
  str_int (k / 100) +++ "." +++
  String (digit_char (k / 10 mod 10))
         (if k mod 10 =? 0 then EmptyString else String (digit_char (k mod 10)) EmptyString).

(** the record holds under [key] the float nearest to [k / 100] for a whole
    number [k] of hundredths, and its cell of column [i] is [money_text k]:
    one digit after the point when the hundredths digit of [k] is zero, two
    when it is not *)
Definition money_cell (key : string) (i : nat) (rec : record) : Prop :=
  exists k, 100 <= k /\
    float_at key rec (rnd53 (inject_Z k / 100)) /\
    cell i (cells rec) = money_text k /\
    after_point (cell i (cells rec)) = Some (if k mod 10 =? 0 then 1%nat else 2%nat).

(* ================================================================== *)
(** * Properties *)

Import Repr.
Open Scope list_scope.
Open Scope Z_scope.

(** ** The monad *)

Lemma spec_ret {S A} (a : A) (P : A -> Prop) : P a -> spec (S := S) (ret a) P.
Proof. intros H s. exact H. Qed.

Lemma spec_bind {S A B} (m : M S A) (k : A -> M S B) (Q : A -> Prop) (P : B -> Prop) :
  spec m Q -> (forall a, Q a -> spec (k a) P) -> spec (bind m k) P.
Proof.
  intros Hm Hk s. unfold bind. specialize (Hm s).
  destruct (m s) as [a s'|e s']; [apply Hk, Hm | exact Hm].
Qed.

Lemma spec_bind_ret {S A B} (a : A) (k : A -> M S B) (P : B -> Prop) :
  spec (k a) P -> spec (bind (ret a) k) P.
Proof. intros H s. exact (H s). Qed.

Lemma spec_mono {S A} (m : M S A) (P Q : A -> Prop) :
  spec m P -> (forall a, P a -> Q a) -> spec m Q.
Proof.
  intros Hm HPQ s. specialize (Hm s). destruct (m s); auto.
Qed.

Lemma spec_of_option {S A} e (o : option A) (P : A -> Prop) :
  (exists a, o = Some a /\ P a) -> spec (S := S) (of_option e o) P.
Proof. intros (a & -> & H) s. exact H. Qed.

Lemma spec_for_each {S A St} (body : A -> St -> M S St) (I : list A -> St -> Prop) xs :
  (forall done x st, (exists rest, xs = done ++ x :: rest) ->
      I done st -> spec (body x st) (I (done ++ [x]))) ->
  forall st, I [] st -> spec (for_each xs body st) (I xs).
Proof.
  intros Hbody.
  assert (Hgen : forall rest done st, xs = done ++ rest -> I done st ->
                   spec (for_each rest body st) (I xs)).
  { induction rest as [|x rest IH]; intros done st Hxs HI.
    - rewrite app_nil_r in Hxs. subst. apply spec_ret, HI.
    - simpl. eapply spec_bind.
      + apply (Hbody done x st); eauto.
      + intros st' HI'. apply (IH (done ++ [x])); [|exact HI'].
        rewrite <- app_assoc. exact Hxs. }
  intros st HI. apply (Hgen xs [] st); auto.
Qed.

(** ** The generator *)

Lemma uint32_range w : 0 <= MT19937.uint32 w < 2 ^ 32.
Proof.
  unfold MT19937.uint32. change 0xffffffff with (Z.ones 32).
  rewrite Z.land_ones by lia. apply Z.mod_pos_bound. lia.
Qed.

Lemma randbelow_loop_spec n k t :
  match randbelow_loop n k t with
  | Ok r _ => 0 <= r < n
  | Raise e _ => e = Starved
  end.
Proof.
  induction t as [|w t IH]; simpl; [reflexivity|].
  destruct (Z.ltb_spec (Z.shiftr (MT19937.uint32 w) (32 - k)) n); [|exact IH].
  split; [|assumption]. apply Z.shiftr_nonneg. apply uint32_range.
Qed.

Lemma randbelow_spec n : 0 < n -> spec (randbelow n) (fun r => 0 <= r < n).
Proof.
  intros Hn s. unfold randbelow. destruct (Z.eqb_spec n 0); [lia|].
  apply randbelow_loop_spec.
Qed.

Lemma randint_spec a b : a <= b -> spec (randint a b) (fun r => a <= r <= b).
Proof.
  intros Hab. unfold randint. destruct (Z.leb_spec (b + 1 - a) 0); [lia|].
  eapply spec_bind; [apply randbelow_spec; lia|].
  intros r Hr. cbv beta in Hr. apply spec_ret. lia.
Qed.

Lemma choice_spec {A} (seq : list A) :
  seq <> [] -> spec (choice seq) (fun x => x ∈ seq).
Proof.
  intros Hne. unfold choice. destruct seq as [|x0 seq']; [congruence|].
  set (seq := x0 :: seq') in *.
  eapply spec_bind; [apply randbelow_spec; simpl; lia|].
  intros i Hi. cbv beta in Hi. apply spec_of_option.
  destruct (lookup_lt_is_Some_2 seq (Z.to_nat i)) as [x Hx]; [lia|].
  exists x. split; [exact Hx|]. eapply list_elem_of_lookup_2, Hx.
Qed.

Lemma random_spec : spec random (fun r => (0 <= r)%Q /\ (r < 1)%Q).
Proof.
  intros [|a [|b t]]; simpl; try reflexivity.
  pose proof (uint32_range a) as Ha. pose proof (uint32_range b) as Hb.
  set (ua := MT19937.uint32 a) in *. set (ub := MT19937.uint32 b) in *.
  assert (0 <= Z.shiftr ua 5 < 2 ^ 27).
  { rewrite Z.shiftr_div_pow2 by lia. split; [apply Z.div_pos; lia|].
    apply Z.div_lt_upper_bound; lia. }
  assert (0 <= Z.shiftr ub 6 < 2 ^ 26).
  { rewrite Z.shiftr_div_pow2 by lia. split; [apply Z.div_pos; lia|].
    apply Z.div_lt_upper_bound; lia. }
  set (n := Z.shiftr ua 5 * 67108864 + Z.shiftr ub 6).
  assert (Hn : 0 <= n < 9007199254740992) by (unfold n; lia).
  rewrite Qred_correct. unfold Qdiv, Qmult, Qinv, Qle, Qlt, inject_Z; simpl. lia.
Qed.

(** ** binary64: rounding is monotone *)

Section Float64Facts.
Local Open Scope Q_scope.

Lemma pow2_pos e : 0 < pow2 e.
Proof. apply Qpower_0_lt. reflexivity. Qed.

Lemma pow2_plus a b : pow2 (a + b) == pow2 a * pow2 b.
Proof. apply Qpower_plus. discriminate. Qed.

Lemma pow2_le a b : (a <= b)%Z -> pow2 a <= pow2 b.
Proof. intros H. apply Qpower_le_compat_l; [exact H | discriminate]. Qed.

Lemma pow2_lt_inv a b : pow2 a < pow2 b -> (a < b)%Z.
Proof. intros H. eapply Qpower_lt_compat_l_inv; [exact H | reflexivity]. Qed.

Lemma pow2_inject (n : Z) : (0 <= n)%Z -> inject_Z (2 ^ n) == pow2 n.
Proof. intros H. apply (Zpower_Qpower 2 n H). Qed.

Lemma rne_cases x :
  (x - inject_Z (Qfloor x) < 1 # 2 /\ rne x = Qfloor x)
  \/ (x - inject_Z (Qfloor x) == 1 # 2
      /\ rne x = if Z.even (Qfloor x) then Qfloor x else (Qfloor x + 1)%Z)
  \/ (1 # 2 < x - inject_Z (Qfloor x) /\ rne x = (Qfloor x + 1)%Z).
Proof.
  unfold rne.
  destruct (Qcompare (x - inject_Z (Qfloor x)) (1 # 2)) eqn:E.
  - right; left. split; [apply Qeq_alt, E | reflexivity].
  - left. split; [apply Qlt_alt, E | reflexivity].
  - right; right. split; [apply Qgt_alt, E | reflexivity].
Qed.

Lemma floor_bounds x : inject_Z (Qfloor x) <= x /\ x < inject_Z (Qfloor x) + 1.
Proof.
  split; [apply Qfloor_le|].
  pose proof (Qlt_floor x) as H. rewrite inject_Z_plus in H. exact H.
Qed.

Lemma rne_bounds x : inject_Z (rne x) - (1 # 2) <= x /\ x <= inject_Z (rne x) + (1 # 2).
Proof.
  pose proof (floor_bounds x) as [H1 H2].
  destruct (rne_cases x) as [[H ->]|[[H ->]|[H ->]]].
  - lra.
  - destruct (Z.even (Qfloor x)); [|rewrite inject_Z_plus; change (inject_Z 1) with 1]; lra.
  - rewrite inject_Z_plus. change (inject_Z 1) with 1. lra.
Qed.

Lemma rne_mono x y : x <= y -> (rne x <= rne y)%Z.
Proof.
  intros Hxy.
  pose proof (Qfloor_resp_le x y Hxy) as Hf.
  pose proof (floor_bounds x) as [Hx1 Hx2].
  pose proof (floor_bounds y) as [Hy1 Hy2].
  destruct (Z.eq_dec (Qfloor x) (Qfloor y)) as [E|NE].
  - destruct (rne_cases x) as [[Hx ->]|[[Hx ->]|[Hx ->]]];
    destruct (rne_cases y) as [[Hy ->]|[[Hy ->]|[Hy ->]]];
    rewrite <- ?E in *; try (destruct (Z.even (Qfloor x))); try lia; exfalso; lra.
  - assert (Qfloor x + 1 <= Qfloor y)%Z by lia.
    destruct (rne_cases x) as [[Hx ->]|[[Hx ->]|[Hx ->]]];
    destruct (rne_cases y) as [[Hy ->]|[[Hy ->]|[Hy ->]]];
    try (destruct (Z.even (Qfloor x))); try (destruct (Z.even (Qfloor y))); lia.
Qed.

Lemma rne_comp x y : x == y -> rne x = rne y.
Proof.
  intros H. apply Z.le_antisymm; apply rne_mono; rewrite H; apply Qle_refl.
Qed.

Lemma rne_inject n : rne (inject_Z n) = n.
Proof.
  pose proof (rne_bounds (inject_Z n)) as [H1 H2].
  assert (inject_Z (rne (inject_Z n)) < inject_Z (n + 1)).
  { rewrite inject_Z_plus. change (inject_Z 1) with 1. lra. }
  assert (inject_Z n < inject_Z (rne (inject_Z n) + 1)).
  { rewrite inject_Z_plus. change (inject_Z 1) with 1. lra. }
  rewrite <- Zlt_Qlt in *. lia.
Qed.

(** *** the binary exponent *)

Lemma field_aux1 a b c : ~ b == 0 -> a / b * 2 * c == 2 * a * (c / b).
Proof. intros. field. assumption. Qed.

Lemma field_aux2 a b c : ~ b == 0 -> a / b / 2 * c == a * (c / (2 * b)).
Proof. intros. field. assumption. Qed.


Lemma ilog2_spec x : 0 < x -> pow2 (ilog2 x) <= x /\ x < pow2 (ilog2 x + 1).
Proof.
  intros Hx. destruct x as [p q]. unfold ilog2. cbn [Qnum Qden].
  assert (Hp : (0 < p)%Z) by (unfold Qlt in Hx; simpl in Hx; lia).
  pose proof (Z.log2_spec p Hp) as [Hp1 Hp2].
  pose proof (Z.log2_spec (Zpos q) (Pos2Z.is_pos q)) as [Hq1 Hq2].
  pose proof (Z.log2_nonneg p) as Hlp. pose proof (Z.log2_nonneg (Zpos q)) as Hlq.
  set (lp := Z.log2 p) in *. set (lq := Z.log2 (Zpos q)) in *.
  assert (Ep : pow2 (lp - lq) == inject_Z (2 ^ lp) / inject_Z (2 ^ lq)).
  { unfold pow2, Zminus. rewrite Qpower_plus by discriminate.
    rewrite Qpower_opp. rewrite !pow2_inject by lia. reflexivity. }
  assert (Hx' : p # q == inject_Z p / inject_Z (Zpos q)) by (apply Qmake_Qdiv).
  assert (P1 : 0 < inject_Z (2 ^ lq)) by (rewrite <- (Zlt_Qlt 0); lia).
  assert (P2 : 0 < inject_Z (Zpos q)) by (rewrite <- (Zlt_Qlt 0); lia).
  assert (B1 : inject_Z (2 ^ lp) <= inject_Z p) by (rewrite <- Zle_Qle; lia).
  assert (B2 : inject_Z p < inject_Z (2 ^ (lp + 1))) by (rewrite <- Zlt_Qlt; lia).
  assert (B3 : inject_Z (2 ^ lq) <= inject_Z (Zpos q)) by (rewrite <- Zle_Qle; lia).
  assert (B4 : inject_Z (Zpos q) < inject_Z (2 ^ (lq + 1))) by (rewrite <- Zlt_Qlt; lia).
  assert (D1 : inject_Z (2 ^ (lp + 1)) == 2 * inject_Z (2 ^ lp)).
  { rewrite Z.pow_add_r by lia. rewrite inject_Z_mult. change (inject_Z (2 ^ 1)) with 2. ring. }
  assert (D2 : inject_Z (2 ^ (lq + 1)) == 2 * inject_Z (2 ^ lq)).
  { rewrite Z.pow_add_r by lia. rewrite inject_Z_mult. change (inject_Z (2 ^ 1)) with 2. ring. }
  set (P := inject_Z p) in *. set (Qq := inject_Z (Zpos q)) in *.
  set (A := inject_Z (2 ^ lp)) in *. set (B := inject_Z (2 ^ lq)) in *.
  assert (P3 : 0 < A) by (unfold A; rewrite <- (Zlt_Qlt 0); lia).
  clearbody P Qq A B.
  destruct (Qle_bool (pow2 (lp - lq)) (p # q)) eqn:E.
  - apply Qle_bool_iff in E. split; [exact E|].
    rewrite pow2_plus, Ep, Hx'. change (pow2 1) with 2.
    apply Qlt_shift_div_r; [exact P2|].
    assert (H : A / B * 2 * Qq == 2 * A * (Qq / B)) by (apply field_aux1; lra).
    rewrite H. clear H.
    assert (1 <= Qq / B) by (apply Qle_shift_div_l; lra).
    nra.
  - assert (E' : p # q < pow2 (lp - lq)).
    { apply Qnot_le_lt. intros H. apply Qle_bool_iff in H. congruence. }
    split.
    + assert (Em : pow2 (lp - lq - 1) == pow2 (lp - lq) / 2).
      { replace (lp - lq - 1)%Z with ((lp - lq) + (-1))%Z by lia. rewrite pow2_plus. change (pow2 (-1)) with (1 # 2). unfold Qdiv. reflexivity. }
      rewrite Em, Ep, Hx'.
      apply Qle_shift_div_l; [exact P2|].
      assert (H : A / B / 2 * Qq == A * (Qq / (2 * B))) by (apply field_aux2; lra).
      rewrite H. clear H.
      assert (Qq / (2 * B) <= 1) by (apply Qle_shift_div_r; lra).
      nra.
    + replace (lp - lq - 1 + 1)%Z with (lp - lq)%Z by lia. exact E'.
Qed.

Lemma ilog2_unique x e : pow2 e <= x -> x < pow2 (e + 1) -> ilog2 x = e.
Proof.
  intros H1 H2.
  assert (Hx : 0 < x) by (pose proof (pow2_pos e); lra).
  destruct (ilog2_spec x Hx) as [H3 H4].
  assert (e < ilog2 x + 1)%Z by (apply pow2_lt_inv; lra).
  assert (ilog2 x < e + 1)%Z by (apply pow2_lt_inv; lra).
  lia.
Qed.

Lemma ilog2_mono x y : 0 < x -> x <= y -> (ilog2 x <= ilog2 y)%Z.
Proof.
  intros Hx Hxy.
  destruct (ilog2_spec x Hx) as [H1 H2].
  destruct (ilog2_spec y) as [H3 H4]; [lra|].
  assert (ilog2 x < ilog2 y + 1)%Z by (apply pow2_lt_inv; lra).
  lia.
Qed.

(** *** rounding *)

Lemma rnd_pos_eq x : rnd_pos x == inject_Z (rne (x / pow2 (fexp x))) * pow2 (fexp x).
Proof. unfold rnd_pos. apply Qred_correct. Qed.

Lemma scaled_le x y e : x <= y -> x / pow2 e <= y / pow2 e.
Proof.
  intros H. pose proof (pow2_pos e).
  apply Qle_shift_div_l; [assumption|].
  assert (E : x / pow2 e * pow2 e == x) by (field; lra). lra.
Qed.

Lemma rne_nonneg x : 0 <= x -> (0 <= rne x)%Z.
Proof. intros H. rewrite <- (rne_inject 0). apply rne_mono, H. Qed.

Lemma rnd_pos_nonneg x : 0 < x -> 0 <= rnd_pos x.
Proof.
  intros Hx. rewrite rnd_pos_eq. pose proof (pow2_pos (fexp x)) as Hp.
  assert (0 <= rne (x / pow2 (fexp x)))%Z.
  { apply rne_nonneg. apply Qle_shift_div_l; lra. }
  assert (0 <= inject_Z (rne (x / pow2 (fexp x)))) by (rewrite <- (Zle_Qle 0); assumption).
  nra.
Qed.

Lemma rnd_pos_upper x : 0 < x -> rnd_pos x <= pow2 (fexp x + 53).
Proof.
  intros Hx. rewrite rnd_pos_eq, pow2_plus.
  destruct (ilog2_spec x Hx) as [_ H2].
  pose proof (pow2_pos (fexp x)) as Hp.
  assert (Hs : x / pow2 (fexp x) <= inject_Z (2 ^ 53)).
  { apply Qle_shift_div_r; [assumption|]. rewrite pow2_inject by lia.
    rewrite <- pow2_plus.
    assert (pow2 (ilog2 x + 1) <= pow2 (53 + fexp x)) by (apply pow2_le; unfold fexp; lia).
    lra. }
  apply rne_mono in Hs. rewrite rne_inject in Hs.
  rewrite Zle_Qle in Hs. rewrite pow2_inject in Hs by lia.
  rewrite (Qmult_comm (pow2 (fexp x))).
  apply Qmult_le_compat_r; lra.
Qed.

Lemma rnd_pos_lower x : 0 < x -> fexp x = (ilog2 x - 52)%Z -> pow2 (ilog2 x) <= rnd_pos x.
Proof.
  intros Hx He. rewrite rnd_pos_eq.
  destruct (ilog2_spec x Hx) as [H1 _].
  pose proof (pow2_pos (fexp x)) as Hp.
  assert (Hs : inject_Z (2 ^ 52) <= x / pow2 (fexp x)).
  { apply Qle_shift_div_l; [assumption|]. rewrite pow2_inject by lia.
    rewrite <- pow2_plus. replace (52 + fexp x)%Z with (ilog2 x) by lia. exact H1. }
  apply rne_mono in Hs. rewrite rne_inject in Hs.
  rewrite Zle_Qle in Hs. rewrite pow2_inject in Hs by lia.
  replace (ilog2 x) with (52 + fexp x)%Z at 1 by lia. rewrite pow2_plus.
  apply Qmult_le_compat_r; lra.
Qed.

Lemma rnd_pos_mono x y : 0 < x -> x <= y -> rnd_pos x <= rnd_pos y.
Proof.
  intros Hx Hxy.
  assert (Hy : 0 < y) by lra.
  pose proof (ilog2_mono x y Hx Hxy) as Hl.
  destruct (Z.eq_dec (fexp x) (fexp y)) as [E|NE].
  - rewrite !rnd_pos_eq, E. pose proof (pow2_pos (fexp y)).
    apply Qmult_le_compat_r; [|lra].
    rewrite <- Zle_Qle. apply rne_mono, scaled_le, Hxy.
  - assert (E : fexp y = (ilog2 y - 52)%Z /\ (fexp x + 1 <= fexp y)%Z) by (unfold fexp in *; lia).
    destruct E as [E1 E2].
    pose proof (rnd_pos_upper x Hx). pose proof (rnd_pos_lower y Hy E1).
    assert (pow2 (fexp x + 53) <= pow2 (ilog2 y)) by (apply pow2_le; lia).
    lra.
Qed.

Lemma rnd53_pos x : 0 < x -> rnd53 x = rnd_pos x.
Proof.
  intros H. unfold rnd53.
  destruct (Qcompare x 0) eqn:E;
    [apply Qeq_alt in E; lra | apply Qlt_alt in E; lra | reflexivity].
Qed.

Lemma rnd53_neg x : x < 0 -> rnd53 x == - rnd_pos (- x).
Proof.
  intros H. unfold rnd53.
  destruct (Qcompare x 0) eqn:E;
    [apply Qeq_alt in E; lra | apply Qred_correct | apply Qgt_alt in E; lra].
Qed.

Lemma rnd53_zero x : x == 0 -> rnd53 x = 0.
Proof.
  intros H. unfold rnd53.
  destruct (Qcompare x 0) eqn:E;
    [reflexivity | apply Qlt_alt in E; lra | apply Qgt_alt in E; lra].
Qed.

Theorem rnd53_mono x y : x <= y -> rnd53 x <= rnd53 y.
Proof.
  intros Hxy.
  destruct (Q_dec x 0) as [[Hx|Hx]|Hx]; destruct (Q_dec y 0) as [[Hy|Hy]|Hy];
    try (exfalso; lra).
  - rewrite (rnd53_neg x Hx), (rnd53_neg y Hy).
    assert (rnd_pos (- y) <= rnd_pos (- x)) by (apply rnd_pos_mono; lra). lra.
  - rewrite (rnd53_neg x Hx), (rnd53_pos y Hy).
    assert (0 <= rnd_pos (- x)) by (apply rnd_pos_nonneg; lra).
    assert (0 <= rnd_pos y) by (apply rnd_pos_nonneg; lra). lra.
  - rewrite (rnd53_neg x Hx), (rnd53_zero y Hy).
    assert (0 <= rnd_pos (- x)) by (apply rnd_pos_nonneg; lra). lra.
  - rewrite !rnd53_pos by assumption. apply rnd_pos_mono; assumption.
  - rewrite (rnd53_zero x Hx), (rnd53_pos y Hy). apply rnd_pos_nonneg; assumption.
  - rewrite (rnd53_zero x Hx), (rnd53_zero y Hy). lra.
Qed.

Lemma fadd_mono a x y : x <= y -> fadd a x <= fadd a y.
Proof. intros H. apply rnd53_mono. lra. Qed.

Lemma fmul_mono c x y : 0 <= c -> x <= y -> fmul c x <= fmul c y.
Proof. intros Hc H. apply rnd53_mono. nra. Qed.

Lemma fmul_mono_l c x y : 0 <= c -> x <= y -> fmul x c <= fmul y c.
Proof. intros Hc H. apply rnd53_mono. nra. Qed.

Lemma pow10_pos e : 0 < pow10 e.
Proof. apply Qpower_0_lt. reflexivity. Qed.

Lemma round_ndigits_mono n x y : x <= y -> round_ndigits x n <= round_ndigits y n.
Proof.
  intros H. unfold round_ndigits. apply rnd53_mono.
  pose proof (pow10_pos n) as Hp.
  assert (Hr : (rne (x * pow10 n) <= rne (y * pow10 n))%Z) by (apply rne_mono; nra).
  rewrite Zle_Qle in Hr.
  apply Qle_shift_div_l; [assumption|].
  assert (E : inject_Z (rne (x * pow10 n)) / pow10 n * pow10 n == inject_Z (rne (x * pow10 n)))
    by (field; lra).
  lra.
Qed.
End Float64Facts.

(** ** Snapshots *)

Lemma od_get_seq (a n : nat) (i : Z) :
  Z.of_nat a < i <= Z.of_nat a + Z.of_nat n ->
  od_get Z.eqb (map (fun k : nat => (Z.of_nat k + 1, k)) (seq a n)) i = Some (Z.to_nat (i - 1)).
Proof.
  revert a. induction n as [|n IH]; intros a Hi; [lia|].
  simpl. destruct (Z.eqb_spec (Z.of_nat a + 1) i) as [E|NE].
  - f_equal. lia.
  - apply IH. lia.
Qed.

Lemma od_get_snap n i : 1 <= i <= Z.of_nat n -> od_get Z.eqb (snap n) i = Some (Z.to_nat (i - 1)).
Proof. intros H. apply od_get_seq. lia. Qed.

Lemma od_set_new {V} (d : list (Z * V)) k v :
  Forall (fun kv => kv.1 <> k) d -> od_set Z.eqb d k v = d ++ [(k, v)].
Proof.
  induction 1 as [|[k' v'] d Hk _ IH]; [reflexivity|].
  simpl in *. destruct (Z.eqb_spec k' k); [contradiction|]. rewrite IH. reflexivity.
Qed.

Lemma od_set_snap n v : od_set Z.eqb (snap n) (Z.of_nat n + 1) v = snap n ++ [(Z.of_nat n + 1, v)].
Proof.
  apply od_set_new. unfold snap. apply Forall_forall. intros [k r] Hin.
  apply list_elem_of_fmap in Hin as (j & [= -> ->] & Hj).
  apply elem_of_seq in Hj. simpl. lia.
Qed.

Lemma snap_S n : snap (S n) = snap n ++ [(Z.of_nat n + 1, n)].
Proof. unfold snap. rewrite seq_S, map_app. reflexivity. Qed.

Lemma od_values_snap n : od_values (snap n) = seq 0 n.
Proof.
  unfold od_values, snap. rewrite map_map. simpl. apply map_id.
Qed.

Lemma map_deref_seq (h : list record) : map (deref h) (seq 0 (length h)) = h.
Proof.
  apply list_eq. intros i.
  change (map (deref h) (seq 0 (length h))) with (fmap (M := list) (deref h) (seq 0 (length h))).
  rewrite list_lookup_fmap.
  destruct (h !! i) as [rec|] eqn:E.
  - assert (Hi : (i < length h)%nat) by (eapply lookup_lt_Some, E).
    rewrite lookup_seq_lt by exact Hi. simpl. f_equal.
    unfold deref. apply list_lookup_total_correct, E.
  - apply lookup_ge_None in E. rewrite lookup_seq_ge by exact E. reflexivity.
Qed.

Lemma snapshot_values_inv P n D st : Inv P n D st -> snapshot_values st = heap st.
Proof.
  intros (Hs & _ & Hl & _). unfold snapshot_values. rewrite Hs, od_values_snap, <- Hl.
  apply map_deref_seq.
Qed.

Lemma deref_lookup (h : list record) k rec : h !! k = Some rec -> deref h k = rec.
Proof. intros H. unfold deref. apply list_lookup_total_correct, H. Qed.

Lemma inv_lookup P n D st i :
  Inv P n D st -> 1 <= i <= Z.of_nat n ->
  od_get Z.eqb (snapshot st) i = Some (Z.to_nat (i - 1)) /\
  exists rec, heap st !! Z.to_nat (i - 1) = Some rec /\ P i rec.
Proof.
  intros (Hs & _ & Hl & Hh) Hi. split; [rewrite Hs; apply od_get_snap, Hi|].
  destruct (lookup_lt_is_Some_2 (heap st) (Z.to_nat (i - 1))) as [rec Hrec]; [lia|].
  exists rec. split; [exact Hrec|].
  specialize (Hh _ _ Hrec). replace (Z.of_nat (Z.to_nat (i - 1)) + 1) with i in Hh by lia.
  exact Hh.
Qed.

Lemma insert_record_inv P n D st (append : bool) rec :
  Inv P n D st -> P (Z.of_nat n + 1) rec ->
  Inv P (S n) (if append then D ++ [n] else D) (insert_record append (Z.of_nat n + 1) rec st).
Proof.
  intros (Hs & Hd & Hl & Hh) Hrec. unfold insert_record, Inv. simpl.
  rewrite Hs, Hd, Hl, od_set_snap, snap_S, length_app. simpl.
  repeat split; [lia|].
  intros k r Hk. destruct (decide (k < n)%nat) as [Hlt|Hge].
  - rewrite lookup_app_l in Hk by lia. apply Hh, Hk.
  - rewrite lookup_app_r in Hk by lia.
    destruct (k - length (heap st))%nat as [|m] eqn:E; simpl in Hk; [|discriminate].
    injection Hk as <-. replace k with n by lia. exact Hrec.
Qed.

Lemma new_delta_inv P n D st : Inv P n D st -> Inv P n [] (new_delta st).
Proof. intros (Hs & Hd & Hl & Hh). repeat split; assumption. Qed.

Lemma get_field_inv {S} P n D st i key (Q : value -> Prop) :
  Inv P n D st -> 1 <= i <= Z.of_nat n ->
  (forall rec, P i rec -> exists v, od_get String.eqb rec key = Some v /\ Q v) ->
  spec (S := S) (get_field st i key) Q.
Proof.
  intros HI Hi HQ s. destruct (inv_lookup _ _ _ _ _ HI Hi) as (Hget & rec & Hrec & HP).
  unfold get_field, snapshot_ref, bind. rewrite Hget. simpl.
  rewrite (deref_lookup _ _ _ Hrec).
  destruct (HQ rec HP) as (v & -> & Hv). exact Hv.
Qed.

Lemma set_field_inv {S} (P P' : Z -> record -> Prop) n D st i key v :
  Inv P n D st -> 1 <= i <= Z.of_nat n ->
  (forall rec, P i rec -> P' i (od_set String.eqb rec key v)) ->
  (forall j rec, j <> i -> P j rec -> P' j rec) ->
  spec (S := S) (set_field st i key v) (Inv P' n D).
Proof.
  intros HI Hi Hset Hother s. destruct (inv_lookup _ _ _ _ _ HI Hi) as (Hget & rec & Hrec & HP).
  destruct HI as (Hs & Hd & Hl & Hh).
  unfold set_field, snapshot_ref, bind. rewrite Hget. simpl.
  repeat split; simpl; try assumption.
  - rewrite length_insert. exact Hl.
  - intros k r Hk. destruct (decide (k = Z.to_nat (i - 1))) as [->|NE].
    + rewrite list_lookup_insert_eq in Hk by lia. injection Hk as <-.
      rewrite (deref_lookup _ _ _ Hrec).
      replace (Z.of_nat (Z.to_nat (i - 1)) + 1) with i by lia. apply Hset, HP.
    + rewrite list_lookup_insert_ne in Hk by congruence.
      apply Hother; [lia|]. apply Hh, Hk.
Qed.

Lemma append_ref_inv {S} P n D st i :
  Inv P n D st -> 1 <= i <= Z.of_nat n ->
  spec (S := S) (append_ref st i) (Inv P n (D ++ [Z.to_nat (i - 1)])).
Proof.
  intros HI Hi s. destruct (inv_lookup _ _ _ _ _ HI Hi) as (Hget & _).
  destruct HI as (Hs & Hd & Hl & Hh).
  unfold append_ref, snapshot_ref, bind. rewrite Hget. simpl.
  repeat split; simpl; try assumption. rewrite Hd. reflexivity.
Qed.

Lemma inv_weaken (P P' : Z -> record -> Prop) n D st :
  (forall j rec, P j rec -> P' j rec) -> Inv P n D st -> Inv P' n D st.
Proof. intros H (Hs & Hd & Hl & Hh). repeat split; auto. Qed.

(** ** The record builders *)

Ltac qle := apply Qle_bool_iff; vm_compute; reflexivity.

Lemma uniform_spec a b :
  (0 <= fsub b a)%Q ->
  spec (uniform a b)
       (fun x => (fadd a (fmul (fsub b a) 0) <= x)%Q /\ (x <= fadd a (fmul (fsub b a) 1))%Q).
Proof.
  intros Hd. unfold uniform. eapply spec_bind; [apply random_spec|].
  intros r [Hr0 Hr1]. apply spec_ret.
  split; apply fadd_mono, fmul_mono; try assumption; lra.
Qed.

Lemma R2_weaken lo hi lo' hi' v :
  (lo' <= lo)%Q -> (hi <= hi')%Q -> R2 lo hi v -> R2 lo' hi' v.
Proof.
  intros Hlo Hhi (y & H1 & H2 & ->). exists y. repeat split; lra.
Qed.

Lemma R2_bounds lo hi v :
  R2 lo hi v -> (round_ndigits lo 2 <= v)%Q /\ (v <= round_ndigits hi 2)%Q.
Proof.
  intros (y & H1 & H2 & ->). split; apply round_ndigits_mono; assumption.
Qed.

Lemma generate_phone_spec : spec generate_phone (fun _ => True).
Proof.
  unfold generate_phone.
  eapply spec_bind; [apply (randint_spec 200 999); lia|]. intros area _.
  eapply spec_bind; [apply (randint_spec 200 999); lia|]. intros exchange _.
  eapply spec_bind; [apply (randint_spec 1000 9999); lia|]. intros line _.
  apply spec_ret. exact I.
Qed.

Lemma generate_email_spec first_name last_name customer_id :
  spec (generate_email first_name last_name customer_id) (fun _ => True).
Proof.
  unfold generate_email.
  eapply spec_bind; [apply choice_spec; discriminate|]. intros domain _.
  apply spec_ret. exact I.
Qed.

Lemma uniform_credit :
  spec (uniform (of_int 1000) (of_int 50000))
       (fun x => (of_int 1000 <= x)%Q /\ (x <= of_int 50000)%Q).
Proof.
  eapply spec_mono; [apply uniform_spec; qle|].
  intros x [H1 H2]. split.
  - eapply Qle_trans; [|exact H1]. qle.
  - eapply Qle_trans; [exact H2|]. qle.
Qed.

(** The builder draws one index and reads both lists at it. *)
Lemma generate_customer_record_aligned customer_id timestamp :
  spec (generate_customer_record customer_id timestamp)
       (fun rec => exists fn ln email phone city state credit ts,
          rec = customer_record customer_id fn ln email phone city state credit ts
          /\ aligned city state /\ R2 (of_int 1000) (of_int 50000) credit).
Proof.
  unfold generate_customer_record.
  eapply spec_bind; [apply choice_spec; discriminate|]. intros first_name _.
  eapply spec_bind; [apply choice_spec; discriminate|]. intros last_name _.
  eapply spec_bind; [apply (randint_spec 0 17); lia|]. intros city_idx Hidx. cbv beta in Hidx.
  eapply spec_bind; [apply generate_email_spec|]. intros email _.
  eapply spec_bind; [apply generate_phone_spec|]. intros phone _.
  assert (Hlook : forall (l : list string), (length l = 18)%nat ->
            exists c, py_index l city_idx = Some c /\ l !! Z.to_nat city_idx = Some c).
  { intros l Hl. unfold py_index. destruct (Z.ltb_spec city_idx 0); [lia|].
    destruct (lookup_lt_is_Some_2 l (Z.to_nat city_idx)) as [c Hc]; [lia|].
    exists c. split; exact Hc. }
  eapply spec_bind;
    [apply (spec_of_option _ _ (fun c => CITIES !! Z.to_nat city_idx = Some c));
     destruct (Hlook CITIES eq_refl) as (c & ? & ?); eauto|].
  intros city Hcity.
  eapply spec_bind;
    [apply (spec_of_option _ _ (fun c => STATES !! Z.to_nat city_idx = Some c));
     destruct (Hlook STATES eq_refl) as (c & ? & ?); eauto|].
  intros state Hstate.
  eapply spec_bind; [apply uniform_credit|]. intros credit [Hc1 Hc2].
  apply spec_ret. do 8 eexists. split; [reflexivity|].
  split; [exists (Z.to_nat city_idx); split; assumption|].
  exists credit. repeat split; assumption.
Qed.

Lemma generate_customer_record_spec customer_id timestamp :
  spec (generate_customer_record customer_id timestamp)
       (Customer (R2 (of_int 1000) (of_int 50000)) customer_id).
Proof.
  eapply spec_mono; [apply generate_customer_record_aligned|].
  intros rec (fn & ln & email & phone & city & state & credit & ts & -> & _ & HC).
  do 8 eexists. split; [reflexivity | exact HC].
Qed.

(** ** Scenario A *)

Lemma add_customer_spec scaled n D st (append : bool) time spread :
  0 <= spread -> Z.of_nat n + 1 ∉ scaled ->
  Inv (CustomerAt scaled) n D st ->
  spec (add_customer append time spread (Z.of_nat n + 1) st)
       (Inv (CustomerAt scaled) (S n) (if append then D ++ [n] else D)).
Proof.
  intros Hsp Hnot HI. unfold add_customer.
  eapply spec_bind; [apply (randint_spec 0 spread); lia|]. intros minutes _.
  eapply spec_bind; [apply generate_customer_record_spec|]. intros rec Hrec.
  apply spec_ret. apply insert_record_inv; [exact HI|].
  unfold CustomerAt, credit_range. rewrite bool_decide_eq_false_2 by exact Hnot. exact Hrec.
Qed.

Lemma add_customers_spec scaled m : forall a D st (append : bool) time spread,
  0 <= spread ->
  (forall k, (a <= k < a + m)%nat -> Z.of_nat k + 1 ∉ scaled) ->
  Inv (CustomerAt scaled) a D st ->
  spec (for_each (ids_from a m) (add_customer append time spread) st)
       (Inv (CustomerAt scaled) (a + m) (if append then D ++ seq a m else D)).
Proof.
  induction m as [|m IH]; intros a D st append time spread Hsp Hnot HI.
  - simpl. apply spec_ret. rewrite Nat.add_0_r.
    destruct append; [rewrite app_nil_r|]; exact HI.
  - simpl. eapply spec_bind.
    + apply add_customer_spec; [exact Hsp | apply Hnot; lia | exact HI].
    + intros st' HI'. eapply spec_mono.
      * apply (IH (S a) (if append then D ++ [a] else D) st' append time spread Hsp);
          [intros k Hk; apply Hnot; lia | exact HI'].
      * intros st''. replace (S a + m)%nat with (a + S m)%nat by lia.
        destruct append; [rewrite <- app_assoc|]; exact id.
Qed.

Lemma credit_range_other scaled cid j :
  j <> cid -> credit_range (cid :: scaled) j = credit_range scaled j.
Proof.
  intros Hj. unfold credit_range.
  destruct (decide (j ∈ scaled)) as [Hin|Hout].
  - rewrite !bool_decide_eq_true_2; [reflexivity | exact Hin | right; exact Hin].
  - rewrite !bool_decide_eq_false_2; [reflexivity | exact Hout |].
    intros [E|Hin]%elem_of_cons; [contradiction | exact (Hout Hin)].
Qed.

Lemma customer_other scaled cid j rec :
  j <> cid -> CustomerAt scaled j rec -> CustomerAt (cid :: scaled) j rec.
Proof. intros Hj. unfold CustomerAt. rewrite credit_range_other by exact Hj. exact id. Qed.

Lemma scaled_credit credit :
  R2 (of_int 1000) (of_int 50000) credit ->
  R2 (of_int 1200) (of_int 60000) (round_ndigits (fmul credit (lit 12 1)) 2).
Proof.
  intros H. apply R2_bounds in H as [H1 H2].
  exists (fmul credit (lit 12 1)). repeat split.
  - eapply Qle_trans; [|apply (fmul_mono_l (lit 12 1) _ _ ltac:(qle) H1)]. qle.
  - eapply Qle_trans; [apply (fmul_mono_l (lit 12 1) _ _ ltac:(qle) H2)|]. qle.
Qed.

Lemma modify_customer_delta1_spec scaled n D st time cid :
  1 <= cid <= Z.of_nat n -> cid ∉ scaled ->
  Inv (CustomerAt scaled) n D st ->
  spec (modify_customer_delta1 time cid st)
       (Inv (CustomerAt (cid :: scaled)) n (D ++ [Z.to_nat (cid - 1)])).
Proof.
  intros Hcid Hnot HI. unfold modify_customer_delta1.
  eapply spec_bind; [apply (randint_spec 0 30); lia|]. intros minutes _.
  eapply spec_bind.
  { apply (get_field_inv _ _ _ _ _ _
             (fun v => exists credit, v = VFloat credit /\ R2 (of_int 1000) (of_int 50000) credit)
             HI Hcid).
    intros rec (fn & ln & email & phone & city & state & credit & ts & -> & HC).
    unfold credit_range in HC. rewrite bool_decide_eq_false_2 in HC by exact Hnot.
    exists (VFloat credit). split; [reflexivity | eauto]. }
  intros old (credit & -> & HC). simpl.
  apply spec_bind_ret.
  eapply spec_bind.
  { apply (set_field_inv (CustomerAt scaled) (CustomerAt (cid :: scaled)) _ _ _ _ _ _ HI Hcid).
    - intros rec (fn & ln & email & phone & city & state & credit0 & ts & -> & _).
      do 8 eexists. split; [reflexivity|].
      unfold credit_range. rewrite bool_decide_eq_true_2 by left.
      apply scaled_credit, HC.
    - intros j rec Hj. apply customer_other, Hj. }
  intros st1 HI1.
  eapply spec_bind.
  { apply (set_field_inv _ (CustomerAt (cid :: scaled)) _ _ _ _ _ _ HI1 Hcid).
    - intros rec (fn & ln & email & phone & city & state & credit0 & ts & -> & HC0).
      do 8 eexists. split; [reflexivity | exact HC0].
    - intros j rec _. exact id. }
  intros st2 HI2.
  apply append_ref_inv; assumption.
Qed.

Lemma modify_customer_delta2_spec scaled n D st time cid :
  1 <= cid <= Z.of_nat n ->
  Inv (CustomerAt scaled) n D st ->
  spec (modify_customer_delta2 time cid st)
       (Inv (CustomerAt scaled) n (D ++ [Z.to_nat (cid - 1)])).
Proof.
  intros Hcid HI. unfold modify_customer_delta2.
  eapply spec_bind; [apply (randint_spec 0 30); lia|]. intros minutes _.
  eapply spec_bind; [apply choice_spec; discriminate|]. intros city _.
  eapply spec_bind.
  { apply (set_field_inv _ (CustomerAt scaled) _ _ _ _ _ _ HI Hcid).
    - intros rec (fn & ln & email & phone & city0 & state & credit0 & ts & -> & HC0).
      do 8 eexists. split; [reflexivity | exact HC0].
    - intros j rec _. exact id. }
  intros st1 HI1.
  eapply spec_bind; [apply generate_phone_spec|]. intros phone _.
  eapply spec_bind.
  { apply (set_field_inv _ (CustomerAt scaled) _ _ _ _ _ _ HI1 Hcid).
    - intros rec (fn & ln & email & phone0 & city0 & state & credit0 & ts & -> & HC0).
      do 8 eexists. split; [reflexivity | exact HC0].
    - intros j rec _. exact id. }
  intros st2 HI2.
  eapply spec_bind.
  { apply (set_field_inv _ (CustomerAt scaled) _ _ _ _ _ _ HI2 Hcid).
    - intros rec (fn & ln & email & phone0 & city0 & state & credit0 & ts & -> & HC0).
      do 8 eexists. split; [reflexivity | exact HC0].
    - intros j rec _. exact id. }
  intros st3 HI3.
  apply append_ref_inv; assumption.
Qed.

(** the three generations *)

Lemma customers_initial_spec : spec customers_initial (Inv (CustomerAt []) 20 []).
Proof.
  unfold customers_initial. change (range 1 21) with (ids_from 0 20).
  apply (add_customers_spec [] 20 0%nat [] empty_env false); [lia | |].
  - intros k _. apply not_elem_of_nil.
  - repeat split. intros k rec Hk. discriminate.
Qed.

Lemma customers_delta1_spec st :
  Inv (CustomerAt []) 20 [] st ->
  spec (customers_delta1 st)
       (Inv (CustomerAt [15; 7; 3]) 25 [20; 21; 22; 23; 24; 2; 6; 14]%nat).
Proof.
  intros HI. unfold customers_delta1. change (range 21 26) with (ids_from 20 5).
  eapply spec_bind.
  { apply (add_customers_spec [] 5 20%nat [] (new_delta st) true); [lia | |].
    - intros k _. apply not_elem_of_nil.
    - eapply new_delta_inv, HI. }
  intros st1 HI1. simpl in HI1. cbn [for_each].
  eapply spec_bind.
  { eapply (modify_customer_delta1_spec [] 25 _ st1 delta1_time 3); [lia | | exact HI1].
    apply not_elem_of_nil. }
  intros st2 HI2.
  eapply spec_bind.
  { eapply (modify_customer_delta1_spec [3] 25 _ st2 delta1_time 7); [lia | | exact HI2].
    intros [E|E%elem_of_nil]%elem_of_cons; [discriminate | exact E]. }
  intros st3 HI3.
  eapply spec_bind.
  { eapply (modify_customer_delta1_spec [7; 3] 25 _ st3 delta1_time 15); [lia | | exact HI3].
    intros [E|[E|E%elem_of_nil]%elem_of_cons]%elem_of_cons; [discriminate | discriminate | exact E]. }
  intros st4 HI4. apply spec_ret. exact HI4.
Qed.

Lemma customers_delta2_spec st :
  Inv (CustomerAt [15; 7; 3]) 25 [20; 21; 22; 23; 24; 2; 6; 14]%nat st ->
  spec (customers_delta2 st)
       (Inv (CustomerAt [15; 7; 3]) 28 [25; 26; 27; 0; 9; 20; 24]%nat).
Proof.
  intros HI. unfold customers_delta2. change (range 26 29) with (ids_from 25 3).
  eapply spec_bind.
  { apply (add_customers_spec [15; 7; 3] 3 25%nat [] (new_delta st) true); [lia | |].
    - intros k Hk. rewrite !not_elem_of_cons. repeat split; try lia. apply not_elem_of_nil.
    - eapply new_delta_inv, HI. }
  intros st1 HI1. simpl in HI1. cbn [for_each].
  eapply spec_bind.
  { eapply (modify_customer_delta2_spec _ 28 _ st1 delta2_time 1); [lia | exact HI1]. }
  intros st2 HI2.
  eapply spec_bind.
  { eapply (modify_customer_delta2_spec _ 28 _ st2 delta2_time 10); [lia | exact HI2]. }
  intros st3 HI3.
  eapply spec_bind.
  { eapply (modify_customer_delta2_spec _ 28 _ st3 delta2_time 21); [lia | exact HI3]. }
  intros st4 HI4.
  eapply spec_bind.
  { eapply (modify_customer_delta2_spec _ 28 _ st4 delta2_time 25); [lia | exact HI4]. }
  intros st5 HI5. apply spec_ret. exact HI5.
Qed.

(** ** Scenario B *)

Lemma uniform_within a b lo hi :
  (0 <= fsub b a)%Q ->
  (lo <= fadd a (fmul (fsub b a) 0))%Q -> (fadd a (fmul (fsub b a) 1) <= hi)%Q ->
  spec (uniform a b) (fun x => (lo <= x)%Q /\ (x <= hi)%Q).
Proof.
  intros Hd Hlo Hhi. eapply spec_mono; [apply uniform_spec, Hd|].
  intros x [H1 H2]. split; lra.
Qed.

Lemma fmul_mono2 x1 x2 c1 c2 :
  (0 <= x1)%Q -> (x1 <= x2)%Q -> (0 <= c1)%Q -> (c1 <= c2)%Q -> (fmul x1 c1 <= fmul x2 c2)%Q.
Proof. intros. apply rnd53_mono. nra. Qed.

Lemma generate_product_record_spec product_id :
  spec (generate_product_record product_id)
       (Product (R2 (lit 999 2) (lit 99999 2)) product_id).
Proof.
  unfold generate_product_record.
  eapply spec_bind; [apply choice_spec; discriminate|]. intros category _.
  eapply spec_bind; [apply choice_spec; discriminate|]. intros adjective _.
  eapply spec_bind; [apply choice_spec; discriminate|]. intros noun _.
  eapply spec_bind; [apply (uniform_within _ _ (lit 999 2) (lit 99999 2)); qle|].
  intros price [Hp1 Hp2].
  eapply spec_bind; [apply (randint_spec 0 500); lia|]. intros stock _.
  eapply spec_bind; [apply (randint_spec 1 20); lia|]. intros supplier _.
  eapply spec_bind; [apply choice_spec; discriminate|]. intros is_active _.
  apply spec_ret. do 6 eexists. split; [reflexivity|].
  exists price. repeat split; assumption.
Qed.

Lemma add_product_spec repriced n D st (append : bool) :
  Z.of_nat n + 1 ∉ repriced ->
  Inv (ProductAt repriced) n D st ->
  spec (add_product append (Z.of_nat n + 1) st)
       (Inv (ProductAt repriced) (S n) (if append then D ++ [n] else D)).
Proof.
  intros Hnot HI. unfold add_product.
  eapply spec_bind; [apply generate_product_record_spec|]. intros rec Hrec.
  apply spec_ret. apply insert_record_inv; [exact HI|].
  unfold ProductAt, price_range. rewrite bool_decide_eq_false_2 by exact Hnot. exact Hrec.
Qed.

Lemma add_products_spec repriced m : forall a D st (append : bool),
  (forall k, (a <= k < a + m)%nat -> Z.of_nat k + 1 ∉ repriced) ->
  Inv (ProductAt repriced) a D st ->
  spec (for_each (ids_from a m) (add_product append) st)
       (Inv (ProductAt repriced) (a + m) (if append then D ++ seq a m else D)).
Proof.
  induction m as [|m IH]; intros a D st append Hnot HI.
  - simpl. apply spec_ret. rewrite Nat.add_0_r.
    destruct append; [rewrite app_nil_r|]; exact HI.
  - simpl. eapply spec_bind.
    + apply add_product_spec; [apply Hnot; lia | exact HI].
    + intros st' HI'. eapply spec_mono.
      * apply (IH (S a) (if append then D ++ [a] else D) st' append);
          [intros k Hk; apply Hnot; lia | exact HI'].
      * intros st''. replace (S a + m)%nat with (a + S m)%nat by lia.
        destruct append; [rewrite <- app_assoc|]; exact id.
Qed.

Lemma price_range_other repriced pid j :
  j <> pid -> price_range (pid :: repriced) j = price_range repriced j.
Proof.
  intros Hj. unfold price_range.
  destruct (decide (j ∈ repriced)) as [Hin|Hout].
  - rewrite !bool_decide_eq_true_2; [reflexivity | exact Hin | right; exact Hin].
  - rewrite !bool_decide_eq_false_2; [reflexivity | exact Hout |].
    intros [E|Hin]%elem_of_cons; [contradiction | exact (Hout Hin)].
Qed.

Lemma product_other repriced pid j rec :
  j <> pid -> ProductAt repriced j rec -> ProductAt (pid :: repriced) j rec.
Proof. intros Hj. unfold ProductAt. rewrite price_range_other by exact Hj. exact id. Qed.

Lemma repriced_price price factor :
  R2 (lit 999 2) (lit 99999 2) price ->
  (lit 8 1 <= factor)%Q -> (factor <= lit 13 1)%Q ->
  R2 (fmul (lit 999 2) (lit 8 1)) (fmul (lit 99999 2) (lit 13 1))
     (round_ndigits (fmul price factor) 2).
Proof.
  intros H Hf1 Hf2. apply R2_bounds in H as [H1 H2].
  assert (Hlo : (lit 999 2 <= price)%Q) by (eapply Qle_trans; [|exact H1]; qle).
  assert (Hhi : (price <= lit 99999 2)%Q) by (eapply Qle_trans; [exact H2|]; qle).
  assert (P1 : (0 <= lit 999 2)%Q) by qle.
  assert (P2 : (0 <= lit 8 1)%Q) by qle.
  exists (fmul price factor). repeat split; apply fmul_mono2; lra.
Qed.

(** the part the two product mutations share: the price is rescaled by a
    factor drawn between [a] and [b] *)
Lemma reprice_spec repriced n D st pid a b (k : Env -> Rand Env) (P : Env -> Prop) :
  1 <= pid <= Z.of_nat n -> pid ∉ repriced ->
  (0 <= fsub b a)%Q ->
  (lit 8 1 <= fadd a (fmul (fsub b a) 0))%Q -> (fadd a (fmul (fsub b a) 1) <= lit 13 1)%Q ->
  Inv (ProductAt repriced) n D st ->
  (forall st', Inv (ProductAt (pid :: repriced)) n D st' -> spec (k st') P) ->
  spec (let* old := get_field st pid "price" in
        let* factor := uniform a b in
        let* scaled := of_option TypeError (mul_float old factor) in
        let* st := set_field st pid "price" (VFloat (round_ndigits scaled 2)) in
        k st) P.
Proof.
  intros Hpid Hnot Hd Hlo Hhi HI Hk.
  eapply spec_bind.
  { apply (get_field_inv _ _ _ _ _ _
             (fun v => exists price, v = VFloat price /\ R2 (lit 999 2) (lit 99999 2) price)
             HI Hpid).
    intros rec (name & category & price & stock & supplier & is_active & -> & HC).
    unfold price_range in HC. rewrite bool_decide_eq_false_2 in HC by exact Hnot.
    exists (VFloat price). split; [reflexivity | eauto]. }
  intros old (price & -> & HC).
  eapply spec_bind; [apply (uniform_within a b _ _ Hd Hlo Hhi)|].
  intros factor [Hf1 Hf2]. simpl. apply spec_bind_ret.
  eapply spec_bind; [|exact Hk].
  apply (set_field_inv (ProductAt repriced) (ProductAt (pid :: repriced)) _ _ _ _ _ _ HI Hpid).
  - intros rec (name & category & price0 & stock & supplier & is_active & -> & _).
    do 6 eexists. split; [reflexivity|].
    unfold price_range. rewrite bool_decide_eq_true_2 by left.
    apply repriced_price; assumption.
  - intros j rec Hj. apply product_other, Hj.
Qed.

Lemma set_product_field repriced n D st pid key v :
  1 <= pid <= Z.of_nat n ->
  key = "stock_quantity"%string \/ key = "is_active"%string ->
  (key = "stock_quantity"%string -> exists z, v = VInt z) ->
  (key = "is_active"%string -> exists s, v = VStr s) ->
  Inv (ProductAt repriced) n D st ->
  spec (S := list Z) (set_field st pid key v) (Inv (ProductAt repriced) n D).
Proof.
  intros Hpid Hkey Hv1 Hv2 HI.
  apply (set_field_inv _ (ProductAt repriced) _ _ _ _ _ _ HI Hpid).
  - intros rec (name & category & price0 & stock & supplier & is_active & -> & HC).
    destruct Hkey as [-> | ->].
    + destruct (Hv1 eq_refl) as [z ->]. do 6 eexists. split; [reflexivity | exact HC].
    + destruct (Hv2 eq_refl) as [s ->]. do 6 eexists. split; [reflexivity | exact HC].
  - intros j rec _. exact id.
Qed.

Lemma modify_product_delta1_spec repriced n D st pid :
  1 <= pid <= Z.of_nat n -> pid ∉ repriced ->
  Inv (ProductAt repriced) n D st ->
  spec (modify_product_delta1 pid st)
       (Inv (ProductAt (pid :: repriced)) n (D ++ [Z.to_nat (pid - 1)])).
Proof.
  intros Hpid Hnot HI. unfold modify_product_delta1.
  apply (reprice_spec repriced n D st pid _ _ _ _ Hpid Hnot); [qle | qle | qle | exact HI |].
  intros st1 HI1.
  eapply spec_bind; [apply (randint_spec 0 500); lia|]. intros stock _.
  eapply spec_bind.
  { eapply (set_product_field _ _ _ _ _ _ _ Hpid); [left; reflexivity | eauto | discriminate | exact HI1]. }
  intros st2 HI2. apply append_ref_inv; assumption.
Qed.

Lemma modify_product_delta2_spec repriced n D st pid :
  1 <= pid <= Z.of_nat n -> pid ∉ repriced ->
  Inv (ProductAt repriced) n D st ->
  spec (modify_product_delta2 pid st)
       (Inv (ProductAt (pid :: repriced)) n (D ++ [Z.to_nat (pid - 1)])).
Proof.
  intros Hpid Hnot HI. unfold modify_product_delta2.
  apply (reprice_spec repriced n D st pid _ _ _ _ Hpid Hnot); [qle | qle | qle | exact HI |].
  intros st1 HI1.
  eapply spec_bind; [apply (randint_spec 0 500); lia|]. intros stock _.
  eapply spec_bind.
  { eapply (set_product_field _ _ _ _ _ _ _ Hpid); [left; reflexivity | eauto | discriminate | exact HI1]. }
  intros st2 HI2.
  eapply spec_bind; [apply choice_spec; discriminate|]. intros is_active _.
  eapply spec_bind.
  { eapply (set_product_field _ _ _ _ _ _ _ Hpid); [right; reflexivity | discriminate | eauto | exact HI2]. }
  intros st3 HI3. apply append_ref_inv; assumption.
Qed.

Lemma products_initial_spec : spec products_initial (Inv (ProductAt []) 25 []).
Proof.
  unfold products_initial. change (range 1 26) with (ids_from 0 25).
  apply (add_products_spec [] 25 0%nat [] empty_env false).
  - intros k _. apply not_elem_of_nil.
  - repeat split. intros k rec Hk. discriminate.
Qed.

Ltac not_in_list :=
  rewrite ?not_elem_of_cons; repeat split; try lia; try discriminate; apply not_elem_of_nil.

Lemma products_delta1_spec st :
  Inv (ProductAt []) 25 [] st ->
  spec (products_delta1 st)
       (Inv (ProductAt [22; 15; 8; 2]) 30 [25; 26; 27; 28; 29; 1; 7; 14; 21]%nat).
Proof.
  intros HI. unfold products_delta1. change (range 26 31) with (ids_from 25 5).
  eapply spec_bind.
  { apply (add_products_spec [] 5 25%nat [] (new_delta st) true).
    - intros k _. apply not_elem_of_nil.
    - eapply new_delta_inv, HI. }
  intros st1 HI1. simpl in HI1. cbn [for_each].
  eapply spec_bind.
  { eapply (modify_product_delta1_spec [] 30 _ st1 2); [lia | not_in_list | exact HI1]. }
  intros st2 HI2.
  eapply spec_bind.
  { eapply (modify_product_delta1_spec [2] 30 _ st2 8); [lia | not_in_list | exact HI2]. }
  intros st3 HI3.
  eapply spec_bind.
  { eapply (modify_product_delta1_spec [8; 2] 30 _ st3 15); [lia | not_in_list | exact HI3]. }
  intros st4 HI4.
  eapply spec_bind.
  { eapply (modify_product_delta1_spec [15; 8; 2] 30 _ st4 22); [lia | not_in_list | exact HI4]. }
  intros st5 HI5. apply spec_ret. exact HI5.
Qed.

Lemma products_delta2_spec st :
  Inv (ProductAt [22; 15; 8; 2]) 30 [25; 26; 27; 28; 29; 1; 7; 14; 21]%nat st ->
  spec (products_delta2 st)
       (Inv (ProductAt [30; 28; 26; 12; 5; 1; 22; 15; 8; 2]) 34
            [30; 31; 32; 33; 0; 4; 11; 25; 27; 29]%nat).
Proof.
  intros HI. unfold products_delta2. change (range 31 35) with (ids_from 30 4).
  eapply spec_bind.
  { apply (add_products_spec [22; 15; 8; 2] 4 30%nat [] (new_delta st) true).
    - intros k Hk. not_in_list.
    - eapply new_delta_inv, HI. }
  intros st1 HI1. simpl in HI1. cbn [for_each].
  eapply spec_bind.
  { eapply (modify_product_delta2_spec [22; 15; 8; 2] 34 _ st1 1); [lia | not_in_list | exact HI1]. }
  intros st2 HI2.
  eapply spec_bind.
  { eapply (modify_product_delta2_spec [1; 22; 15; 8; 2] 34 _ st2 5); [lia | not_in_list | exact HI2]. }
  intros st3 HI3.
  eapply spec_bind.
  { eapply (modify_product_delta2_spec [5; 1; 22; 15; 8; 2] 34 _ st3 12); [lia | not_in_list | exact HI3]. }
  intros st4 HI4.
  eapply spec_bind.
  { eapply (modify_product_delta2_spec [12; 5; 1; 22; 15; 8; 2] 34 _ st4 26); [lia | not_in_list | exact HI4]. }
  intros st5 HI5.
  eapply spec_bind.
  { eapply (modify_product_delta2_spec [26; 12; 5; 1; 22; 15; 8; 2] 34 _ st5 28); [lia | not_in_list | exact HI5]. }
  intros st6 HI6.
  eapply spec_bind.
  { eapply (modify_product_delta2_spec [28; 26; 12; 5; 1; 22; 15; 8; 2] 34 _ st6 30); [lia | not_in_list | exact HI6]. }
  intros st7 HI7. apply spec_ret. exact HI7.
Qed.

(** ** write_csv *)

Lemma append_assoc (a b c : string) : (a +++ b) +++ c = a +++ (b +++ c).
Proof.
  induction a as [|x a IH]; [reflexivity|].
  change (String x ((a +++ b) +++ c) = String x (a +++ (b +++ c))). f_equal. exact IH.
Qed.

Lemma append_nil_r (a : string) : a +++ EmptyString = a.
Proof.
  induction a as [|x a IH]; [reflexivity|].
  change (String x (a +++ EmptyString) = String x a). f_equal. exact IH.
Qed.

Lemma od_get_absent (r : record) k : k ∉ od_keys r -> od_get String.eqb r k = None.
Proof.
  induction r as [|[k' v] r IH]; intros Hk; [reflexivity|].
  simpl in *. apply not_elem_of_cons in Hk as [Hne Hk].
  destruct (String.eqb_spec k' k); [congruence | apply IH, Hk].
Qed.

Lemma lookup_own_keys (r : record) (f : option value -> string) :
  NoDup (od_keys r) ->
  map (fun k => f (od_get String.eqb r k)) (od_keys r) = map (fun v => f (Some v)) (od_values r).
Proof.
  induction r as [|[k v] r IH]; intros Hnd; [reflexivity|].
  simpl in *. apply NoDup_cons in Hnd as [Hk Hnd].
  rewrite String.eqb_refl. f_equal. rewrite <- (IH Hnd).
  apply map_ext_in. intros k' Hin.
  apply list_elem_of_In in Hin.
  destruct (String.eqb_spec k k') as [->|_]; [contradiction | reflexivity].
Qed.

Lemma existsb_own (k : string) l : k ∈ l -> existsb (String.eqb k) l = true.
Proof.
  induction 1 as [|k' y l' _ IH]; simpl; [rewrite String.eqb_refl; reflexivity|].
  rewrite IH. apply orb_true_r.
Qed.

Lemma dict_to_list_own (r : record) :
  NoDup (od_keys r) -> Csv.dict_to_list (od_keys r) r = Some (cells r).
Proof.
  intros Hnd. unfold Csv.dict_to_list.
  assert (H : forallb (fun k => existsb (String.eqb k) (od_keys r)) (od_keys r) = true).
  { apply forallb_forall. intros k Hin. apply existsb_own, list_elem_of_In, Hin. }
  rewrite H. f_equal.
  apply (lookup_own_keys r (fun o => match o with Some v => str_value v | None => EmptyString end) Hnd).
Qed.

Lemma writerows_homogeneous fieldnames rows : forall out,
  NoDup fieldnames -> Forall (fun r => od_keys r = fieldnames) rows ->
  Csv.writerows fieldnames rows out = (out +++ csv_lines (map cells rows), true).
Proof.
  induction rows as [|r rows IH]; intros out Hnd Hall; simpl.
  - rewrite append_nil_r. reflexivity.
  - apply Forall_cons in Hall as [Hr Hall].
    rewrite <- Hr at 1. rewrite dict_to_list_own by (rewrite Hr; exact Hnd).
    rewrite (IH _ Hnd Hall), append_assoc. reflexivity.
Qed.

Lemma written_homogeneous filepath first rest fs :
  homogeneous (first :: rest) ->
  written filepath (first :: rest) fs = <[filepath := csv_text (first :: rest)]> fs.
Proof.
  intros [Hnd Hall]. unfold written, csv_text.
  rewrite (writerows_homogeneous (od_keys first) (first :: rest) _ Hnd)
    by (constructor; [reflexivity | exact Hall]).
  reflexivity.
Qed.

Lemma write_csv_homogeneous filepath records w :
  homogeneous records ->
  write_csv filepath records w = Ok tt (mk_world (rng w) (written filepath records (files w))).
Proof.
  destruct records as [|first rest]; intros H.
  - destruct w. reflexivity.
  - destruct H as [Hnd Hall]. unfold write_csv, written.
    rewrite (writerows_homogeneous (od_keys first) (first :: rest) _ Hnd)
      by (constructor; [reflexivity | exact Hall]).
    reflexivity.
Qed.

(** ** The pipelines *)

Lemma lift_run {A} (m : Rand A) w :
  lift m w = match m (rng w) with
             | Ok a t => Ok a (mk_world t (files w))
             | Raise e t => Raise e (mk_world t (files w))
             end.
Proof. reflexivity. Qed.

(** The shape the two scenario functions share: three generations, each
    followed by the writing of its file.  The run is decided by the
    generations alone: it returns exactly when they do, and the files it
    leaves are those of their records. *)
Lemma scenario_spec (initial : Rand Env) (delta1 delta2 : Env -> Rand Env)
    (path1 path2 path3 : string) (I0 I1 I2 : Env -> Prop) :
  spec initial I0 ->
  (forall st, I0 st -> spec (delta1 st) I1) ->
  (forall st, I1 st -> spec (delta2 st) I2) ->
  (forall st, I0 st -> homogeneous (snapshot_values st)) ->
  (forall st, I1 st -> homogeneous (delta_values st)) ->
  (forall st, I2 st -> homogeneous (delta_values st)) ->
  forall w,
    match (let* st0 := initial in
           let* st1 := delta1 st0 in
           let* st2 := delta2 st1 in
           ret (snapshot_values st0, delta_values st1, delta_values st2)) (rng w) with
    | Ok r t' =>
        (exists st0 st1 st2,
           I0 st0 /\ I1 st1 /\ I2 st2 /\
           r = (snapshot_values st0, delta_values st1, delta_values st2)) /\
        (let* st0 := lift initial in
         let* _ := write_csv path1 (snapshot_values st0) in
         let* st1 := lift (delta1 st0) in
         let* _ := write_csv path2 (delta_values st1) in
         let* st2 := lift (delta2 st1) in
         write_csv path3 (delta_values st2)) w
        = Ok tt (mk_world t' (written path3 r.2 (written path2 r.1.2 (written path1 r.1.1 (files w)))))
    | Raise e _ =>
        e = Starved /\
        exists w',
          (let* st0 := lift initial in
           let* _ := write_csv path1 (snapshot_values st0) in
           let* st1 := lift (delta1 st0) in
           let* _ := write_csv path2 (delta_values st1) in
           let* st2 := lift (delta2 st1) in
           write_csv path3 (delta_values st2)) w = Raise Starved w'
    end.
Proof.
  intros Hinit Hd1 Hd2 W0 W1 W2 w. unfold bind, lift.
  specialize (Hinit (rng w)).
  destruct (initial (rng w)) as [st0 t1|e t1]; cbv beta iota;
    [|subst e; split; [reflexivity | eexists; reflexivity]].
  rewrite (write_csv_homogeneous _ _ _ (W0 _ Hinit)). cbv beta iota. cbn [rng files].
  specialize (Hd1 st0 Hinit t1).
  destruct (delta1 st0 t1) as [st1 t2|e t2]; cbv beta iota;
    [|subst e; split; [reflexivity | eexists; reflexivity]].
  rewrite (write_csv_homogeneous _ _ _ (W1 _ Hd1)). cbv beta iota. cbn [rng files].
  specialize (Hd2 st1 Hd1 t2).
  destruct (delta2 st1 t2) as [st2 t3|e t3]; cbv beta iota;
    [|subst e; split; [reflexivity | eexists; reflexivity]].
  rewrite (write_csv_homogeneous _ _ _ (W2 _ Hd2)). cbn [rng files].
  split; [|reflexivity]. exists st0, st1, st2. repeat split; assumption.
Qed.

(** ** The records of the six files *)

Lemma heap_Forall2 P n D st : Inv P n D st -> Forall2 P (ids_from 0 n) (heap st).
Proof.
  intros (_ & _ & Hl & Hh). apply Forall2_same_length_lookup_2.
  - unfold ids_from. rewrite length_map, length_seq. lia.
  - intros i id rec Hid Hrec. unfold ids_from in Hid.
    change (map ?f ?l) with (fmap (M := list) f l) in Hid.
    rewrite list_lookup_fmap in Hid.
    destruct (seq 0 n !! i) as [k|] eqn:E; [|discriminate].
    apply lookup_seq in E as [-> _]. injection Hid as <-. apply Hh, Hrec.
Qed.

Lemma delta_Forall2 P n D st :
  Inv P n D st -> Forall (fun k => (k < n)%nat) (delta_records st) ->
  Forall2 P (map (fun k : nat => Z.of_nat k + 1) (delta_records st)) (delta_values st).
Proof.
  intros (_ & _ & Hl & Hh). unfold delta_values.
  induction 1 as [|k D' Hk _ IH]; simpl; constructor; [|exact IH].
  destruct (lookup_lt_is_Some_2 (heap st) k) as [rec Hrec]; [lia|].
  rewrite (deref_lookup _ _ _ Hrec). apply Hh, Hrec.
Qed.

Lemma delta_records_inv P n D st : Inv P n D st -> delta_records st = D.
Proof. intros (_ & H & _). exact H. Qed.

Lemma Forall2_at {A B} (P P' : A -> B -> Prop) (xs : list A) (ys : list B) :
  Forall (fun x => forall y, P x y -> P' x y) xs -> Forall2 P xs ys -> Forall2 P' xs ys.
Proof.
  intros Hall H. induction H as [|x y xs ys Hxy _ IH]; constructor.
  - apply Forall_cons in Hall as [Hx _]. apply Hx, Hxy.
  - apply Forall_cons in Hall as [_ Hxs]. apply IH, Hxs.
Qed.

Lemma credit_range_agree S S' id :
  bool_decide (id ∈ S) = bool_decide (id ∈ S') -> credit_range S id = credit_range S' id.
Proof. intros H. unfold credit_range. rewrite H. reflexivity. Qed.

Lemma price_range_agree S S' id :
  bool_decide (id ∈ S) = bool_decide (id ∈ S') -> price_range S id = price_range S' id.
Proof. intros H. unfold price_range. rewrite H. reflexivity. Qed.

Lemma CustomerAt_agree S S' ids :
  forallb (fun id => bool_decide (bool_decide (id ∈ S) = bool_decide (id ∈ S'))) ids = true ->
  Forall (fun id => forall rec, CustomerAt S id rec -> CustomerAt S' id rec) ids.
Proof.
  intros H. apply Forall_forall. intros id Hin rec.
  rewrite forallb_forall in H. specialize (H id (proj1 (list_elem_of_In _ _) Hin)).
  apply bool_decide_eq_true in H. unfold CustomerAt.
  rewrite (credit_range_agree _ _ _ H). tauto.
Qed.

Lemma ProductAt_agree S S' ids :
  forallb (fun id => bool_decide (bool_decide (id ∈ S) = bool_decide (id ∈ S'))) ids = true ->
  Forall (fun id => forall rec, ProductAt S id rec -> ProductAt S' id rec) ids.
Proof.
  intros H. apply Forall_forall. intros id Hin rec.
  rewrite forallb_forall in H. specialize (H id (proj1 (list_elem_of_In _ _) Hin)).
  apply bool_decide_eq_true in H. unfold ProductAt.
  rewrite (price_range_agree _ _ _ H). tauto.
Qed.

Lemma NoDup_CUSTOMER_COLUMNS : NoDup CUSTOMER_COLUMNS.
Proof. apply (bool_decide_unpack _). vm_compute. exact I. Qed.

Lemma NoDup_PRODUCT_COLUMNS : NoDup PRODUCT_COLUMNS.
Proof. apply (bool_decide_unpack _). vm_compute. exact I. Qed.

Lemma customer_keys C id rec : Customer C id rec -> od_keys rec = CUSTOMER_COLUMNS.
Proof. intros (? & ? & ? & ? & ? & ? & ? & ? & -> & _). reflexivity. Qed.

Lemma product_keys C id rec : Product C id rec -> od_keys rec = PRODUCT_COLUMNS.
Proof. intros (? & ? & ? & ? & ? & ? & -> & _). reflexivity. Qed.

Lemma homogeneous_keys (columns : list string) records :
  NoDup columns -> Forall (fun r => od_keys r = columns) records -> homogeneous records.
Proof.
  intros Hnd Hall. destruct records as [|first rest]; [exact I|].
  apply Forall_cons in Hall as [Hf Hr]. split; [rewrite Hf; exact Hnd|].
  rewrite Hf. exact Hr.
Qed.

Lemma customers_keys S ids records :
  Forall2 (CustomerAt S) ids records -> Forall (fun r => od_keys r = CUSTOMER_COLUMNS) records.
Proof.
  induction 1 as [|id rec ids recs H _ IH]; constructor; [|exact IH].
  eapply customer_keys, H.
Qed.

Lemma products_keys S ids records :
  Forall2 (ProductAt S) ids records -> Forall (fun r => od_keys r = PRODUCT_COLUMNS) records.
Proof.
  induction 1 as [|id rec ids recs H _ IH]; constructor; [|exact IH].
  eapply product_keys, H.
Qed.

Lemma customers_homogeneous S ids records :
  Forall2 (CustomerAt S) ids records -> homogeneous records.
Proof.
  intros H. eapply homogeneous_keys; [apply NoDup_CUSTOMER_COLUMNS | eapply customers_keys, H].
Qed.

Lemma products_homogeneous S ids records :
  Forall2 (ProductAt S) ids records -> homogeneous records.
Proof.
  intros H. eapply homogeneous_keys; [apply NoDup_PRODUCT_COLUMNS | eapply products_keys, H].
Qed.

Lemma snapshot_Forall2 P n D st : Inv P n D st -> Forall2 P (ids_from 0 n) (snapshot_values st).
Proof. intros H. rewrite (snapshot_values_inv _ _ _ _ H). eapply heap_Forall2, H. Qed.

Lemma delta_Forall2' P n D st :
  Inv P n D st -> forallb (fun k => Nat.ltb k n) D = true ->
  Forall2 P (map (fun k : nat => Z.of_nat k + 1) D) (delta_values st).
Proof.
  intros H Hlt. rewrite <- (delta_records_inv _ _ _ _ H) in *.
  eapply delta_Forall2; [exact H|].
  apply Forall_forall. intros k Hk. rewrite forallb_forall in Hlt.
  apply Nat.ltb_lt, Hlt, list_elem_of_In, Hk.
Qed.

Lemma customer_files_inv st0 st1 st2 :
  Inv (CustomerAt []) 20 [] st0 ->
  Inv (CustomerAt [15; 7; 3]) 25 [20; 21; 22; 23; 24; 2; 6; 14]%nat st1 ->
  Inv (CustomerAt [15; 7; 3]) 28 [25; 26; 27; 0; 9; 20; 24]%nat st2 ->
  customer_files (snapshot_values st0, delta_values st1, delta_values st2).
Proof.
  intros H0 H1 H2. repeat split; simpl.
  - apply (snapshot_Forall2 _ _ _ _ H0).
  - eapply Forall2_at; [|apply (delta_Forall2' _ _ _ _ H1); reflexivity].
    apply CustomerAt_agree. vm_compute. reflexivity.
  - eapply Forall2_at; [|apply (delta_Forall2' _ _ _ _ H2); reflexivity].
    apply CustomerAt_agree. vm_compute. reflexivity.
Qed.

Lemma product_files_inv st0 st1 st2 :
  Inv (ProductAt []) 25 [] st0 ->
  Inv (ProductAt [22; 15; 8; 2]) 30 [25; 26; 27; 28; 29; 1; 7; 14; 21]%nat st1 ->
  Inv (ProductAt [30; 28; 26; 12; 5; 1; 22; 15; 8; 2]) 34
      [30; 31; 32; 33; 0; 4; 11; 25; 27; 29]%nat st2 ->
  product_files (snapshot_values st0, delta_values st1, delta_values st2).
Proof.
  intros H0 H1 H2. repeat split; simpl.
  - apply (snapshot_Forall2 _ _ _ _ H0).
  - eapply Forall2_at; [|apply (delta_Forall2' _ _ _ _ H1); reflexivity].
    apply ProductAt_agree. vm_compute. reflexivity.
  - eapply Forall2_at; [|apply (delta_Forall2' _ _ _ _ H2); reflexivity].
    apply ProductAt_agree. vm_compute. reflexivity.
Qed.

Lemma written_records {A} (P : A -> record -> Prop) id ids records filepath fs :
  Forall2 P (id :: ids) records -> homogeneous records ->
  written filepath records fs = <[filepath := csv_text records]> fs.
Proof.
  intros H Hh. destruct records as [|first rest]; [inversion H|].
  apply written_homogeneous, Hh.
Qed.

Lemma generate_customers_with_timestamp_spec w :
  match customers_records (rng w) with
  | Ok c t' =>
      customer_files c /\
      generate_customers_with_timestamp w
      = Ok tt (mk_world t' (<[customers_file3_path := csv_text c.2]>
                              (<[customers_file2_path := csv_text c.1.2]>
                                 (<[customers_file1_path := csv_text c.1.1]> (files w)))))
  | Raise e _ =>
      e = Starved /\ exists w', generate_customers_with_timestamp w = Raise Starved w'
  end.
Proof.
  pose proof (scenario_spec customers_initial customers_delta1 customers_delta2
                customers_file1_path customers_file2_path customers_file3_path
                _ _ _ customers_initial_spec customers_delta1_spec customers_delta2_spec) as H.
  specialize (H (fun st HI => customers_homogeneous _ _ _ (snapshot_Forall2 _ _ _ _ HI))).
  specialize (H (fun st HI => customers_homogeneous _ _ _ (delta_Forall2' _ _ _ _ HI eq_refl))).
  specialize (H (fun st HI => customers_homogeneous _ _ _ (delta_Forall2' _ _ _ _ HI eq_refl))).
  specialize (H w). unfold generate_customers_with_timestamp, customers_records.
  match goal with |- match ?X with _ => _ end => destruct X as [c t'|e t'] end; [|exact H].
  destruct H as ((st0 & st1 & st2 & H0 & H1 & H2 & ->) & Hrun).
  pose proof (customer_files_inv _ _ _ H0 H1 H2) as HC.
  split; [exact HC|]. rewrite Hrun.
  destruct HC as (C1 & C2 & C3). cbn [fst snd] in *.
  rewrite (written_records _ _ _ _ _ _ C1) by (eapply customers_homogeneous, C1).
  rewrite (written_records _ _ _ _ _ _ C2) by (eapply customers_homogeneous, C2).
  rewrite (written_records _ _ _ _ _ _ C3) by (eapply customers_homogeneous, C3).
  reflexivity.
Qed.

Lemma generate_products_without_timestamp_spec w :
  match products_records (rng w) with
  | Ok p t' =>
      product_files p /\
      generate_products_without_timestamp w
      = Ok tt (mk_world t' (<[products_file3_path := csv_text p.2]>
                              (<[products_file2_path := csv_text p.1.2]>
                                 (<[products_file1_path := csv_text p.1.1]> (files w)))))
  | Raise e _ =>
      e = Starved /\ exists w', generate_products_without_timestamp w = Raise Starved w'
  end.
Proof.
  pose proof (scenario_spec products_initial products_delta1 products_delta2
                products_file1_path products_file2_path products_file3_path
                _ _ _ products_initial_spec products_delta1_spec products_delta2_spec) as H.
  specialize (H (fun st HI => products_homogeneous _ _ _ (snapshot_Forall2 _ _ _ _ HI))).
  specialize (H (fun st HI => products_homogeneous _ _ _ (delta_Forall2' _ _ _ _ HI eq_refl))).
  specialize (H (fun st HI => products_homogeneous _ _ _ (delta_Forall2' _ _ _ _ HI eq_refl))).
  specialize (H w). unfold generate_products_without_timestamp, products_records.
  match goal with |- match ?X with _ => _ end => destruct X as [c t'|e t'] end; [|exact H].
  destruct H as ((st0 & st1 & st2 & H0 & H1 & H2 & ->) & Hrun).
  pose proof (product_files_inv _ _ _ H0 H1 H2) as HC.
  split; [exact HC|]. rewrite Hrun.
  destruct HC as (C1 & C2 & C3). cbn [fst snd] in *.
  rewrite (written_records _ _ _ _ _ _ C1) by (eapply products_homogeneous, C1).
  rewrite (written_records _ _ _ _ _ _ C2) by (eapply products_homogeneous, C2).
  rewrite (written_records _ _ _ _ _ _ C3) by (eapply products_homogeneous, C3).
  reflexivity.
Qed.

(** [main] is decided by the tape alone: it returns exactly when the two
    record computations do, and then the six files hold the text of their
    records, whatever the file system held before. *)
Lemma main_outcome t fs :
  match customers_records t with
  | Ok c t1 =>
      match products_records t1 with
      | Ok p t2 =>
          customer_files c /\ product_files p /\
          main (mk_world t fs) = Ok tt (mk_world t2 (six_files c p fs))
      | Raise e _ => e = Starved /\ exists w', main (mk_world t fs) = Raise Starved w'
      end
  | Raise e _ => e = Starved /\ exists w', main (mk_world t fs) = Raise Starved w'
  end.
Proof.
  pose proof (generate_customers_with_timestamp_spec (mk_world t fs)) as HA.
  cbn [rng files] in HA. unfold main, bind.
  destruct (customers_records t) as [c t1|e t1].
  - destruct HA as [HC ->].
    match goal with |- context [generate_products_without_timestamp ?w] =>
      pose proof (generate_products_without_timestamp_spec w) as HB end.
    cbn [rng files] in HB.
    destruct (products_records t1) as [p t2|e t2].
    + destruct HB as [HP ->]. auto.
    + destruct HB as [-> [w' ->]]. split; [reflexivity | eexists; reflexivity].
  - destruct HA as [-> [w' ->]]. split; [reflexivity | eexists; reflexivity].
Qed.

Lemma main_returns w w' :
  main w = Ok tt w' ->
  exists c p t,
    customers_records (rng w) = Ok c t /\ products_records t = Ok p (rng w') /\
    customer_files c /\ product_files p /\ files w' = six_files c p (files w).
Proof.
  intros H. destruct w as [t fs]. pose proof (main_outcome t fs) as Ho. cbn [rng files].
  destruct (customers_records t) as [c t1|e t1].
  - destruct (products_records t1) as [p t2|e t2] eqn:Ep.
    + destruct Ho as (HC & HP & Hm). rewrite Hm in H. injection H as <-.
      exists c, p, t1. cbn [rng files]. auto.
    + destruct Ho as [_ [w2 Hm]]. congruence.
  - destruct Ho as [_ [w2 Hm]]. congruence.
Qed.

Lemma main_raises w e w' : main w = Raise e w' -> e = Starved.
Proof.
  intros H. destruct w as [t fs]. pose proof (main_outcome t fs) as Ho.
  destruct (customers_records t) as [c t1|e1 t1].
  - destruct (products_records t1) as [p t2|e2 t2].
    + destruct Ho as (_ & _ & Hm). congruence.
    + destruct Ho as [_ [w2 Hm]]. congruence.
  - destruct Ho as [_ [w2 Hm]]. congruence.
Qed.

(** ** The files *)

Ltac paths_differ := apply String.eqb_neq; vm_compute; reflexivity.

Lemma six_files_lookup c p fs :
  six_files c p fs !! customers_file1_path = Some (csv_text c.1.1) /\
  six_files c p fs !! customers_file2_path = Some (csv_text c.1.2) /\
  six_files c p fs !! customers_file3_path = Some (csv_text c.2) /\
  six_files c p fs !! products_file1_path = Some (csv_text p.1.1) /\
  six_files c p fs !! products_file2_path = Some (csv_text p.1.2) /\
  six_files c p fs !! products_file3_path = Some (csv_text p.2).
Proof.
  unfold six_files.
  repeat split; repeat (rewrite lookup_insert_ne by paths_differ); apply lookup_insert_eq.
Qed.

Lemma customers_csv_text S id ids records :
  Forall2 (CustomerAt S) (id :: ids) records ->
  csv_text records = csv_lines (CUSTOMER_COLUMNS :: map cells records).
Proof.
  intros H. destruct records as [|first rest]; [inversion H|].
  apply Forall2_cons in H as [Hf _]. unfold csv_text.
  rewrite (customer_keys _ _ _ Hf). reflexivity.
Qed.

Lemma products_csv_text S id ids records :
  Forall2 (ProductAt S) (id :: ids) records ->
  csv_text records = csv_lines (PRODUCT_COLUMNS :: map cells records).
Proof.
  intros H. destruct records as [|first rest]; [inversion H|].
  apply Forall2_cons in H as [Hf _]. unfold csv_text.
  rewrite (product_keys _ _ _ Hf). reflexivity.
Qed.

Lemma customers_first_column S ids records :
  Forall2 (CustomerAt S) ids records -> column 0 (map cells records) = map str_int ids.
Proof.
  induction 1 as [|id rec ids recs H _ IH]; [reflexivity|].
  destruct H as (? & ? & ? & ? & ? & ? & ? & ? & -> & _).
  simpl. f_equal. exact IH.
Qed.

Lemma products_first_column S ids records :
  Forall2 (ProductAt S) ids records ->
  column 0 (map cells records) = map product_id_text ids.
Proof.
  induction 1 as [|id rec ids recs H _ IH]; [reflexivity|].
  destruct H as (? & ? & ? & ? & ? & ? & -> & _).
  simpl. f_equal. exact IH.
Qed.

Lemma Forall2_length_rows {A} (P : A -> record -> Prop) ids records :
  Forall2 P ids records -> length (map cells records) = length ids.
Proof. intros H. rewrite length_map. symmetry. eapply Forall2_length, H. Qed.

(** the identifier columns of the three customer files *)
Lemma customer_file_columns w w' :
  main w = Ok tt w' ->
  exists rows1 rows2 rows3,
    files w' !! customers_file1_path = Some (csv_lines (CUSTOMER_COLUMNS :: rows1)) /\
    files w' !! customers_file2_path = Some (csv_lines (CUSTOMER_COLUMNS :: rows2)) /\
    files w' !! customers_file3_path = Some (csv_lines (CUSTOMER_COLUMNS :: rows3)) /\
    column 0 rows1 = map str_int (range 1 21) /\
    column 0 rows2 = map str_int [21; 22; 23; 24; 25; 3; 7; 15] /\
    column 0 rows3 = map str_int [26; 27; 28; 1; 10; 21; 25].
Proof.
  intros Hrun. destruct (main_returns _ _ Hrun) as (c & p & t & _ & _ & HC & _ & ->).
  destruct HC as (C1 & C2 & C3).
  destruct (six_files_lookup c p (files w)) as (-> & -> & -> & _).
  exists (map cells c.1.1), (map cells c.1.2), (map cells c.2).
  rewrite (customers_csv_text _ _ _ _ C1), (customers_csv_text _ _ _ _ C2),
    (customers_csv_text _ _ _ _ C3).
  rewrite (customers_first_column _ _ _ C1), (customers_first_column _ _ _ C2),
    (customers_first_column _ _ _ C3).
  repeat split; reflexivity.
Qed.

(** the identifier columns of the three product files *)
Lemma product_file_columns w w' :
  main w = Ok tt w' ->
  exists rows1 rows2 rows3,
    files w' !! products_file1_path = Some (csv_lines (PRODUCT_COLUMNS :: rows1)) /\
    files w' !! products_file2_path = Some (csv_lines (PRODUCT_COLUMNS :: rows2)) /\
    files w' !! products_file3_path = Some (csv_lines (PRODUCT_COLUMNS :: rows3)) /\
    column 0 rows1 = map product_id_text (range 1 26) /\
    column 0 rows2 = map product_id_text [26; 27; 28; 29; 30; 2; 8; 15; 22] /\
    column 0 rows3 = map product_id_text [31; 32; 33; 34; 1; 5; 12; 26; 28; 30].
Proof.
  intros Hrun. destruct (main_returns _ _ Hrun) as (c & p & t & _ & _ & _ & HP & ->).
  destruct HP as (P1 & P2 & P3).
  destruct (six_files_lookup c p (files w)) as (_ & _ & _ & -> & -> & ->).
  exists (map cells p.1.1), (map cells p.1.2), (map cells p.2).
  rewrite (products_csv_text _ _ _ _ P1), (products_csv_text _ _ _ _ P2),
    (products_csv_text _ _ _ _ P3).
  rewrite (products_first_column _ _ _ P1), (products_first_column _ _ _ P2),
    (products_first_column _ _ _ P3).
  repeat split; reflexivity.
Qed.

Lemma column_length i rows : length (column i rows) = length rows.
Proof. apply length_map. Qed.

Lemma column_app i rows rows' : column i (rows ++ rows') = column i rows ++ column i rows'.
Proof. apply map_app. Qed.

Lemma column_take i n rows : column i (take n rows) = take n (column i rows).
Proof. unfold column. change (map ?f ?l) with (fmap (M := list) f l). apply fmap_take. Qed.

(** two concrete lists of strings with the same elements *)
Lemma same_elements (l1 l2 : list string) :
  forallb (fun s => bool_decide (s ∈ l2)) l1 = true ->
  forallb (fun s => bool_decide (s ∈ l1)) l2 = true ->
  forall s, s ∈ l1 <-> s ∈ l2.
Proof.
  intros H1 H2 s. rewrite forallb_forall in H1, H2. split; intros Hin.
  - apply list_elem_of_In in Hin. eapply bool_decide_eq_true_1, H1, Hin.
  - apply list_elem_of_In in Hin. eapply bool_decide_eq_true_1, H2, Hin.
Qed.

(** ** The identifiers in the files *)

(** C3. The delta1 customer file holds, after the header, exactly 8 rows,
    whose identifiers are 21, 22, 23, 24, 25 (the new records) and then
    3, 7, 15 (the modified ones), in that order. *)
Theorem delta1_customer_rows (w w' : World) :
  main w = Ok tt w' ->
  exists rows,
    files w' !! customers_file2_path = Some (csv_lines (CUSTOMER_COLUMNS :: rows)) /\
    length rows = 8%nat /\
    column 0 rows = ["21"; "22"; "23"; "24"; "25"; "3"; "7"; "15"]%string.
Proof.
  intros Hrun.
  destruct (customer_file_columns _ _ Hrun) as (rows1 & rows2 & rows3 & _ & H2 & _ & _ & C2 & _).
  exists rows2. split; [exact H2|]. split; [|exact C2].
  rewrite <- (column_length 0), C2. reflexivity.
Qed.

Lemma delta1_customer_rows_witness :
  exists rows,
    files script_end !! customers_file2_path = Some (csv_lines (CUSTOMER_COLUMNS :: rows)) /\
    length rows = 8%nat /\
    column 0 rows = ["21"; "22"; "23"; "24"; "25"; "3"; "7"; "15"]%string.
Proof. apply (delta1_customer_rows script_world script_end). vm_compute. reflexivity. Defined.

(** C4. The delta2 customer file holds, after the header, exactly 7 rows,
    whose identifiers are 26, 27, 28 (the new records) and then 1, 10, 21,
    25 (the modified ones), in that order; 21 and 25 are identifiers of the
    five records delta1 inserted, absent from the initial file. *)
Theorem delta2_customer_rows (w w' : World) :
  main w = Ok tt w' ->
  exists initial delta1 delta2,
    files w' !! customers_file1_path = Some (csv_lines (CUSTOMER_COLUMNS :: initial)) /\
    files w' !! customers_file2_path = Some (csv_lines (CUSTOMER_COLUMNS :: delta1)) /\
    files w' !! customers_file3_path = Some (csv_lines (CUSTOMER_COLUMNS :: delta2)) /\
    length delta2 = 7%nat /\
    column 0 delta2 = ["26"; "27"; "28"; "1"; "10"; "21"; "25"]%string /\
    column 0 (take 5 delta1) = ["21"; "22"; "23"; "24"; "25"]%string /\
    ("21"%string ∉ column 0 initial) /\ ("25"%string ∉ column 0 initial).
Proof.
  intros Hrun.
  destruct (customer_file_columns _ _ Hrun)
    as (rows1 & rows2 & rows3 & H1 & H2 & H3 & C1 & C2 & C3).
  exists rows1, rows2, rows3. repeat (split; [assumption|]).
  split; [rewrite <- (column_length 0), C3; reflexivity|].
  split; [exact C3|].
  split; [rewrite column_take, C2; reflexivity|].
  rewrite C1. split; apply (bool_decide_unpack _); vm_compute; exact I.
Qed.

Lemma delta2_customer_rows_witness :
  exists initial delta1 delta2,
    files script_end !! customers_file1_path = Some (csv_lines (CUSTOMER_COLUMNS :: initial)) /\
    files script_end !! customers_file2_path = Some (csv_lines (CUSTOMER_COLUMNS :: delta1)) /\
    files script_end !! customers_file3_path = Some (csv_lines (CUSTOMER_COLUMNS :: delta2)) /\
    length delta2 = 7%nat /\
    column 0 delta2 = ["26"; "27"; "28"; "1"; "10"; "21"; "25"]%string /\
    column 0 (take 5 delta1) = ["21"; "22"; "23"; "24"; "25"]%string /\
    ("21"%string ∉ column 0 initial) /\ ("25"%string ∉ column 0 initial).
Proof. apply (delta2_customer_rows script_world script_end). vm_compute. reflexivity. Defined.

(** C5. The identifiers in the three customer files are, together, exactly
    1 to 28, and the initial file holds the identifiers 1 to 20, each
    once. *)
Theorem customer_identifier_set (w w' : World) :
  main w = Ok tt w' ->
  exists initial delta1 delta2,
    files w' !! customers_file1_path = Some (csv_lines (CUSTOMER_COLUMNS :: initial)) /\
    files w' !! customers_file2_path = Some (csv_lines (CUSTOMER_COLUMNS :: delta1)) /\
    files w' !! customers_file3_path = Some (csv_lines (CUSTOMER_COLUMNS :: delta2)) /\
    column 0 initial = map str_int (range 1 21) /\
    NoDup (column 0 initial) /\
    forall s, s ∈ column 0 (initial ++ delta1 ++ delta2) <-> s ∈ map str_int (range 1 29).
Proof.
  intros Hrun.
  destruct (customer_file_columns _ _ Hrun)
    as (rows1 & rows2 & rows3 & H1 & H2 & H3 & C1 & C2 & C3).
  exists rows1, rows2, rows3. repeat (split; [assumption|]).
  split; [rewrite C1; apply (bool_decide_unpack _); vm_compute; exact I|].
  rewrite !column_app, C1, C2, C3.
  apply same_elements; vm_compute; reflexivity.
Qed.

Lemma customer_identifier_set_witness :
  exists initial delta1 delta2,
    files script_end !! customers_file1_path = Some (csv_lines (CUSTOMER_COLUMNS :: initial)) /\
    files script_end !! customers_file2_path = Some (csv_lines (CUSTOMER_COLUMNS :: delta1)) /\
    files script_end !! customers_file3_path = Some (csv_lines (CUSTOMER_COLUMNS :: delta2)) /\
    column 0 initial = map str_int (range 1 21) /\
    NoDup (column 0 initial) /\
    forall s, s ∈ column 0 (initial ++ delta1 ++ delta2) <-> s ∈ map str_int (range 1 29).
Proof. apply (customer_identifier_set script_world script_end). vm_compute. reflexivity. Defined.

(** C10. The initial product file holds PROD-0001 to PROD-0025; delta1
    holds PROD-0026 to PROD-0030 and then the products 2, 8, 15, 22; delta2
    holds PROD-0031 to PROD-0034 and then the products 1, 5, 12, 26, 28, 30;
    together the three files hold exactly PROD-0001 to PROD-0034. *)
Theorem product_identifier_rows (w w' : World) :
  main w = Ok tt w' ->
  exists initial delta1 delta2,
    files w' !! products_file1_path = Some (csv_lines (PRODUCT_COLUMNS :: initial)) /\
    files w' !! products_file2_path = Some (csv_lines (PRODUCT_COLUMNS :: delta1)) /\
    files w' !! products_file3_path = Some (csv_lines (PRODUCT_COLUMNS :: delta2)) /\
    column 0 initial = map product_id_text (range 1 26) /\
    column 0 delta1 =
      ["PROD-0026"; "PROD-0027"; "PROD-0028"; "PROD-0029"; "PROD-0030";
       "PROD-0002"; "PROD-0008"; "PROD-0015"; "PROD-0022"]%string /\
    column 0 delta2 =
      ["PROD-0031"; "PROD-0032"; "PROD-0033"; "PROD-0034";
       "PROD-0001"; "PROD-0005"; "PROD-0012"; "PROD-0026"; "PROD-0028"; "PROD-0030"]%string /\
    product_id_text 1 = "PROD-0001"%string /\ product_id_text 25 = "PROD-0025"%string /\
    product_id_text 34 = "PROD-0034"%string /\
    forall s, s ∈ column 0 (initial ++ delta1 ++ delta2) <-> s ∈ map product_id_text (range 1 35).
Proof.
  intros Hrun.
  destruct (product_file_columns _ _ Hrun)
    as (rows1 & rows2 & rows3 & H1 & H2 & H3 & C1 & C2 & C3).
  exists rows1, rows2, rows3. repeat (split; [first [assumption | reflexivity]|]).
  rewrite !column_app, C1, C2, C3.
  apply same_elements; vm_compute; reflexivity.
Qed.

Lemma product_identifier_rows_witness :
  exists initial delta1 delta2,
    files script_end !! products_file1_path = Some (csv_lines (PRODUCT_COLUMNS :: initial)) /\
    files script_end !! products_file2_path = Some (csv_lines (PRODUCT_COLUMNS :: delta1)) /\
    files script_end !! products_file3_path = Some (csv_lines (PRODUCT_COLUMNS :: delta2)) /\
    column 0 initial = map product_id_text (range 1 26) /\
    column 0 delta1 =
      ["PROD-0026"; "PROD-0027"; "PROD-0028"; "PROD-0029"; "PROD-0030";
       "PROD-0002"; "PROD-0008"; "PROD-0015"; "PROD-0022"]%string /\
    column 0 delta2 =
      ["PROD-0031"; "PROD-0032"; "PROD-0033"; "PROD-0034";
       "PROD-0001"; "PROD-0005"; "PROD-0012"; "PROD-0026"; "PROD-0028"; "PROD-0030"]%string /\
    product_id_text 1 = "PROD-0001"%string /\ product_id_text 25 = "PROD-0025"%string /\
    product_id_text 34 = "PROD-0034"%string /\
    forall s, s ∈ column 0 (initial ++ delta1 ++ delta2) <-> s ∈ map product_id_text (range 1 35).
Proof. apply (product_identifier_rows script_world script_end). vm_compute. reflexivity. Defined.

(** ** The writer *)

(** C8. For a non-empty sequence of records with the keys of the first,
    [write_csv] writes the first record's keys as the header row, in their
    order, and then one row per record, in the order of the sequence; for
    the empty sequence it leaves the file system as it was. *)
Theorem write_csv_contract (filepath : string) (records : list record) (w : World) :
  homogeneous records ->
  write_csv filepath records w =
    Ok tt match records with
          | [] => w
          | first :: _ =>
              mk_world (rng w)
                (<[filepath := csv_lines (od_keys first :: map cells records)]> (files w))
          end.
Proof.
  intros H. rewrite (write_csv_homogeneous _ _ _ H).
  destruct records as [|first rest]; [destruct w; reflexivity|].
  rewrite (written_homogeneous _ _ _ _ H). reflexivity.
Qed.

Lemma write_csv_contract_witness :
  write_csv "out.csv"
    [[("id"%string, VInt 1); ("name"%string, VStr "a,b")];
     [("id"%string, VInt 2); ("name"%string, VStr "c")]] script_world
  = Ok tt (mk_world (rng script_world)
             (<["out.csv"%string :=
                  csv_lines [["id"; "name"]; ["1"; "a,b"]; ["2"; "c"]]%string]>
                (files script_world)))
  /\ write_csv "out.csv" [] script_world = Ok tt script_world.
Proof.
  split.
  - apply (write_csv_contract "out.csv"
             [[("id"%string, VInt 1); ("name"%string, VStr "a,b")];
              [("id"%string, VInt 2); ("name"%string, VStr "c")]] script_world).
    split; [apply (bool_decide_unpack _); vm_compute; exact I|].
    repeat constructor.
  - apply (write_csv_contract "out.csv" [] script_world). exact I.
Defined.

(** ** Lookups *)

Lemma keys_present P n D st i :
  Inv P n D st -> 1 <= i <= Z.of_nat n -> is_Some (od_get Z.eqb (snapshot st) i).
Proof. intros HI Hi. destruct (inv_lookup _ _ _ _ _ HI Hi) as [-> _]. eauto. Qed.

Lemma targets_present P n D (targets : list Z) :
  forallb (fun i => andb (1 <=? i) (i <=? Z.of_nat n)) targets = true ->
  forall st, Inv P n D st ->
             Forall (fun i => is_Some (od_get Z.eqb (snapshot st) i)) targets.
Proof.
  intros Hall st HI. apply Forall_forall. intros i Hin.
  rewrite forallb_forall in Hall. specialize (Hall i (proj1 (list_elem_of_In _ _) Hin)).
  apply andb_true_iff in Hall as [H1 H2]. apply (keys_present _ _ _ _ _ HI). lia.
Qed.

(** C9. No run raises [KeyError], or any other exception: [main] returns,
    unless the tape ends first.  At the entry of each of the four mutation
    loops the snapshot has the targeted identifiers among its keys:
    3, 7, 15 and then 1, 10, 21, 25 for the customers, 2, 8, 15, 22 and then
    1, 5, 12, 26, 28, 30 for the products. *)
Theorem snapshot_lookups_never_fail :
  (forall w, (exists w', main w = Ok tt w') \/ (exists w', main w = Raise Starved w')) /\
  (forall t,
     match (let* st := customers_initial in
            for_each (range 21 26) (add_customer true delta1_time 30) (new_delta st)) t with
     | Ok st _ => Forall (fun cid => is_Some (od_get Z.eqb (snapshot st) cid)) [3; 7; 15]
     | Raise e _ => e = Starved
     end) /\
  (forall t,
     match (let* st := customers_initial in
            let* st := customers_delta1 st in
            for_each (range 26 29) (add_customer true delta2_time 30) (new_delta st)) t with
     | Ok st _ => Forall (fun cid => is_Some (od_get Z.eqb (snapshot st) cid)) [1; 10; 21; 25]
     | Raise e _ => e = Starved
     end) /\
  (forall t,
     match (let* st := products_initial in
            for_each (range 26 31) (add_product true) (new_delta st)) t with
     | Ok st _ => Forall (fun pid => is_Some (od_get Z.eqb (snapshot st) pid)) [2; 8; 15; 22]
     | Raise e _ => e = Starved
     end) /\
  (forall t,
     match (let* st := products_initial in
            let* st := products_delta1 st in
            for_each (range 31 35) (add_product true) (new_delta st)) t with
     | Ok st _ =>
         Forall (fun pid => is_Some (od_get Z.eqb (snapshot st) pid)) [1; 5; 12; 26; 28; 30]
     | Raise e _ => e = Starved
     end).
Proof.
  split; [|split; [|split; [|split]]].
  - intros w. destruct (main w) as [[] w'|e w'] eqn:E; [left; eauto|].
    right. rewrite (main_raises _ _ _ E). eauto.
  - apply (spec_bind _ _ _ _ customers_initial_spec). intros st HI.
    eapply spec_mono.
    + change (range 21 26) with (ids_from 20 5).
      apply (add_customers_spec [] 5 20%nat [] (new_delta st) true); [lia | |].
      * intros k _. apply not_elem_of_nil.
      * eapply new_delta_inv, HI.
    + apply targets_present. reflexivity.
  - apply (spec_bind _ _ _ _ customers_initial_spec). intros st HI.
    apply (spec_bind _ _ _ _ (customers_delta1_spec st HI)). intros st1 HI1.
    eapply spec_mono.
    + change (range 26 29) with (ids_from 25 3).
      apply (add_customers_spec [15; 7; 3] 3 25%nat [] (new_delta st1) true); [lia | |].
      * intros k Hk. not_in_list.
      * eapply new_delta_inv, HI1.
    + apply targets_present. reflexivity.
  - apply (spec_bind _ _ _ _ products_initial_spec). intros st HI.
    eapply spec_mono.
    + change (range 26 31) with (ids_from 25 5).
      apply (add_products_spec [] 5 25%nat [] (new_delta st) true).
      * intros k _. apply not_elem_of_nil.
      * eapply new_delta_inv, HI.
    + apply targets_present. reflexivity.
  - apply (spec_bind _ _ _ _ products_initial_spec). intros st HI.
    apply (spec_bind _ _ _ _ (products_delta1_spec st HI)). intros st1 HI1.
    eapply spec_mono.
    + change (range 31 35) with (ids_from 30 4).
      apply (add_products_spec [22; 15; 8; 2] 4 30%nat [] (new_delta st1) true).
      * intros k Hk. not_in_list.
      * eapply new_delta_inv, HI1.
    + apply targets_present. reflexivity.
Qed.

(** ** Determinism *)

Lemma script_records :
  exists c t1 p t2,
    customers_records (MT19937.tape 42 2) = Ok c t1 /\ products_records t1 = Ok p t2.
Proof.
  assert (H : match customers_records (MT19937.tape 42 2) with
              | Ok _ t1 => match products_records t1 with Ok _ _ => True | Raise _ _ => False end
              | Raise _ _ => False
              end) by (vm_compute; exact I).
  destruct (customers_records (MT19937.tape 42 2)) as [c t1|e t1]; [|contradiction].
  destruct (products_records t1) as [p t2|e t2] eqn:Ep; [|contradiction].
  exists c, t1, p, t2. split; [reflexivity | exact Ep].
Qed.

(** C6. Two runs from the same generator state behave alike, whatever the
    output directory held before: both return, with the same contents in
    each of the six files and the generator in the same state, or both
    stop for want of tape.  The products are drawn from the state the
    customers left.  With the seed 42 the script returns. *)
Theorem same_seed_same_files :
  (forall tape fs1 fs2,
     match main (mk_world tape fs1), main (mk_world tape fs2) with
     | Ok _ w1, Ok _ w2 =>
         rng w1 = rng w2 /\
         Forall (fun path => is_Some (files w1 !! path) /\ files w1 !! path = files w2 !! path)
                output_paths /\
         exists c t p, customers_records tape = Ok c t /\ products_records t = Ok p (rng w1)
     | Raise e1 _, Raise e2 _ => e1 = e2
     | _, _ => False
     end) /\
  (forall fs, exists w', script fs = Ok tt w').
Proof.
  split.
  - intros tape fs1 fs2.
    pose proof (main_outcome tape fs1) as H1. pose proof (main_outcome tape fs2) as H2.
    destruct (customers_records tape) as [c t1|e t1].
    + destruct (products_records t1) as [p t2|e t2] eqn:Ep.
      * destruct H1 as (_ & _ & ->). destruct H2 as (_ & _ & ->). cbn [rng files].
        split; [reflexivity|]. split; [|eauto].
        destruct (six_files_lookup c p fs1) as (A1 & A2 & A3 & A4 & A5 & A6).
        destruct (six_files_lookup c p fs2) as (B1 & B2 & B3 & B4 & B5 & B6).
        unfold output_paths. repeat constructor; eauto; congruence.
      * destruct H1 as [_ [w1 ->]]. destruct H2 as [_ [w2 ->]]. reflexivity.
    + destruct H1 as [_ [w1 ->]]. destruct H2 as [_ [w2 ->]]. reflexivity.
  - intros fs. unfold script. pose proof (main_outcome (MT19937.tape 42 2) fs) as H.
    destruct script_records as (c & t1 & p & t2 & Ec & Ep).
    rewrite Ec, Ep in H. destruct H as (_ & _ & ->). eauto.
Qed.

(** ** The run of the script *)

(** The Mersenne Twister of the model against known outputs: the first
    outputs of the reference implementation for the key
    [0x123, 0x234, 0x345, 0x456] and for [init_genrand(5489)], and the first
    values of [random.random()] and [random.randint(1, 100)] after
    [random.seed(42)] (0.6394267984578837 is 5759444582531269 / 2^53). *)
Example mt19937_reference_outputs :
  take 5 (MT19937.outputs 1 (MT19937.init_by_array [0x123; 0x234; 0x345; 0x456]))
  = [1067595299; 955945823; 477289528; 4107218783; 4228976476] /\
  take 3 (MT19937.outputs 1 (MT19937.init_genrand 5489))
  = [3499211612; 581869302; 3890346734].
Proof. split; vm_compute; reflexivity. Qed.

Example seed_42_first_draws :
  match random (MT19937.tape 42 1) with
  | Ok r _ => r = (5759444582531269 # 9007199254740992)%Q
  | Raise _ _ => False
  end /\
  match for_each [1; 2; 3; 4; 5] (fun _ acc => let* r := randint 1 100 in ret (acc ++ [r])) []
          (MT19937.tape 42 1) with
  | Ok draws _ => draws = [82; 15; 4; 95; 36]
  | Raise _ _ => False
  end /\
  Repr.repr (5759444582531269 # 9007199254740992)%Q = "0.6394267984578837"%string.
Proof. split; [|split]; vm_compute; reflexivity. Qed.

Example float_known_answers :
  Repr.repr (fadd (lit 1 1) (lit 2 1)) = "0.30000000000000004"%string /\
  Repr.repr (round_ndigits (lit 2675 3) 2) = "2.67"%string /\
  Repr.repr (round_ndigits (lit 125 3) 2) = "0.12"%string /\
  Repr.repr (fmul (lit 11 1) (lit 11 1)) = "1.2100000000000002"%string /\
  Repr.repr (lit 12345 1) = "1234.5"%string /\
  Repr.repr (lit 100 0) = "100.0"%string /\
  Repr.repr (lit 15 6) = "1.5e-05"%string /\
  Repr.repr (lit 10000000000000000 0) = "1e+16"%string.
Proof. repeat split; vm_compute; reflexivity. Qed.

(** The six files the script writes, cell by cell. *)
Lemma script_output :
  main script_world = Ok tt script_end /\
  files script_end !! customers_file1_path = Some (csv_lines
      [["customer_id"; "first_name"; "last_name"; "email"; "phone"; "city"; "state";
        "credit_limit"; "last_updated_ts"];
       ["1"; "Patricia"; "Smith"; "patricia.smith1@yahoo.com"; "(428) 342-2679"; "Dallas";
        "TX"; "34158.27"; "2025-01-01 10:40:00"];
       ["2"; "Sarah"; "Williams"; "sarah.williams2@gmail.com"; "(230) 295-4582"; "Columbus";
        "OH"; "12400.38"; "2025-01-01 10:57:00"];
       ["3"; "James"; "Moore"; "james.moore3@company.com"; "(629) 425-8359"; "San Antonio";
        "TX"; "29874.02"; "2025-01-01 10:38:00"];
       ["4"; "Margaret"; "Smith"; "margaret.smith4@hotmail.com"; "(548) 484-3547";
        "Philadelphia"; "PA"; "11550.37"; "2025-01-01 10:51:00"];
       ["5"; "David"; "Brown"; "david.brown5@hotmail.com"; "(299) 567-6635"; "Chicago"; "IL";
        "30582.58"; "2025-01-01 10:48:00"];
       ["6"; "Mary"; "White"; "mary.white6@company.com"; "(327) 587-2291"; "Charlotte"; "NC";
        "28049.99"; "2025-01-01 10:51:00"];
       ["7"; "Christopher"; "Martin"; "christopher.martin7@company.com"; "(396) 921-2139";
        "Jacksonville"; "FL"; "3245.39"; "2025-01-01 10:53:00"];
       ["8"; "Matthew"; "Martinez"; "matthew.martinez8@yahoo.com"; "(303) 589-5554"; "Chicago";
        "IL"; "23217.1"; "2025-01-01 10:14:00"];
       ["9"; "Barbara"; "Garcia"; "barbara.garcia9@outlook.com"; "(414) 886-5374";
        "Jacksonville"; "FL"; "35389.2"; "2025-01-01 10:53:00"];
       ["10"; "Christopher"; "Williams"; "christopher.williams10@company.com";
        "(946) 450-3677"; "Philadelphia"; "PA"; "23650.75"; "2025-01-01 10:43:00"];
       ["11"; "Sandra"; "Lee"; "sandra.lee11@yahoo.com"; "(901) 532-1916"; "Boston"; "MA";
        "12223.36"; "2025-01-01 10:17:00"];
       ["12"; "Betty"; "Hernandez"; "betty.hernandez12@outlook.com"; "(267) 416-6155";
        "Fort Worth"; "TX"; "11418.7"; "2025-01-01 10:02:00"];
       ["13"; "Richard"; "Lewis"; "richard.lewis13@yahoo.com"; "(471) 342-5040"; "Charlotte";
        "NC"; "37504.46"; "2025-01-01 10:31:00"];
       ["14"; "William"; "White"; "william.white14@company.com"; "(608) 570-4593"; "Columbus";
        "OH"; "49868.96"; "2025-01-01 10:34:00"];
       ["15"; "Thomas"; "Thomas"; "thomas.thomas15@gmail.com"; "(312) 356-3621"; "Chicago";
        "IL"; "39811.89"; "2025-01-01 10:08:00"];
       ["16"; "Karen"; "Williams"; "karen.williams16@hotmail.com"; "(810) 679-9669";
        "Fort Worth"; "TX"; "13319.29"; "2025-01-01 10:27:00"];
       ["17"; "Margaret"; "Smith"; "margaret.smith17@company.com"; "(968) 473-6573"; "Houston";
        "TX"; "6466.06"; "2025-01-01 10:35:00"];
       ["18"; "Jennifer"; "Anderson"; "jennifer.anderson18@outlook.com"; "(712) 980-3927";
        "New York"; "NY"; "25876.4"; "2025-01-01 10:27:00"];
       ["19"; "Margaret"; "Lee"; "margaret.lee19@company.com"; "(823) 403-3504"; "San Jose";
        "CA"; "19321.78"; "2025-01-01 10:06:00"];
       ["20"; "Sarah"; "Harris"; "sarah.harris20@gmail.com"; "(813) 531-9005"; "Denver"; "CO";
        "1954.36"; "2025-01-01 10:10:00"]]%string) /\
  files script_end !! customers_file2_path = Some (csv_lines
      [["customer_id"; "first_name"; "last_name"; "email"; "phone"; "city"; "state";
        "credit_limit"; "last_updated_ts"];
       ["21"; "Barbara"; "Lewis"; "barbara.lewis21@yahoo.com"; "(259) 446-2290"; "San Jose";
        "CA"; "5197.02"; "2025-01-01 12:29:00"];
       ["22"; "Anthony"; "Williams"; "anthony.williams22@yahoo.com"; "(331) 875-8787";
        "Boston"; "MA"; "47395.59"; "2025-01-01 12:15:00"];
       ["23"; "William"; "Taylor"; "william.taylor23@yahoo.com"; "(752) 973-4295"; "Columbus";
        "OH"; "35934.5"; "2025-01-01 12:05:00"];
       ["24"; "Nancy"; "Lee"; "nancy.lee24@hotmail.com"; "(729) 662-2982"; "Jacksonville";
        "FL"; "13147.38"; "2025-01-01 12:12:00"];
       ["25"; "David"; "Smith"; "david.smith25@yahoo.com"; "(802) 425-1117"; "Boston"; "MA";
        "4478.66"; "2025-01-01 12:02:00"];
       ["3"; "James"; "Moore"; "james.moore3@company.com"; "(629) 425-8359"; "San Antonio";
        "TX"; "35848.82"; "2025-01-01 12:20:00"];
       ["7"; "Christopher"; "Martin"; "christopher.martin7@company.com"; "(396) 921-2139";
        "Jacksonville"; "FL"; "3894.47"; "2025-01-01 12:01:00"];
       ["15"; "Thomas"; "Thomas"; "thomas.thomas15@gmail.com"; "(312) 356-3621"; "Chicago";
        "IL"; "47774.27"; "2025-01-01 12:07:00"]]%string) /\
  files script_end !! customers_file3_path = Some (csv_lines
      [["customer_id"; "first_name"; "last_name"; "email"; "phone"; "city"; "state";
        "credit_limit"; "last_updated_ts"];
       ["26"; "Mark"; "Johnson"; "mark.johnson26@gmail.com"; "(726) 443-5562"; "Austin"; "TX";
        "33779.91"; "2025-01-01 14:02:00"];
       ["27"; "Sarah"; "Jones"; "sarah.jones27@yahoo.com"; "(684) 616-4119"; "Seattle"; "WA";
        "5621.96"; "2025-01-01 14:06:00"];
       ["28"; "Susan"; "Lopez"; "susan.lopez28@hotmail.com"; "(678) 946-1887"; "Columbus";
        "OH"; "33994.86"; "2025-01-01 14:21:00"];
       ["1"; "Patricia"; "Smith"; "patricia.smith1@yahoo.com"; "(262) 612-6559"; "Houston";
        "TX"; "34158.27"; "2025-01-01 14:20:00"];
       ["10"; "Christopher"; "Williams"; "christopher.williams10@company.com";
        "(454) 396-4116"; "Houston"; "PA"; "23650.75"; "2025-01-01 14:25:00"];
       ["21"; "Barbara"; "Lewis"; "barbara.lewis21@yahoo.com"; "(343) 632-4006"; "Charlotte";
        "CA"; "5197.02"; "2025-01-01 14:17:00"];
       ["25"; "David"; "Smith"; "david.smith25@yahoo.com"; "(455) 277-8260"; "Charlotte"; "MA";
        "4478.66"; "2025-01-01 14:08:00"]]%string) /\
  files script_end !! products_file1_path = Some (csv_lines
      [["product_id"; "product_name"; "category"; "price"; "stock_quantity"; "supplier_id";
        "is_active"];
       ["PROD-0001"; "Basic Widget 1"; "Books"; "655.61"; "276"; "SUP-001"; "true"];
       ["PROD-0002"; "Pro Pack 2"; "Clothing"; "490.77"; "109"; "SUP-013"; "true"];
       ["PROD-0003"; "Classic Widget 3"; "Clothing"; "985.45"; "135"; "SUP-015"; "true"];
       ["PROD-0004"; "Modern Device 4"; "Sports"; "197.99"; "111"; "SUP-002"; "true"];
       ["PROD-0005"; "Smart Widget 5"; "Toys"; "59.63"; "244"; "SUP-017"; "true"];
       ["PROD-0006"; "Basic Device 6"; "Electronics"; "77.83"; "34"; "SUP-008"; "false"];
       ["PROD-0007"; "Ultra Widget 7"; "Electronics"; "623.18"; "214"; "SUP-019"; "true"];
       ["PROD-0008"; "Ultra Set 8"; "Home & Garden"; "246.29"; "202"; "SUP-005"; "true"];
       ["PROD-0009"; "Smart Gadget 9"; "Sports"; "19.21"; "318"; "SUP-019"; "true"];
       ["PROD-0010"; "Ultra Kit 10"; "Electronics"; "141.12"; "178"; "SUP-003"; "true"];
       ["PROD-0011"; "Eco Device 11"; "Home & Garden"; "443.79"; "278"; "SUP-010"; "true"];
       ["PROD-0012"; "Eco Gadget 12"; "Toys"; "939.53"; "68"; "SUP-009"; "true"];
       ["PROD-0013"; "Pro Kit 13"; "Electronics"; "288.93"; "107"; "SUP-011"; "true"];
       ["PROD-0014"; "Eco Bundle 14"; "Toys"; "258.6"; "464"; "SUP-002"; "true"];
       ["PROD-0015"; "Classic Kit 15"; "Toys"; "53.64"; "170"; "SUP-005"; "true"];
       ["PROD-0016"; "Modern Pack 16"; "Clothing"; "565.29"; "57"; "SUP-003"; "true"];
       ["PROD-0017"; "Premium Set 17"; "Books"; "586.67"; "75"; "SUP-014"; "true"];
       ["PROD-0018"; "Eco Set 18"; "Electronics"; "899.98"; "407"; "SUP-002"; "true"];
       ["PROD-0019"; "Ultra Gadget 19"; "Clothing"; "360.13"; "286"; "SUP-014"; "true"];
       ["PROD-0020"; "Pro Device 20"; "Clothing"; "882.59"; "12"; "SUP-006"; "true"];
       ["PROD-0021"; "Ultra Kit 21"; "Sports"; "167.6"; "359"; "SUP-004"; "false"];
       ["PROD-0022"; "Modern Tool 22"; "Electronics"; "207.57"; "470"; "SUP-015"; "true"];
       ["PROD-0023"; "Ultra Tool 23"; "Home & Garden"; "33.42"; "98"; "SUP-013"; "true"];
       ["PROD-0024"; "Basic Kit 24"; "Home & Garden"; "357.62"; "260"; "SUP-013"; "true"];
       ["PROD-0025"; "Basic Kit 25"; "Electronics"; "186.77"; "492"; "SUP-009"; "true"]]%string) /\
  files script_end !! products_file2_path = Some (csv_lines
      [["product_id"; "product_name"; "category"; "price"; "stock_quantity"; "supplier_id";
        "is_active"];
       ["PROD-0026"; "Classic Set 26"; "Electronics"; "731.25"; "160"; "SUP-014"; "true"];
       ["PROD-0027"; "Ultra Kit 27"; "Sports"; "53.93"; "223"; "SUP-001"; "true"];
       ["PROD-0028"; "Classic Gadget 28"; "Home & Garden"; "949.38"; "471"; "SUP-011"; "true"];
       ["PROD-0029"; "Basic Kit 29"; "Toys"; "512.04"; "341"; "SUP-014"; "true"];
       ["PROD-0030"; "Eco Device 30"; "Sports"; "199.91"; "340"; "SUP-013"; "true"];
       ["PROD-0002"; "Pro Pack 2"; "Clothing"; "543.65"; "154"; "SUP-013"; "true"];
       ["PROD-0008"; "Ultra Set 8"; "Home & Garden"; "247.04"; "426"; "SUP-005"; "true"];
       ["PROD-0015"; "Classic Kit 15"; "Toys"; "42.92"; "146"; "SUP-005"; "true"];
       ["PROD-0022"; "Modern Tool 22"; "Electronics"; "187.87"; "402"; "SUP-015"; "true"]]%string) /\
  files script_end !! products_file3_path = Some (csv_lines
      [["product_id"; "product_name"; "category"; "price"; "stock_quantity"; "supplier_id";
        "is_active"];
       ["PROD-0031"; "Smart Bundle 31"; "Books"; "447.36"; "345"; "SUP-007"; "false"];
       ["PROD-0032"; "Pro Gadget 32"; "Toys"; "290.94"; "339"; "SUP-020"; "true"];
       ["PROD-0033"; "Ultra Kit 33"; "Electronics"; "232.38"; "101"; "SUP-005"; "true"];
       ["PROD-0034"; "Ultra Bundle 34"; "Electronics"; "615.15"; "393"; "SUP-003"; "false"];
       ["PROD-0001"; "Basic Widget 1"; "Books"; "671.56"; "322"; "SUP-001"; "true"];
       ["PROD-0005"; "Smart Widget 5"; "Toys"; "66.52"; "196"; "SUP-017"; "false"];
       ["PROD-0012"; "Eco Gadget 12"; "Toys"; "958.22"; "75"; "SUP-009"; "true"];
       ["PROD-0026"; "Classic Set 26"; "Electronics"; "853.95"; "440"; "SUP-014"; "true"];
       ["PROD-0028"; "Classic Gadget 28"; "Home & Garden"; "1076.15"; "112"; "SUP-011"; "true"];
       ["PROD-0030"; "Eco Device 30"; "Sports"; "228.14"; "356"; "SUP-013"; "false"]]%string).
Proof. vm_compute. repeat split; reflexivity. Qed.

(** ** City and state *)

Lemma not_aligned city state :
  forallb (fun cs => negb (andb (String.eqb cs.1 city) (String.eqb cs.2 state)))
          (zip CITIES STATES) = true ->
  ~ aligned city state.
Proof.
  intros Hall (i & Hc & Hs).
  assert (Hin : (city, state) ∈ zip CITIES STATES).
  { apply (list_elem_of_lookup_2 _ i). apply lookup_zip_with_Some. eauto. }
  rewrite forallb_forall in Hall. specialize (Hall _ (proj1 (list_elem_of_In _ _) Hin)).
  simpl in Hall. rewrite !String.eqb_refl in Hall. discriminate.
Qed.

(** C1, on the run of the script.  The delta2 customer file has the rows
    below: customer 10 is written with the city Houston and the state PA,
    customers 21 and 25 with Charlotte and the states CA and MA, and none
    of these pairs stands at one index of CITIES and STATES.  The delta2
    loop assigns a fresh city and leaves the state as the builder set it. *)
Theorem delta2_city_state_misaligned :
  main script_world = Ok tt script_end /\
  files script_end !! customers_file3_path = Some (csv_lines
      [["customer_id"; "first_name"; "last_name"; "email"; "phone"; "city"; "state";
        "credit_limit"; "last_updated_ts"];
       ["26"; "Mark"; "Johnson"; "mark.johnson26@gmail.com"; "(726) 443-5562"; "Austin"; "TX";
        "33779.91"; "2025-01-01 14:02:00"];
       ["27"; "Sarah"; "Jones"; "sarah.jones27@yahoo.com"; "(684) 616-4119"; "Seattle"; "WA";
        "5621.96"; "2025-01-01 14:06:00"];
       ["28"; "Susan"; "Lopez"; "susan.lopez28@hotmail.com"; "(678) 946-1887"; "Columbus";
        "OH"; "33994.86"; "2025-01-01 14:21:00"];
       ["1"; "Patricia"; "Smith"; "patricia.smith1@yahoo.com"; "(262) 612-6559"; "Houston";
        "TX"; "34158.27"; "2025-01-01 14:20:00"];
       ["10"; "Christopher"; "Williams"; "christopher.williams10@company.com";
        "(454) 396-4116"; "Houston"; "PA"; "23650.75"; "2025-01-01 14:25:00"];
       ["21"; "Barbara"; "Lewis"; "barbara.lewis21@yahoo.com"; "(343) 632-4006"; "Charlotte";
        "CA"; "5197.02"; "2025-01-01 14:17:00"];
       ["25"; "David"; "Smith"; "david.smith25@yahoo.com"; "(455) 277-8260"; "Charlotte"; "MA";
        "4478.66"; "2025-01-01 14:08:00"]]%string) /\
  ~ aligned "Houston" "PA" /\ ~ aligned "Charlotte" "CA" /\ ~ aligned "Charlotte" "MA".
Proof.
  destruct script_output as (Hrun & _ & _ & H3 & _).
  split; [exact Hrun|]. split; [exact H3|].
  repeat split; apply not_aligned; vm_compute; reflexivity.
Qed.

(** ** Credit limits and prices *)

Lemma fresh_credit_bounds x :
  R2 (of_int 1000) (of_int 50000) x -> (1000 <= x)%Q /\ (x <= 50000)%Q.
Proof.
  intros H. apply R2_bounds in H as [H1 H2]. split.
  - eapply Qle_trans; [|exact H1]. qle.
  - eapply Qle_trans; [exact H2|]. qle.
Qed.

Lemma scaled_credit_bounds x :
  R2 (of_int 1200) (of_int 60000) x -> (1200 <= x)%Q /\ (x <= 60000)%Q.
Proof.
  intros H. apply R2_bounds in H as [H1 H2]. split.
  - eapply Qle_trans; [|exact H1]. qle.
  - eapply Qle_trans; [exact H2|]. qle.
Qed.

Lemma fresh_price_bounds x :
  R2 (lit 999 2) (lit 99999 2) x -> (lit 999 2 <= x)%Q /\ (x <= lit 99999 2)%Q.
Proof.
  intros H. apply R2_bounds in H as [H1 H2]. split.
  - eapply Qle_trans; [|exact H1]. qle.
  - eapply Qle_trans; [exact H2|]. qle.
Qed.

Lemma customers_fresh_within S ids records :
  forallb (fun id => negb (bool_decide (id ∈ S))) ids = true ->
  Forall2 (CustomerAt S) ids records ->
  Forall (float_within "credit_limit" 1000 50000) records.
Proof.
  intros Hall H. induction H as [|id rec ids recs Hrec _ IH]; constructor.
  - simpl in Hall. apply andb_true_iff in Hall as [Hid _]. apply negb_true_iff in Hid.
    destruct Hrec as (? & ? & ? & ? & ? & ? & credit & ? & -> & HC).
    unfold credit_range in HC. rewrite Hid in HC.
    exists credit. split; [reflexivity | apply fresh_credit_bounds, HC].
  - apply IH. simpl in Hall. apply andb_true_iff in Hall as [_ Hall]. exact Hall.
Qed.

Lemma customers_scaled_within S ids records :
  forallb (fun id => bool_decide (id ∈ S)) ids = true ->
  Forall2 (CustomerAt S) ids records ->
  Forall (float_within "credit_limit" 1200 60000) records.
Proof.
  intros Hall H. induction H as [|id rec ids recs Hrec _ IH]; constructor.
  - simpl in Hall. apply andb_true_iff in Hall as [Hid _].
    destruct Hrec as (? & ? & ? & ? & ? & ? & credit & ? & -> & HC).
    unfold credit_range in HC. rewrite Hid in HC.
    exists credit. split; [reflexivity | apply scaled_credit_bounds, HC].
  - apply IH. simpl in Hall. apply andb_true_iff in Hall as [_ Hall]. exact Hall.
Qed.

Lemma products_fresh_within ids records :
  Forall2 (ProductAt []) ids records ->
  Forall (float_within "price" (lit 999 2) (lit 99999 2)) records.
Proof.
  induction 1 as [|id rec ids recs Hrec _ IH]; constructor; [|exact IH].
  destruct Hrec as (? & ? & price & ? & ? & ? & -> & HC).
  exists price. split; [reflexivity | apply fresh_price_bounds, HC].
Qed.

(** From any generator state.  A credit limit as the builder draws it lies
    within [1000, 50000]: so do all those of the initial file, of the five
    new rows of delta1 and of the seven rows of delta2.  The three rows
    delta1 modifies hold [round(old * 1.2, 2)], within [1200, 60000].  The
    prices of the initial product file lie within the floats 9.99 and
    999.99. *)
Theorem credit_limit_and_price_bounds (w w' : World) :
  main w = Ok tt w' ->
  exists c p t,
    customers_records (rng w) = Ok c t /\ products_records t = Ok p (rng w') /\
    files w' = six_files c p (files w) /\
    Forall (float_within "credit_limit" 1000 50000) c.1.1 /\
    Forall (float_within "credit_limit" 1000 50000) (take 5 c.1.2) /\
    Forall (float_within "credit_limit" 1200 60000) (drop 5 c.1.2) /\
    Forall (float_within "credit_limit" 1000 50000) c.2 /\
    Forall (float_within "price" (lit 999 2) (lit 99999 2)) p.1.1.
Proof.
  intros Hrun. destruct (main_returns _ _ Hrun) as (c & p & t & Hc & Hp & HC & HP & Hf).
  exists c, p, t. repeat (split; [assumption|]).
  destruct HC as (C1 & C2 & C3). destruct HP as (P1 & _).
  split; [eapply customers_fresh_within; [|exact C1]; reflexivity|].
  split; [eapply customers_fresh_within; [|exact (Forall2_take _ _ _ 5 C2)]; reflexivity|].
  split; [eapply customers_scaled_within; [|exact (Forall2_drop _ _ _ 5 C2)]; reflexivity|].
  split; [eapply customers_fresh_within; [|exact C3]; reflexivity|].
  apply (products_fresh_within _ _ P1).
Qed.

Lemma credit_limit_and_price_bounds_witness :
  exists c p t,
    customers_records (rng script_world) = Ok c t /\
    products_records t = Ok p (rng script_end) /\
    files script_end = six_files c p (files script_world) /\
    Forall (float_within "credit_limit" 1000 50000) c.1.1 /\
    Forall (float_within "credit_limit" 1000 50000) (take 5 c.1.2) /\
    Forall (float_within "credit_limit" 1200 60000) (drop 5 c.1.2) /\
    Forall (float_within "credit_limit" 1000 50000) c.2 /\
    Forall (float_within "price" (lit 999 2) (lit 99999 2)) p.1.1.
Proof.
  apply (credit_limit_and_price_bounds script_world script_end). vm_compute. reflexivity.
Defined.

(** The bound 1200..60000 of the rescaled rows is reached, though not by
    the script, whose generator starts from the seed 42: from the generator
    state [limit_tape] customer 3 is built with the credit limit 50000.0,
    and the delta1 file carries it as 60000.0. *)
Lemma delta1_credit_limit_above_50000 :
  exists w' c t,
    main (mk_world limit_tape ∅) = Ok tt w' /\
    customers_records limit_tape = Ok c t /\
    files w' !! customers_file2_path = Some (csv_text c.1.2) /\
    c.1.2 !! 5%nat =
      Some (customer_record 3 "James" "Smith" "james.smith3@gmail.com" "(200) 200-1000"
              "New York" "NY" 60000 "2025-01-01 12:00:00") /\
    nth 5 (map cells c.1.2) []
    = ["3"; "James"; "Smith"; "james.smith3@gmail.com"; "(200) 200-1000"; "New York"; "NY";
       "60000.0"; "2025-01-01 12:00:00"]%string /\
    ~ float_within "credit_limit" 1000 50000
        (customer_record 3 "James" "Smith" "james.smith3@gmail.com" "(200) 200-1000"
           "New York" "NY" 60000 "2025-01-01 12:00:00").
Proof.
  exists (end_of (main (mk_world limit_tape ∅))).
  exists (match customers_records limit_tape with Ok c _ => c | Raise _ _ => ([], [], []) end).
  exists (match customers_records limit_tape with Ok _ t => t | Raise _ t => t end).
  split; [vm_compute; reflexivity|]. split; [vm_compute; reflexivity|].
  split; [vm_compute; reflexivity|]. split; [vm_compute; reflexivity|].
  split; [vm_compute; reflexivity|].
  intros (x & Hx & _ & Hhi). injection Hx as <-. revert Hhi. apply Qlt_not_le. reflexivity.
Qed.

(** Under [random.seed(1)], which the script does not use, customer 3 is
    rescaled from 45169.95 to 54203.94, customer 7 from 46885.59 to
    56262.71. *)
Lemma seed_1_credit_limits :
  match customers_records (MT19937.tape 1 1) with
  | Ok c _ =>
      column 7 (map cells c.1.1)
      = ["24140.02"; "30764.46"; "45169.95"; "48482.99"; "17939.32"; "10109.41"; "46885.59";
         "42463.67"; "21301.39"; "6288.63"; "23996.69"; "49121.76"; "47670.9"; "19800.79";
         "21878.44"; "21256.6"; "23449.19"; "40123.51"; "43535.83"; "17876.72"]%string /\
      column 7 (map cells c.1.2)
      = ["32761.94"; "16288.24"; "48860.18"; "2730.98"; "23091.41";
         "54203.94"; "56262.71"; "26254.13"]%string
  | Raise _ _ => False
  end.
Proof. vm_compute. split; reflexivity. Qed.

(** With the seed 42 of the script the three rescaled limits are 35848.82,
    3894.47 and 47774.27: every credit limit of the files it writes lies
    within [1000, 50000]. *)
Lemma script_credit_limits :
  match customers_records (MT19937.tape 42 2) with
  | Ok c _ =>
      forallb (fun rec => match od_get String.eqb rec "credit_limit" with
                          | Some (VFloat x) => Qle_bool 1000 x && Qle_bool x 50000
                          | _ => false
                          end) (c.1.1 ++ c.1.2 ++ c.2) = true /\
      column 7 (drop 5 (map cells c.1.2)) = ["35848.82"; "3894.47"; "47774.27"]%string
  | Raise _ _ => False
  end.
Proof. vm_compute. split; reflexivity. Qed.

(** ** binary64: the rounding error, and repr *)

Lemma rnd_pos_comp x y : (0 < x)%Q -> (x == y)%Q -> rnd_pos x = rnd_pos y.
Proof.
  intros Hx E.
  assert (El : ilog2 x = ilog2 y).
  { destruct (ilog2_spec x Hx) as [H1 H2]. symmetry. apply ilog2_unique; rewrite <- E; assumption. }
  unfold rnd_pos, fexp. rewrite El. apply Qred_complete.
  rewrite (rne_comp (x / pow2 (Z.max (ilog2 y - 52) (-1074)))
                    (y / pow2 (Z.max (ilog2 y - 52) (-1074)))); [reflexivity|].
  rewrite E. reflexivity.
Qed.

Lemma rnd53_neg_eq x : (x < 0)%Q -> rnd53 x = Qred (- rnd_pos (- x)).
Proof.
  intros H. unfold rnd53.
  destruct (Qcompare x 0) eqn:E;
    [apply Qeq_alt in E; lra | reflexivity | apply Qgt_alt in E; lra].
Qed.

Lemma rnd53_comp x y : (x == y)%Q -> rnd53 x = rnd53 y.
Proof.
  intros E. destruct (Q_dec x 0) as [[Hx|Hx]|Hx].
  - assert (Hy : (y < 0)%Q) by (rewrite <- E; exact Hx).
    rewrite (rnd53_neg_eq x Hx), (rnd53_neg_eq y Hy).
    rewrite (rnd_pos_comp (- x) (- y)); [reflexivity | lra | rewrite E; reflexivity].
  - assert (Hy : (0 < y)%Q) by (rewrite <- E; exact Hx).
    rewrite (rnd53_pos x Hx), (rnd53_pos y Hy). apply rnd_pos_comp; assumption.
  - rewrite (rnd53_zero x Hx). symmetry. apply rnd53_zero. rewrite <- E. exact Hx.
Qed.

(** below 2^21 a float is within 2^-33 of the real it rounds *)
Lemma rnd53_error x :
  (1 <= x)%Q -> (x <= 2000000)%Q ->
  (x - (1 # 8589934592) <= rnd53 x)%Q /\ (rnd53 x <= x + (1 # 8589934592))%Q.
Proof.
  intros H1 H2. assert (Hx : (0 < x)%Q) by lra.
  rewrite (rnd53_pos x Hx), rnd_pos_eq.
  destruct (ilog2_spec x Hx) as [L1 L2].
  assert (Hl0 : (0 <= ilog2 x)%Z).
  { assert (0 < ilog2 x + 1)%Z; [|lia]. apply pow2_lt_inv. change (pow2 0) with 1%Q. lra. }
  assert (Hl1 : (ilog2 x <= 20)%Z).
  { assert (ilog2 x < 21)%Z; [|lia]. apply pow2_lt_inv.
    assert (2000000 < pow2 21)%Q by reflexivity. lra. }
  assert (He : fexp x = (ilog2 x - 52)%Z) by (unfold fexp; lia).
  pose proof (rne_bounds (x / pow2 (fexp x))) as [B1 B2].
  pose proof (pow2_pos (fexp x)) as Hp.
  assert (Hs : (pow2 (fexp x) <= 1 # 4294967296)%Q).
  { change (1 # 4294967296)%Q with (pow2 (-32)). apply pow2_le. lia. }
  set (m := inject_Z (rne (x / pow2 (fexp x)))) in *.
  assert (E : (x / pow2 (fexp x) * pow2 (fexp x) == x)%Q) by (field; lra).
  set (s := (x / pow2 (fexp x))%Q) in *. set (p := pow2 (fexp x)) in *.
  clearbody m s p. split; nra.
Qed.

Lemma pow10_plus a b : (pow10 (a + b) == pow10 a * pow10 b)%Q.
Proof. apply Qpower_plus. discriminate. Qed.

Lemma pow10_le a b : (a <= b)%Z -> (pow10 a <= pow10 b)%Q.
Proof. intros H. apply Qpower_le_compat_l; [exact H | discriminate]. Qed.

Lemma pow10_lt_inv a b : (pow10 a < pow10 b)%Q -> (a < b)%Z.
Proof. intros H. eapply Qpower_lt_compat_l_inv; [exact H | reflexivity]. Qed.

Lemma pow10_inject (n : Z) : (0 <= n)%Z -> (inject_Z (10 ^ n) == pow10 n)%Q.
Proof. intros H. apply (Zpower_Qpower 10 n H). Qed.

Lemma ilog10_up_spec fuel : forall k v,
  (pow10 k <= v)%Q -> (v < pow10 (k + Z.of_nat fuel))%Q ->
  (pow10 (ilog10_up fuel k v) <= v)%Q /\ (v < pow10 (ilog10_up fuel k v + 1))%Q.
Proof.
  induction fuel as [|fuel IH]; intros k v H1 H2.
  - exfalso. replace (k + Z.of_nat 0)%Z with k in H2 by lia. lra.
  - cbn [ilog10_up]. destruct (Qle_bool (pow10 (k + 1)) v) eqn:E.
    + apply Qle_bool_iff in E. apply IH; [exact E|].
      replace (k + 1 + Z.of_nat fuel)%Z with (k + Z.of_nat (S fuel))%Z by lia. exact H2.
    + split; [exact H1|]. apply Qnot_le_lt. intros H. apply Qle_bool_iff in H. congruence.
Qed.

Lemma below_pow10_of_num v :
  (0 < v)%Q -> (v < pow10 (0 + Z.of_nat (S (Z.to_nat (Z.log2 (Qnum v))))))%Q.
Proof.
  intros Hv. destruct v as [n d]. cbn [Qnum].
  assert (Hn : (0 < n)%Z) by (unfold Qlt in Hv; simpl in Hv; lia).
  pose proof (Z.log2_spec n Hn) as [_ Hl]. pose proof (Z.log2_nonneg n) as Hl0.
  set (l := Z.log2 n) in *.
  replace (0 + Z.of_nat (S (Z.to_nat l)))%Z with (l + 1)%Z by lia.
  rewrite <- pow10_inject by lia.
  assert (H2 : (2 ^ (l + 1) <= 10 ^ (l + 1))%Z) by (apply Z.pow_le_mono_l; lia).
  assert (H3 : (n # d <= inject_Z n)%Q).
  { unfold Qle, inject_Z. cbn [Qnum Qden]. nia. }
  assert (H4 : (inject_Z n < inject_Z (10 ^ (l + 1)))%Q) by (rewrite <- Zlt_Qlt; lia).
  lra.
Qed.

Lemma ilog10_spec v :
  (1 <= v)%Q -> (pow10 (ilog10 v) <= v)%Q /\ (v < pow10 (ilog10 v + 1))%Q.
Proof.
  intros Hv. unfold ilog10.
  assert (E : Qle_bool 1 v = true) by (apply Qle_bool_iff, Hv). rewrite E.
  apply ilog10_up_spec; [exact Hv|]. apply below_pow10_of_num. lra.
Qed.

(** *** the digit strings *)

Lemma after_point_no_dot a b : no_dot a = true -> after_point (a +++ b) = after_point b.
Proof.
  induction a as [|c a IH]; intros H; [reflexivity|].
  cbn [no_dot] in H. apply andb_true_iff in H as [Hc Ha].
  change (String c a +++ b) with (String c (a +++ b)). cbn [after_point].
  apply negb_true_iff in Hc. rewrite Hc. apply IH, Ha.
Qed.

Lemma length_append a b : String.length (a +++ b) = (String.length a + String.length b)%nat.
Proof.
  induction a as [|c a IH]; [reflexivity|].
  change (String c a +++ b) with (String c (a +++ b)). cbn [String.length]. rewrite IH. reflexivity.
Qed.

Lemma no_dot_zeros n : no_dot (zeros n) = true.
Proof. induction n as [|n IH]; [reflexivity|]. cbn [zeros no_dot]. rewrite IH. reflexivity. Qed.

Lemma length_zeros n : String.length (zeros n) = n.
Proof. induction n as [|n IH]; [reflexivity|]. cbn [zeros String.length]. rewrite IH. reflexivity. Qed.

Lemma digit_char_no_dot d : 0 <= d < 10 -> Ascii.eqb (digit_char d) "." = false.
Proof.
  intros H. assert (E : d = 0 \/ d = 1 \/ d = 2 \/ d = 3 \/ d = 4 \/ d = 5 \/ d = 6 \/ d = 7
                       \/ d = 8 \/ d = 9) by lia.
  repeat (destruct E as [-> | E]; [reflexivity|]). subst. reflexivity.
Qed.

Lemma digits_fuel_no_dot fuel : forall n acc,
  no_dot acc = true -> no_dot (digits_fuel fuel n acc) = true.
Proof.
  induction fuel as [|fuel IH]; intros n acc Hacc; [exact Hacc|].
  cbn [digits_fuel].
  assert (H : no_dot (String (digit_char (n mod 10)) acc) = true).
  { cbn [no_dot]. rewrite digit_char_no_dot by (apply Z.mod_pos_bound; lia). exact Hacc. }
  destruct (n <? 10); [exact H | apply IH, H].
Qed.

Lemma digits_no_dot n : no_dot (digits n) = true.
Proof. apply digits_fuel_no_dot. reflexivity. Qed.

(** a number of [m + 1] digits *)
Lemma digits_fuel_length m : forall fuel n acc,
  10 ^ Z.of_nat m <= n < 10 ^ (Z.of_nat m + 1) -> (m < fuel)%nat ->
  String.length (digits_fuel fuel n acc) = (S m + String.length acc)%nat.
Proof.
  induction m as [|m IH]; intros fuel n acc Hn Hf.
  - destruct fuel as [|fuel]; [lia|]. cbn [digits_fuel].
    change (10 ^ (Z.of_nat 0 + 1)) with 10 in Hn.
    destruct (Z.ltb_spec n 10); [reflexivity | lia].
  - destruct fuel as [|fuel]; [lia|]. cbn [digits_fuel].
    assert (H10 : 10 ^ Z.of_nat (S m) = 10 * 10 ^ Z.of_nat m).
    { rewrite Nat2Z.inj_succ, Z.pow_succ_r by lia. reflexivity. }
    assert (H11 : 10 ^ (Z.of_nat (S m) + 1) = 10 * 10 ^ (Z.of_nat m + 1)).
    { rewrite Nat2Z.inj_succ. replace (Z.succ (Z.of_nat m) + 1) with (Z.succ (Z.of_nat m + 1)) by lia.
      rewrite Z.pow_succ_r by lia. reflexivity. }
    assert (Hpos : 0 < 10 ^ Z.of_nat m) by (apply Z.pow_pos_nonneg; lia).
    destruct (Z.ltb_spec n 10); [lia|].
    rewrite IH; [cbn [String.length]; lia | | lia].
    split.
    + apply Z.div_le_lower_bound; lia.
    + apply Z.div_lt_upper_bound; lia.
Qed.

Lemma digits_length m n :
  10 ^ Z.of_nat m <= n < 10 ^ (Z.of_nat m + 1) -> String.length (digits n) = S m.
Proof.
  intros Hn. unfold digits.
  rewrite (digits_fuel_length m); [cbn [String.length]; lia | exact Hn |].
  assert (Hpos : 0 < n) by (pose proof (Z.pow_pos_nonneg 10 (Z.of_nat m)); lia).
  assert (Z.of_nat m <= Z.log2 n); [|lia].
  apply Z.log2_le_pow2; [lia|].
  assert (2 ^ Z.of_nat m <= 10 ^ Z.of_nat m) by (apply Z.pow_le_mono_l; lia). lia.
Qed.

Lemma digits_length_small n :
  1 <= n < 10 ^ 9 -> (1 <= String.length (digits n) <= 9)%nat.
Proof.
  intros Hn.
  assert (E : exists m, (m <= 8)%nat /\ 10 ^ Z.of_nat m <= n < 10 ^ (Z.of_nat m + 1)).
  { destruct (Z.ltb_spec n 10); [exists 0%nat; simpl; lia|].
    destruct (Z.ltb_spec n 100); [exists 1%nat; simpl; lia|].
    destruct (Z.ltb_spec n 1000); [exists 2%nat; simpl; lia|].
    destruct (Z.ltb_spec n 10000); [exists 3%nat; simpl; lia|].
    destruct (Z.ltb_spec n 100000); [exists 4%nat; simpl; lia|].
    destruct (Z.ltb_spec n 1000000); [exists 5%nat; simpl; lia|].
    destruct (Z.ltb_spec n 10000000); [exists 6%nat; simpl; lia|].
    destruct (Z.ltb_spec n 100000000); [exists 7%nat; simpl; lia|].
    exists 8%nat. simpl. lia. }
  destruct E as (m & Hm & Hb). rewrite (digits_length m n Hb). lia.
Qed.

Lemma no_dot_substring s : forall a len, no_dot s = true -> no_dot (substring a len s) = true.
Proof.
  induction s as [|c s IH]; intros a len H.
  - destruct a, len; reflexivity.
  - cbn [no_dot] in H. apply andb_true_iff in H as [Hc Hs].
    destruct a as [|a]; [destruct len as [|len]|]; cbn [substring]; [reflexivity | | apply IH, Hs].
    cbn [no_dot]. rewrite Hc. apply IH, Hs.
Qed.

Lemma length_substring s : forall a len,
  (a + len <= String.length s)%nat -> String.length (substring a len s) = len.
Proof.
  induction s as [|c s IH]; intros a len H; cbn [String.length] in H.
  - assert (a = 0%nat) by lia. assert (len = 0%nat) by lia. subst. reflexivity.
  - destruct a as [|a]; [destruct len as [|len]|]; cbn [substring]; [reflexivity | |].
    + cbn [String.length]. rewrite IH by lia. reflexivity.
    + apply IH. lia.
Qed.

Lemma length_substr_from n s :
  (n <= String.length s)%nat -> String.length (substr_from n s) = (String.length s - n)%nat.
Proof. intros H. unfold substr_from. apply length_substring. lia. Qed.

(** the places [layout] writes after the point for a decimal [c * 10^ex]
    of a few digits: [-ex] of them, and a lone 0 for an integer *)
Lemma layout_after_point c ex :
  1 <= c -> -2 <= ex -> c * 10 ^ (ex + 2) < 10 ^ 9 ->
  after_point (layout c ex) = Some (if ex <? 0 then Z.to_nat (- ex) else 1%nat).
Proof.
  intros Hc Hex Hbound.
  assert (Hp : 1 <= 10 ^ (ex + 2)) by (apply Z.pow_le_mono_r with (b := 0) (a := 10); lia).
  assert (Hc9 : c < 10 ^ 9) by nia.
  assert (E : exists m, (m <= 8)%nat /\ 10 ^ Z.of_nat m <= c < 10 ^ (Z.of_nat m + 1)).
  { destruct (Z.ltb_spec c 10); [exists 0%nat; simpl; lia|].
    destruct (Z.ltb_spec c 100); [exists 1%nat; simpl; lia|].
    destruct (Z.ltb_spec c 1000); [exists 2%nat; simpl; lia|].
    destruct (Z.ltb_spec c 10000); [exists 3%nat; simpl; lia|].
    destruct (Z.ltb_spec c 100000); [exists 4%nat; simpl; lia|].
    destruct (Z.ltb_spec c 1000000); [exists 5%nat; simpl; lia|].
    destruct (Z.ltb_spec c 10000000); [exists 6%nat; simpl; lia|].
    destruct (Z.ltb_spec c 100000000); [exists 7%nat; simpl; lia|].
    exists 8%nat. simpl. lia. }
  destruct E as (m & Hm & Hb).
  pose proof (digits_length m c Hb) as Hlen.
  assert (Hsum : Z.of_nat m + (ex + 2) < 9).
  { apply (Z.pow_lt_mono_r_iff 10); [lia | lia |].
    rewrite Z.pow_add_r by lia.
    assert (10 ^ Z.of_nat m * 10 ^ (ex + 2) <= c * 10 ^ (ex + 2)) by nia. lia. }
  unfold layout. rewrite Hlen.
  set (ds := digits c) in *.
  replace (Z.of_nat (S m) + ex <=? -4) with false by (symmetry; apply Z.leb_gt; lia).
  replace (16 <? Z.of_nat (S m) + ex) with false by (symmetry; apply Z.ltb_ge; lia).
  cbn [orb].
  destruct (Z.leb_spec (Z.of_nat (S m) + ex) 0) as [Hd|Hd].
  - replace (ex <? 0) with true by (symmetry; apply Z.ltb_lt; lia).
    change ("0." +++ ?r) with (String "0" (String "." r)). cbn [after_point Ascii.eqb Bool.eqb].
    simpl. rewrite length_append, length_zeros, Hlen. f_equal. lia.
  - destruct (Z.leb_spec (Z.of_nat (S m)) (Z.of_nat (S m) + ex)) as [Hi|Hi].
    + replace (ex <? 0) with false by (symmetry; apply Z.ltb_ge; lia).
      rewrite after_point_no_dot by apply digits_no_dot.
      rewrite after_point_no_dot by apply no_dot_zeros. reflexivity.
    + replace (ex <? 0) with true by (symmetry; apply Z.ltb_lt; lia).
      rewrite after_point_no_dot by (apply no_dot_substring, digits_no_dot).
      change ("." +++ ?r) with (String "." r). cbn [after_point]. simpl.
      rewrite length_substr_from by (rewrite Hlen; lia). rewrite Hlen. f_equal. lia.
Qed.

Lemma strip_zeros_spec fuel : forall c ex,
  1 <= c ->
  1 <= (strip_zeros fuel c ex).1 /\ ex <= (strip_zeros fuel c ex).2 /\
  c = (strip_zeros fuel c ex).1 * 10 ^ ((strip_zeros fuel c ex).2 - ex).
Proof.
  induction fuel as [|fuel IH]; intros c ex Hc; cbn [strip_zeros].
  - cbn [fst snd]. rewrite Z.sub_diag. lia.
  - destruct (Z.eqb_spec (c mod 10) 0) as [Hm|Hm]; cbn [andb];
      [destruct (Z.eqb_spec c 0) as [H0|H0]; cbn [negb]|];
      try (cbn [fst snd]; rewrite Z.sub_diag; lia).
    assert (Hdiv : c = 10 * (c / 10)) by (pose proof (Z.div_mod c 10); lia).
    destruct (IH (c / 10) (ex + 1)) as (H1 & H2 & H3); [lia|].
    split; [exact H1|]. split; [lia|].
    rewrite Hdiv at 1. rewrite H3 at 1.
    replace ((strip_zeros fuel (c / 10) (ex + 1)).2 - ex)
      with (Z.succ ((strip_zeros fuel (c / 10) (ex + 1)).2 - (ex + 1))) by lia.
    rewrite Z.pow_succ_r by lia. ring.
Qed.

Lemma candidate_Some x n c ex :
  candidate x n = Some (c, ex) ->
  ex = ilog10 x + 1 - n /\
  (rnd53 (inject_Z c * pow10 ex) == x)%Q /\
  (c = Qfloor (x / pow10 ex) \/ c = Qfloor (x / pow10 ex) + 1).
Proof.
  unfold candidate, round_trips.
  set (e := ilog10 x + 1 - n). set (lo := Qfloor (x / pow10 e)).
  destruct (Qeq_bool (rnd53 (inject_Z lo * pow10 e)) x) eqn:Elo;
    destruct (Qeq_bool (rnd53 (inject_Z (lo + 1) * pow10 e)) x) eqn:Ehi;
    try discriminate.
  - destruct (Qcompare (x - inject_Z lo * pow10 e) (inject_Z (lo + 1) * pow10 e - x));
      [destruct (Z.even lo)| |]; intros [= <- <-];
      (split; [reflexivity|]); (split; [apply Qeq_bool_iff; assumption|]); auto.
  - intros [= <- <-]. split; [reflexivity|]. split; [apply Qeq_bool_iff; assumption|]. auto.
  - intros [= <- <-]. split; [reflexivity|]. split; [apply Qeq_bool_iff; assumption|]. auto.
Qed.

Lemma candidate_found x n :
  let ex := ilog10 x + 1 - n in
  let lo := Qfloor (x / pow10 ex) in
  (rnd53 (inject_Z lo * pow10 ex) == x)%Q \/ (rnd53 (inject_Z (lo + 1) * pow10 ex) == x)%Q ->
  candidate x n <> None.
Proof.
  intros ex lo H. unfold candidate, round_trips. fold ex. fold lo.
  destruct (Qeq_bool (rnd53 (inject_Z lo * pow10 ex)) x) eqn:Elo;
    destruct (Qeq_bool (rnd53 (inject_Z (lo + 1) * pow10 ex)) x) eqn:Ehi;
    try discriminate.
  - destruct (Qcompare (x - inject_Z lo * pow10 ex) (inject_Z (lo + 1) * pow10 ex - x));
      discriminate.
  - exfalso. destruct H as [H|H]; apply Qeq_bool_iff in H; congruence.
Qed.

Lemma shortest_from_found x m fuel : forall n,
  n <= m < n + Z.of_nat fuel -> candidate x m <> None ->
  exists n0, n <= n0 <= m /\ candidate x n0 = Some (shortest_from fuel n x).
Proof.
  induction fuel as [|fuel IH]; intros n Hn Hm; [lia|].
  cbn [shortest_from]. destruct (candidate x n) as [r|] eqn:E.
  - exists n. split; [lia | exact E].
  - assert (n <> m) by congruence.
    destruct (IH (n + 1)) as (n0 & Hn0 & Hc); [lia | exact Hm |].
    exists n0. split; [lia | exact Hc].
Qed.

(** A float [round(y, 2)] between 1 and a million is written by [repr]
    with one or two places after the point. *)
Theorem repr_round2 y :
  (1 <= y)%Q -> (y <= 1000000)%Q ->
  after_point (repr (round_ndigits y 2)) = Some 1%nat
  \/ after_point (repr (round_ndigits y 2)) = Some 2%nat.
Proof.
  intros Hy1 Hy2. unfold round_ndigits.
  change (pow10 2) with 100%Q.
  set (q := rne (y * 100)).
  assert (Hq : 100 <= q <= 100000000).
  { unfold q. split.
    - apply Z.le_trans with (rne (inject_Z 100)); [rewrite rne_inject; lia|].
      apply rne_mono. change (inject_Z 100) with 100%Q. lra.
    - apply Z.le_trans with (rne (inject_Z 100000000)); [|rewrite rne_inject; lia].
      apply rne_mono. change (inject_Z 100000000) with 100000000%Q. lra. }
  set (x := (inject_Z q / 100)%Q).
  assert (Hx : (1 <= x)%Q /\ (x <= 1000000)%Q).
  { unfold x. destruct Hq as [Q1 Q2]. rewrite Zle_Qle in Q1, Q2.
    change (inject_Z 100) with 100%Q in Q1. change (inject_Z 100000000) with 100000000%Q in Q2.
    split; [apply Qle_shift_div_l | apply Qle_shift_div_r]; lra. }
  destruct Hx as [Hx1 Hx2].
  set (v := rnd53 x).
  destruct (rnd53_error x Hx1 ltac:(lra)) as [E1 E2]. fold v in E1, E2.
  assert (Hv1 : (1 <= v)%Q) by (change 1%Q with (rnd53 1); apply rnd53_mono, Hx1).
  assert (Hv2 : (v <= 1000000)%Q) by (change 1000000%Q with (rnd53 1000000); apply rnd53_mono, Hx2).
  destruct (ilog10_spec v Hv1) as [K1 K2].
  set (k := ilog10 v) in *.
  assert (Hk : 0 <= k <= 6).
  { split.
    - assert (0 < k + 1); [|lia]. apply pow10_lt_inv. change (pow10 0) with 1%Q. lra.
    - assert (k < 7); [|lia]. apply pow10_lt_inv.
      assert (1000000 < pow10 7)%Q by reflexivity. lra. }
  (* the candidate with two places reads back *)
  assert (Hfound : candidate v (k + 3) <> None).
  { apply candidate_found. fold k. replace (k + 1 - (k + 3)) with (-2) by lia.
    assert (Es : (v / pow10 (-2) == v * 100)%Q).
    { change (pow10 (-2)) with (1 # 100)%Q. field. }
    assert (Ex : (x * 100 == inject_Z q)%Q) by (unfold x; field).
    pose proof (floor_bounds (v / pow10 (-2))) as [F1 F2].
    set (lo := Qfloor (v / pow10 (-2))) in *.
    assert (Hlo : lo = q \/ lo = q - 1).
    { assert (A1 : (inject_Z (q - 2) < inject_Z lo)%Q).
      { unfold Z.sub. rewrite inject_Z_plus. change (inject_Z (- (2))) with (- 2)%Q. lra. }
      assert (A2 : (inject_Z lo < inject_Z (q + 1))%Q).
      { rewrite inject_Z_plus. change (inject_Z 1) with 1%Q. lra. }
      rewrite <- Zlt_Qlt in A1, A2. lia. }
    destruct Hlo as [-> | ->]; [left | right].
    - assert (Ed : (inject_Z q * pow10 (-2) == x)%Q).
      { unfold x. change (pow10 (-2)) with (1 # 100)%Q. field. }
      rewrite (rnd53_comp _ _ Ed). reflexivity.
    - assert (Ed : (inject_Z (q - 1 + 1) * pow10 (-2) == x)%Q).
      { replace (q - 1 + 1) with q by lia. unfold x. change (pow10 (-2)) with (1 # 100)%Q. field. }
      rewrite (rnd53_comp _ _ Ed). reflexivity. }
  destruct (shortest_from_found v (k + 3) 17 1 ltac:(lia) Hfound) as (n0 & Hn0 & Hcand).
  fold (shortest v) in Hcand.
  destruct (shortest v) as [c ex] eqn:Esh.
  apply candidate_Some in Hcand as (Hex & _ & Hc). fold k in Hex.
  assert (Hexb : -2 <= ex <= k) by lia.
  (* the digits are at least 1 and few *)
  pose proof (floor_bounds (v / pow10 ex)) as [F1 F2].
  set (lo := Qfloor (v / pow10 ex)) in *.
  pose proof (pow10_pos ex) as Hpe.
  assert (Hlo1 : 1 <= lo).
  { apply Z.le_trans with (Qfloor (inject_Z 1)); [rewrite Qfloor_Z; lia|].
    apply Qfloor_resp_le. change (inject_Z 1) with 1%Q.
    apply Qle_shift_div_l; [exact Hpe|].
    assert (pow10 ex <= pow10 k)%Q by (apply pow10_le; lia). lra. }
  assert (Hcb : 1 <= c <= lo + 1) by lia.
  assert (Hbound : c * 10 ^ (ex + 2) < 10 ^ 9).
  { assert (Hq9 : (inject_Z (c * 10 ^ (ex + 2)) < inject_Z (10 ^ 9))%Q); [|rewrite <- Zlt_Qlt in Hq9; exact Hq9].
    rewrite inject_Z_mult, pow10_inject by lia. rewrite pow10_plus.
    change (pow10 2) with 100%Q. change (inject_Z (10 ^ 9)) with 1000000000%Q.
    assert (Hc' : (inject_Z c <= inject_Z lo + 1)%Q).
    { destruct Hcb as [_ Hcb']. rewrite Zle_Qle in Hcb'. rewrite inject_Z_plus in Hcb'.
      change (inject_Z 1) with 1%Q in Hcb'. exact Hcb'. }
    assert (Hpe6 : (pow10 ex <= 1000000)%Q).
    { change 1000000%Q with (pow10 6). apply pow10_le. lia. }
    assert (Hvs : (v / pow10 ex * pow10 ex == v)%Q) by (field; lra).
    set (s := (v / pow10 ex)%Q) in *. set (p := pow10 ex) in *. set (ic := inject_Z c) in *.
    set (il := inject_Z lo) in *. clearbody s p ic il. nra. }
  (* stripping and laying out *)
  assert (Hpos : (0 < v)%Q) by lra.
  unfold repr. apply Qgt_alt in Hpos. rewrite Hpos. unfold repr_pos. rewrite Esh.
  destruct (strip_zeros_spec 18 c ex ltac:(lia)) as (S1 & S2 & S3).
  destruct (strip_zeros 18 c ex) as [c' ex'] eqn:Est. cbn [fst snd] in S1, S2, S3.
  assert (Hbound' : c' * 10 ^ (ex' + 2) < 10 ^ 9).
  { replace (ex' + 2) with ((ex' - ex) + (ex + 2)) by lia.
    rewrite Z.pow_add_r by lia. rewrite Z.mul_assoc, <- S3. exact Hbound. }
  assert (Hex' : ex' <= 6).
  { assert (ex' + 2 < 9); [|lia]. apply (Z.pow_lt_mono_r_iff 10); [lia | lia |].
    assert (1 * 10 ^ (ex' + 2) <= c' * 10 ^ (ex' + 2)); [|lia].
    apply Z.mul_le_mono_nonneg_r; [apply Z.pow_nonneg|]; lia. }
  rewrite (layout_after_point c' ex' S1 ltac:(lia) Hbound').
  destruct (Z.ltb_spec ex' 0) as [Hneg|Hnn]; [|left; reflexivity].
  assert (Hcase : ex' = -1 \/ ex' = -2) by lia.
  destruct Hcase as [-> | ->]; [left | right]; reflexivity.
Qed.

(** ** The decimals of the money columns *)

Lemma R2_one_or_two lo hi x :
  (1 <= lo)%Q -> (hi <= 1000000)%Q -> R2 lo hi x -> one_or_two_decimals (repr x).
Proof.
  intros Hlo Hhi (y & H1 & H2 & ->). apply repr_round2; lra.
Qed.

Lemma credit_range_one_or_two S id x : credit_range S id x -> one_or_two_decimals (repr x).
Proof.
  unfold credit_range. destruct (bool_decide (id ∈ S)); apply R2_one_or_two; qle.
Qed.

Lemma price_range_one_or_two S id x : price_range S id x -> one_or_two_decimals (repr x).
Proof.
  unfold price_range. destruct (bool_decide (id ∈ S)); apply R2_one_or_two; qle.
Qed.

Lemma customers_credit_column S ids records :
  Forall2 (CustomerAt S) ids records ->
  Forall one_or_two_decimals (column 7 (map cells records)).
Proof.
  induction 1 as [|id rec ids recs H _ IH]; [constructor|].
  destruct H as (? & ? & ? & ? & ? & ? & credit & ? & -> & HC).
  constructor; [|exact IH]. apply (credit_range_one_or_two _ _ _ HC).
Qed.

Lemma products_price_column S ids records :
  Forall2 (ProductAt S) ids records ->
  Forall one_or_two_decimals (column 3 (map cells records)).
Proof.
  induction 1 as [|id rec ids recs H _ IH]; [constructor|].
  destruct H as (? & ? & price & ? & ? & ? & -> & HC).
  constructor; [|exact IH]. apply (price_range_one_or_two _ _ _ HC).
Qed.

(** Every credit_limit cell of the three customer files and every price
    cell of the three product files has one or two digits after the decimal
    point. *)
Theorem money_has_one_or_two_decimals (w w' : World) :
  main w = Ok tt w' ->
  exists c1 c2 c3 p1 p2 p3,
    files w' !! customers_file1_path = Some (csv_lines (CUSTOMER_COLUMNS :: c1)) /\
    files w' !! customers_file2_path = Some (csv_lines (CUSTOMER_COLUMNS :: c2)) /\
    files w' !! customers_file3_path = Some (csv_lines (CUSTOMER_COLUMNS :: c3)) /\
    files w' !! products_file1_path = Some (csv_lines (PRODUCT_COLUMNS :: p1)) /\
    files w' !! products_file2_path = Some (csv_lines (PRODUCT_COLUMNS :: p2)) /\
    files w' !! products_file3_path = Some (csv_lines (PRODUCT_COLUMNS :: p3)) /\
    nth 7 CUSTOMER_COLUMNS EmptyString = "credit_limit"%string /\
    nth 3 PRODUCT_COLUMNS EmptyString = "price"%string /\
    Forall one_or_two_decimals (column 7 (c1 ++ c2 ++ c3)) /\
    Forall one_or_two_decimals (column 3 (p1 ++ p2 ++ p3)).
Proof.
  intros Hrun. destruct (main_returns _ _ Hrun) as (c & p & t & _ & _ & HC & HP & ->).
  destruct HC as (C1 & C2 & C3). destruct HP as (P1 & P2 & P3).
  destruct (six_files_lookup c p (files w)) as (-> & -> & -> & -> & -> & ->).
  exists (map cells c.1.1), (map cells c.1.2), (map cells c.2).
  exists (map cells p.1.1), (map cells p.1.2), (map cells p.2).
  rewrite (customers_csv_text _ _ _ _ C1), (customers_csv_text _ _ _ _ C2),
    (customers_csv_text _ _ _ _ C3), (products_csv_text _ _ _ _ P1),
    (products_csv_text _ _ _ _ P2), (products_csv_text _ _ _ _ P3).
  repeat (split; [reflexivity|]).
  rewrite !column_app, !Forall_app.
  repeat split;
    first [eapply customers_credit_column; eassumption
          | eapply products_price_column; eassumption].
Qed.

Lemma money_has_one_or_two_decimals_witness :
  exists c1 c2 c3 p1 p2 p3,
    files script_end !! customers_file1_path = Some (csv_lines (CUSTOMER_COLUMNS :: c1)) /\
    files script_end !! customers_file2_path = Some (csv_lines (CUSTOMER_COLUMNS :: c2)) /\
    files script_end !! customers_file3_path = Some (csv_lines (CUSTOMER_COLUMNS :: c3)) /\
    files script_end !! products_file1_path = Some (csv_lines (PRODUCT_COLUMNS :: p1)) /\
    files script_end !! products_file2_path = Some (csv_lines (PRODUCT_COLUMNS :: p2)) /\
    files script_end !! products_file3_path = Some (csv_lines (PRODUCT_COLUMNS :: p3)) /\
    nth 7 CUSTOMER_COLUMNS EmptyString = "credit_limit"%string /\
    nth 3 PRODUCT_COLUMNS EmptyString = "price"%string /\
    Forall one_or_two_decimals (column 7 (c1 ++ c2 ++ c3)) /\
    Forall one_or_two_decimals (column 3 (p1 ++ p2 ++ p3)).
Proof.
  apply (money_has_one_or_two_decimals script_world script_end). vm_compute. reflexivity.
Defined.

(** C7, as stated, fails on the run of the script: the initial customer file
    carries the credit limit of customer 8, the float 23217.1, as the text
    23217.1, with one digit after the point. *)
Lemma credit_limit_with_one_decimal :
  main script_world = Ok tt script_end /\
  exists rows,
    files script_end !! customers_file1_path = Some (csv_lines (CUSTOMER_COLUMNS :: rows)) /\
    rows !! 7%nat =
      Some ["8"; "Matthew"; "Martinez"; "matthew.martinez8@yahoo.com"; "(303) 589-5554";
            "Chicago"; "IL"; "23217.1"; "2025-01-01 10:14:00"]%string /\
    Repr.repr (round_ndigits (lit 232171 1) 2) = "23217.1"%string /\
    after_point "23217.1" = Some 1%nat /\
    ~ after_point "23217.1" = Some 2%nat.
Proof.
  destruct script_output as (Hrun & H1 & _). split; [exact Hrun|].
  eexists. split; [exact H1|]. split; [reflexivity|].
  split; [vm_compute; reflexivity|]. split; [reflexivity | discriminate].
Qed.

(** ** Tracking the records through the generations *)

Lemma inv_exact P n D st :
  Inv P n D st ->
  Inv (fun id rec => heap st !! Z.to_nat (id - 1) = Some rec /\ P id rec) n D st.
Proof.
  intros (Hs & Hd & Hl & Hh). split; [exact Hs|]. split; [exact Hd|]. split; [exact Hl|].
  intros k rec Hk. split; [|apply Hh, Hk].
  replace (Z.to_nat (Z.of_nat k + 1 - 1)) with k by lia. exact Hk.
Qed.

Lemma inv_ext P Q n D st : Inv P n D st -> Inv (ext P Q n) n D st.
Proof.
  intros (Hs & Hd & Hl & Hh). split; [exact Hs|]. split; [exact Hd|]. split; [exact Hl|].
  intros k rec Hk. unfold ext.
  assert (k < n)%nat by (rewrite <- Hl; eapply lookup_lt_Some, Hk).
  destruct (Z.leb_spec (Z.of_nat k + 1) (Z.of_nat n)); [apply Hh, Hk | lia].
Qed.

(** a loop that inserts the records of the identifiers [a + 1 .. a + m] *)
Lemma add_records_spec (body : Z -> Env -> Rand Env) (append : bool)
    (P Q : Z -> record -> Prop) (a : nat) :
  (forall i st, spec (body i st)
                  (fun st' => exists rec, Q i rec /\ st' = insert_record append i rec st)) ->
  forall m k D st,
    Inv (ext P Q a) (a + k) D st ->
    spec (for_each (ids_from (a + k) m) body st)
         (Inv (ext P Q a) (a + k + m) (if append then D ++ seq (a + k) m else D)).
Proof.
  intros Hbody. induction m as [|m IH]; intros k D st HI.
  - simpl. apply spec_ret. rewrite Nat.add_0_r.
    destruct append; [rewrite app_nil_r|]; exact HI.
  - simpl. eapply spec_bind; [apply Hbody|].
    intros st' (rec & Hrec & ->).
    assert (HI' : Inv (ext P Q a) (S (a + k)) (if append then D ++ [(a + k)%nat] else D)
                    (insert_record append (Z.of_nat (a + k) + 1) rec st)).
    { apply insert_record_inv; [exact HI|]. unfold ext.
      destruct (Z.leb_spec (Z.of_nat (a + k) + 1) (Z.of_nat a)); [lia | exact Hrec]. }
    replace (S (a + k)) with (a + S k)%nat in * by lia. eapply spec_mono.
    + apply (IH (S k) _ _ HI').
    + intros st''. replace (a + S k + m)%nat with (a + k + S m)%nat by lia.
      destruct append; [rewrite <- app_assoc|]; exact id.
Qed.

Lemma add_records_from (body : Z -> Env -> Rand Env) (append : bool)
    (P Q : Z -> record -> Prop) (a m : nat) D st :
  (forall i st, spec (body i st)
                  (fun st' => exists rec, Q i rec /\ st' = insert_record append i rec st)) ->
  Inv P a D st ->
  spec (for_each (ids_from a m) body st)
       (Inv (ext P Q a) (a + m) (if append then D ++ seq a m else D)).
Proof.
  intros Hbody HI.
  pose proof (add_records_spec body append P Q a Hbody m 0%nat D st) as H.
  rewrite Nat.add_0_r in H. apply H. apply inv_ext, HI.
Qed.

(** *** One mutation step, run on a known state *)

Lemma inv_replace P n D st r rec :
  Inv P n D st ->
  Inv (fun _ _ => True) n D (mk_env (<[r := rec]> (heap st)) (snapshot st) (delta_records st)).
Proof.
  intros (Hs & Hd & Hl & Hh). repeat split; simpl; try assumption.
  rewrite length_insert. exact Hl.
Qed.

Lemma get_field_run {S} P n D st i key old v (s : S) :
  Inv P n D st -> 1 <= i <= Z.of_nat n ->
  heap st !! Z.to_nat (i - 1) = Some old -> od_get String.eqb old key = Some v ->
  get_field st i key s = Ok v s.
Proof.
  intros HI Hi Hold Hv. destruct (inv_lookup _ _ _ _ _ HI Hi) as (Hget & _).
  unfold get_field, snapshot_ref, bind. rewrite Hget. simpl.
  rewrite (deref_lookup _ _ _ Hold), Hv. reflexivity.
Qed.

Lemma set_field_run {S} P n D st i key v old (s : S) :
  Inv P n D st -> 1 <= i <= Z.of_nat n ->
  heap st !! Z.to_nat (i - 1) = Some old ->
  set_field st i key v s
  = Ok (mk_env (<[Z.to_nat (i - 1) := od_set String.eqb old key v]> (heap st))
               (snapshot st) (delta_records st)) s.
Proof.
  intros HI Hi Hold. destruct (inv_lookup _ _ _ _ _ HI Hi) as (Hget & _).
  unfold set_field, snapshot_ref, bind. rewrite Hget. simpl.
  rewrite (deref_lookup _ _ _ Hold). reflexivity.
Qed.

Lemma append_ref_run {S} P n D st i (s : S) :
  Inv P n D st -> 1 <= i <= Z.of_nat n ->
  append_ref st i s
  = Ok (mk_env (heap st) (snapshot st) (delta_records st ++ [Z.to_nat (i - 1)])) s.
Proof.
  intros HI Hi. destruct (inv_lookup _ _ _ _ _ HI Hi) as (Hget & _).
  unfold append_ref, snapshot_ref, bind. rewrite Hget. reflexivity.
Qed.

Lemma replaced_lookup P n D st i (old rec : record) :
  Inv P n D st -> 1 <= i <= Z.of_nat n ->
  heap st !! Z.to_nat (i - 1) = Some old ->
  <[Z.to_nat (i - 1) := rec]> (heap st) !! Z.to_nat (i - 1) = Some rec.
Proof.
  intros (_ & _ & Hl & _) Hi Hold. apply list_lookup_insert_eq. lia.
Qed.

Lemma inv_modified P n D st i F st' :
  Inv P n D st -> 1 <= i <= Z.of_nat n -> modified F i st st' ->
  Inv (upd P i F) n (D ++ [Z.to_nat (i - 1)]) st'.
Proof.
  intros (Hs & Hd & Hl & Hh) Hi (old & new & Hold & HF & ->).
  split; [exact Hs|]. split; [simpl; rewrite Hd; reflexivity|].
  split; [simpl; rewrite length_insert; exact Hl|].
  intros k rec Hk. simpl in Hk. unfold upd.
  destruct (decide (k = Z.to_nat (i - 1))) as [->|NE].
  - rewrite list_lookup_insert_eq in Hk by lia. injection Hk as <-.
    replace (Z.of_nat (Z.to_nat (i - 1)) + 1) with i by lia.
    rewrite Z.eqb_refl. exists old. split; [|exact HF].
    specialize (Hh _ _ Hold). replace (Z.of_nat (Z.to_nat (i - 1)) + 1) with i in Hh by lia.
    exact Hh.
  - rewrite list_lookup_insert_ne in Hk by congruence.
    destruct (Z.eqb_spec (Z.of_nat k + 1) i); [lia|]. apply Hh, Hk.
Qed.

Lemma modify_records_spec (body : Z -> Env -> Rand Env) (F : record -> record -> Prop)
    (G : record -> Prop) (n : nat) :
  (forall P D st i, Inv P n D st -> 1 <= i <= Z.of_nat n ->
     (forall rec, P i rec -> G rec) -> spec (body i st) (modified F i st)) ->
  forall ids P D st,
    Inv P n D st ->
    Forall (fun i => 1 <= i <= Z.of_nat n) ids -> NoDup ids ->
    (forall i rec, i ∈ ids -> P i rec -> G rec) ->
    spec (for_each ids body st)
         (Inv (upd_all P ids F) n (D ++ map (fun i => Z.to_nat (i - 1)) ids)).
Proof.
  intros Hbody. induction ids as [|i ids IH]; intros P D st HI Hids Hnd HG.
  - simpl. apply spec_ret. rewrite app_nil_r. exact HI.
  - apply Forall_cons in Hids as [Hi Hids]. apply NoDup_cons in Hnd as [Hni Hnd].
    simpl. eapply spec_bind.
    + apply (Hbody P D st i HI Hi). intros rec. apply HG. left.
    + intros st' Hm. pose proof (inv_modified _ _ _ _ _ _ _ HI Hi Hm) as HI'.
      eapply spec_mono; [apply (IH _ _ _ HI' Hids Hnd)|].
      * intros j rec Hj. unfold upd.
        destruct (Z.eqb_spec j i) as [->|_]; [contradiction|].
        apply HG. right. exact Hj.
      * intros st''. rewrite <- app_assoc. exact id.
Qed.

Lemma upd_all_out P ids F i rec : i ∉ ids -> upd_all P ids F i rec -> P i rec.
Proof.
  revert P. induction ids as [|i0 ids IH]; intros P Hi H; [exact H|].
  apply not_elem_of_cons in Hi as [Hne Hi]. simpl in H.
  apply (IH _ Hi) in H. unfold upd in H.
  destruct (Z.eqb_spec i i0); [contradiction | exact H].
Qed.

Lemma upd_all_in P ids F i rec :
  NoDup ids -> i ∈ ids -> upd_all P ids F i rec -> exists old, P i old /\ F old rec.
Proof.
  revert P. induction ids as [|i0 ids IH]; intros P Hnd Hi H; [inversion Hi|].
  apply NoDup_cons in Hnd as [Hni Hnd]. simpl in H.
  destruct (decide (i = i0)) as [->|Hne].
  - apply (upd_all_out _ _ _ _ _ Hni) in H. unfold upd in H.
    rewrite Z.eqb_refl in H. exact H.
  - apply elem_of_cons in Hi as [E|Hi]; [contradiction|].
    destruct (IH _ Hnd Hi H) as (old & Hold & HF). exists old. split; [|exact HF].
    unfold upd in Hold. destruct (Z.eqb_spec i i0); [contradiction | exact Hold].
Qed.

Lemma ext_new P Q n i rec : Z.of_nat n < i -> ext P Q n i rec -> Q i rec.
Proof. intros Hi. unfold ext. destruct (Z.leb_spec i (Z.of_nat n)); [lia | exact id]. Qed.

Lemma ext_old P Q n i rec : i <= Z.of_nat n -> ext P Q n i rec -> P i rec.
Proof. intros Hi. unfold ext. destruct (Z.leb_spec i (Z.of_nat n)); [exact id | lia]. Qed.

(** ** The customer records *)

Lemma generate_email_text first_name last_name customer_id :
  spec (generate_email first_name last_name customer_id)
       (fun email => exists domain,
          domain ∈ EMAIL_DOMAINS /\ email = email_text first_name last_name customer_id domain).
Proof.
  unfold generate_email. eapply spec_bind; [apply choice_spec; discriminate|].
  intros domain Hd. apply spec_ret. exists domain. split; [exact Hd | reflexivity].
Qed.

Lemma generate_phone_text :
  spec generate_phone
       (fun phone => exists area exchange line,
          200 <= area <= 999 /\ 200 <= exchange <= 999 /\ 1000 <= line <= 9999 /\
          phone = phone_text area exchange line).
Proof.
  unfold generate_phone.
  eapply spec_bind; [apply (randint_spec 200 999); lia|]. intros area Ha.
  eapply spec_bind; [apply (randint_spec 200 999); lia|]. intros exchange He.
  eapply spec_bind; [apply (randint_spec 1000 9999); lia|]. intros line Hl.
  apply spec_ret. exists area, exchange, line. auto.
Qed.

Lemma generate_customer_record_built customer_id time spread minutes :
  0 <= minutes <= spread ->
  spec (generate_customer_record customer_id (add time (timedelta_minutes minutes)))
       (BuiltCustomer time spread customer_id).
Proof.
  intros Hm. unfold generate_customer_record.
  eapply spec_bind; [apply choice_spec; discriminate|]. intros first_name Hfn.
  eapply spec_bind; [apply choice_spec; discriminate|]. intros last_name Hln.
  eapply spec_bind; [apply (randint_spec 0 17); lia|]. intros city_idx Hidx. cbv beta in Hidx.
  eapply spec_bind; [apply generate_email_text|]. intros email (domain & Hd & ->).
  eapply spec_bind; [apply generate_phone_text|].
  intros phone (area & exchange & line & Ha & He & Hl & ->).
  assert (Hlook : forall (l : list string), (length l = 18)%nat ->
            exists c, py_index l city_idx = Some c /\ l !! Z.to_nat city_idx = Some c).
  { intros l Hlen. unfold py_index. destruct (Z.ltb_spec city_idx 0); [lia|].
    destruct (lookup_lt_is_Some_2 l (Z.to_nat city_idx)) as [c Hc]; [lia|].
    exists c. split; exact Hc. }
  eapply spec_bind;
    [apply (spec_of_option _ _ (fun c => CITIES !! Z.to_nat city_idx = Some c));
     destruct (Hlook CITIES eq_refl) as (c & ? & ?); eauto|].
  intros city Hcity.
  eapply spec_bind;
    [apply (spec_of_option _ _ (fun c => STATES !! Z.to_nat city_idx = Some c));
     destruct (Hlook STATES eq_refl) as (c & ? & ?); eauto|].
  intros state Hstate.
  eapply spec_bind; [apply uniform_credit|]. intros credit [Hc1 Hc2].
  apply spec_ret.
  exists first_name, last_name, domain, area, exchange, line, (Z.to_nat city_idx), city, state,
    credit, minutes.
  split; [exact Hfn|]. split; [exact Hln|]. split; [exact Hd|]. split; [exact Ha|].
  split; [exact He|]. split; [exact Hl|]. split; [exact Hcity|]. split; [exact Hstate|].
  split; [exact Hc1|]. split; [exact Hc2|]. split; [exact Hm|].
  unfold stamp. reflexivity.
Qed.

Lemma add_customer_built (append : bool) time spread i st :
  0 <= spread ->
  spec (add_customer append time spread i st)
       (fun st' => exists rec,
          BuiltCustomer time spread i rec /\ st' = insert_record append i rec st).
Proof.
  intros Hsp. unfold add_customer.
  eapply spec_bind; [apply (randint_spec 0 spread); lia|]. intros minutes Hm.
  eapply spec_bind; [apply (generate_customer_record_built _ _ spread), Hm|].
  intros rec Hrec. apply spec_ret. exists rec. split; [exact Hrec | reflexivity].
Qed.

Lemma modify_customer_delta1_step time P n D st cid :
  Inv P n D st -> 1 <= cid <= Z.of_nat n ->
  (forall rec, P cid rec -> exists x, od_get String.eqb rec "credit_limit" = Some (VFloat x)) ->
  spec (modify_customer_delta1 time cid st) (modified (Rescaled time) cid st).
Proof.
  intros HI Hcid Hfloat.
  destruct (inv_lookup _ _ _ _ _ HI Hcid) as (_ & old & Hold & HP).
  destruct (Hfloat old HP) as [x Hx].
  unfold modify_customer_delta1.
  eapply spec_bind; [apply (randint_spec 0 30); lia|]. intros minutes Hm s.
  unfold bind. rewrite (get_field_run _ _ _ _ _ _ _ _ s HI Hcid Hold Hx).
  cbn [mul_float of_option ret].
  rewrite (set_field_run _ _ _ _ _ _ _ _ s HI Hcid Hold).
  pose proof (inv_replace _ _ _ _ (Z.to_nat (cid - 1))
                (od_set String.eqb old "credit_limit"
                   (VFloat (round_ndigits (fmul x (lit 12 1)) 2))) HI) as HI1.
  rewrite (set_field_run _ _ _ _ _ _ _ _ s HI1 Hcid
             (replaced_lookup _ _ _ _ _ _ _ HI Hcid Hold)).
  rewrite (append_ref_run _ _ _ _ _ s (inv_replace _ _ _ _ _ _ HI1) Hcid).
  cbn [heap snapshot delta_records].
  eexists old, _. split; [exact Hold|]. unfold Rescaled, stamp. split.
  - exists x, minutes. split; [exact Hx|]. split; [exact Hm | reflexivity].
  - rewrite list_insert_insert_eq. reflexivity.
Qed.

Lemma modify_customer_delta2_step time P n D st cid :
  Inv P n D st -> 1 <= cid <= Z.of_nat n ->
  (forall rec, P cid rec -> True) ->
  spec (modify_customer_delta2 time cid st) (modified (Moved time) cid st).
Proof.
  intros HI Hcid _.
  destruct (inv_lookup _ _ _ _ _ HI Hcid) as (_ & old & Hold & HP).
  unfold modify_customer_delta2.
  eapply spec_bind; [apply (randint_spec 0 30); lia|]. intros minutes Hm.
  eapply spec_bind; [apply choice_spec; discriminate|]. intros city Hcity.
  intros s. unfold bind at 1.
  rewrite (set_field_run _ _ _ _ _ _ _ _ s HI Hcid Hold).
  pose proof (inv_replace _ _ _ _ (Z.to_nat (cid - 1))
                (od_set String.eqb old "city" (VStr city)) HI) as HI1.
  revert s. change (spec ?m ?Q) with (forall s, match m s with Ok a _ => Q a | Raise e _ => e = Starved end).
  eapply spec_bind; [apply generate_phone_text|].
  intros phone (area & exchange & line & Ha & He & Hl & ->) s.
  unfold bind.
  rewrite (set_field_run _ _ _ _ _ _ _ _ s HI1 Hcid
             (replaced_lookup _ _ _ _ _ _ _ HI Hcid Hold)).
  pose proof (inv_replace _ _ _ _ (Z.to_nat (cid - 1))
                (od_set String.eqb (od_set String.eqb old "city" (VStr city)) "phone"
                   (VStr (phone_text area exchange line))) HI1) as HI2.
  cbn [heap snapshot delta_records] in HI2.
  rewrite (set_field_run _ _ _ _ _ _ _ _ s HI2 Hcid
             (replaced_lookup _ _ _ _ _ _ _ HI1 Hcid
                (replaced_lookup _ _ _ _ _ _ _ HI Hcid Hold))).
  rewrite (append_ref_run _ _ _ _ _ s (inv_replace _ _ _ _ _ _ HI2) Hcid).
  cbn [heap snapshot delta_records].
  eexists old, _. split; [exact Hold|]. unfold Moved, stamp. split.
  - exists city, area, exchange, line, minutes.
    split; [exact Hcity|]. split; [exact Ha|]. split; [exact He|]. split; [exact Hl|].
    split; [exact Hm | reflexivity].
  - rewrite !list_insert_insert_eq. reflexivity.
Qed.

Lemma built_customer_credit time spread i rec :
  BuiltCustomer time spread i rec ->
  exists x, od_get String.eqb rec "credit_limit" = Some (VFloat x).
Proof.
  intros (fn & ln & dom & a & e & l & idx & city & state & y & m & H).
  destruct H as (_ & _ & _ & _ & _ & _ & _ & _ & _ & _ & _ & ->).
  eexists. reflexivity.
Qed.

Lemma customers_initial_built :
  spec customers_initial (Inv (ext (fun _ _ => False) (BuiltCustomer base_time 60) 0) 20 []).
Proof.
  unfold customers_initial. change (range 1 21) with (ids_from 0 20).
  apply (add_records_from _ false _ _ 0 20 [] empty_env).
  - intros i st. apply add_customer_built. lia.
  - repeat split. intros k rec Hk. discriminate.
Qed.

Ltac among Hi := repeat (apply elem_of_cons in Hi as [->|Hi]); [..|apply elem_of_nil in Hi; contradiction].

Lemma customers_delta1_tracked P st :
  Inv P 20 [] st ->
  (forall i rec, P i rec -> exists x, od_get String.eqb rec "credit_limit" = Some (VFloat x)) ->
  spec (customers_delta1 st)
       (Inv (upd_all (ext P (BuiltCustomer delta1_time 30) 20) [3; 7; 15]
               (Rescaled delta1_time))
            25 [20; 21; 22; 23; 24; 2; 6; 14]%nat).
Proof.
  intros HI HP. unfold customers_delta1. change (range 21 26) with (ids_from 20 5).
  eapply spec_bind.
  { apply (add_records_from _ true P (BuiltCustomer delta1_time 30) 20 5 [] (new_delta st)).
    - intros i st'. apply add_customer_built. lia.
    - eapply new_delta_inv, HI. }
  intros st1 HI1.
  apply (modify_records_spec (modify_customer_delta1 delta1_time) (Rescaled delta1_time)
           (fun rec => exists x, od_get String.eqb rec "credit_limit" = Some (VFloat x))
           25 (fun P D st i => modify_customer_delta1_step delta1_time P 25 D st i)
           [3; 7; 15] _ _ st1 HI1).
  - repeat constructor; lia.
  - apply (bool_decide_unpack _). vm_compute. exact I.
  - intros i rec Hi H. eapply HP, (ext_old _ _ 20); [|exact H]. among Hi; lia.
Qed.

Lemma customers_delta2_tracked P D st :
  Inv P 25 D st ->
  spec (customers_delta2 st)
       (Inv (upd_all (ext P (BuiltCustomer delta2_time 30) 25) [1; 10; 21; 25]
               (Moved delta2_time))
            28 [25; 26; 27; 0; 9; 20; 24]%nat).
Proof.
  intros HI. unfold customers_delta2. change (range 26 29) with (ids_from 25 3).
  eapply spec_bind.
  { apply (add_records_from _ true P (BuiltCustomer delta2_time 30) 25 3 [] (new_delta st)).
    - intros i st'. apply add_customer_built. lia.
    - eapply new_delta_inv, HI. }
  intros st1 HI1.
  apply (modify_records_spec (modify_customer_delta2 delta2_time) (Moved delta2_time)
           (fun _ => True)
           28 (fun P D st i => modify_customer_delta2_step delta2_time P 28 D st i)
           [1; 10; 21; 25] _ _ st1 HI1).
  - repeat constructor; lia.
  - apply (bool_decide_unpack _). vm_compute. exact I.
  - intros. exact I.
Qed.

Lemma Forall2_among {A B} (P P' : A -> B -> Prop) (xs : list A) (ys : list B) :
  (forall x y, x ∈ xs -> P x y -> P' x y) -> Forall2 P xs ys -> Forall2 P' xs ys.
Proof.
  intros Himp H. induction H as [|x y xs ys Hxy _ IH]; constructor.
  - apply Himp; [left | exact Hxy].
  - apply IH. intros x' y' Hin. apply Himp. right. exact Hin.
Qed.

Ltac not_among :=
  let Hin := fresh in let E := fresh in
  intros Hin; repeat (apply elem_of_cons in Hin as [E|Hin]; [lia|]);
  apply elem_of_nil in Hin; exact Hin.

(** the three generations of a scenario, from the value of the record
    computation *)
Lemma records_phases (initial : Rand Env) (delta1 delta2 : Env -> Rand Env) t r t' :
  (let* st0 := initial in
   let* st1 := delta1 st0 in
   let* st2 := delta2 st1 in
   ret (snapshot_values st0, delta_values st1, delta_values st2)) t = Ok r t' ->
  exists st0 t0 st1 t1 st2,
    initial t = Ok st0 t0 /\ delta1 st0 t0 = Ok st1 t1 /\ delta2 st1 t1 = Ok st2 t' /\
    r = (snapshot_values st0, delta_values st1, delta_values st2).
Proof.
  unfold bind, ret. intros H.
  destruct (initial t) as [st0 t0|e t0] eqn:E0; [|discriminate].
  destruct (delta1 st0 t0) as [st1 t1|e t1] eqn:E1; [|discriminate].
  destruct (delta2 st1 t1) as [st2 t2|e t2] eqn:E2; [|discriminate].
  injection H as <- <-. exists st0, t0, st1, t1, st2. auto.
Qed.

Lemma delta_values_inv P n D st :
  Inv P n D st -> delta_values st = map (deref (heap st)) D.
Proof. intros (_ & Hd & _). unfold delta_values. rewrite Hd. reflexivity. Qed.

Lemma customers_records_history t c t' :
  customers_records t = Ok c t' -> customers_history c.
Proof.
  intros H. apply records_phases in H as (st0 & t0 & st1 & t1 & st2 & E0 & E1 & E2 & ->).
  pose proof (customers_initial_built t) as H0. rewrite E0 in H0. apply inv_exact in H0.
  assert (H1 := customers_delta1_tracked _ st0 H0).
  assert (Hfloat : forall i rec,
            heap st0 !! Z.to_nat (i - 1) = Some rec /\
            ext (fun _ _ => False) (BuiltCustomer base_time 60) 0 i rec ->
            exists x, od_get String.eqb rec "credit_limit" = Some (VFloat x)).
  { intros i rec [_ Hb]. unfold ext in Hb.
    destruct (i <=? Z.of_nat 0); [contradiction|]. eapply built_customer_credit, Hb. }
  specialize (H1 Hfloat t0). rewrite E1 in H1. apply inv_exact in H1.
  pose proof (customers_delta2_tracked _ _ st1 H1 t1) as H2. rewrite E2 in H2.
  pose proof (snapshot_Forall2 _ _ _ _ H0) as F1.
  pose proof (delta_Forall2' _ _ _ _ H1 eq_refl) as F2.
  pose proof (delta_Forall2' _ _ _ _ H2 eq_refl) as F3.
  pose proof (snapshot_values_inv _ _ _ _ H0) as Hc1.
  pose proof (delta_values_inv _ _ _ _ H1) as Hc2.
  assert (Hl0 : length (heap st0) = 20%nat) by apply H0.
  unfold customers_history. cbn [fst snd].
  split; [|split; [|split; [|split]]].
  - change (range 1 21) with (ids_from 0 20). eapply Forall2_among; [|exact F1].
    intros i rec Hi [_ Hb]. apply (ext_new _ _ 0) in Hb; [exact Hb|].
    change (ids_from 0 20) with (seqZ 1 20) in Hi. apply elem_of_seqZ in Hi. lia.
  - apply (Forall2_take _ _ _ 5) in F2. eapply Forall2_among; [|exact F2].
    intros i rec Hi [_ Hb]. change (i ∈ seqZ 21 5) in Hi. apply elem_of_seqZ in Hi.
    apply upd_all_out in Hb; [|not_among]. apply (ext_new _ _ 20) in Hb; [exact Hb | lia].
  - apply (Forall2_drop _ _ _ 5) in F2. eapply Forall2_among; [|exact F2].
    intros i rec Hi [_ Hb]. change (i ∈ [3; 7; 15]) in Hi.
    apply upd_all_in in Hb as (old & Hold & HR);
      [|apply (bool_decide_unpack _); vm_compute; exact I | exact Hi].
    apply (ext_old _ _ 20) in Hold as [Hold _]; [|among Hi; lia].
    exists old. rewrite Hc1. split; [exact Hold | exact HR].
  - apply (Forall2_take _ _ _ 3) in F3. eapply Forall2_among; [|exact F3].
    intros i rec Hi Hb. change (i ∈ seqZ 26 3) in Hi. apply elem_of_seqZ in Hi.
    apply upd_all_out in Hb; [|not_among]. apply (ext_new _ _ 25) in Hb; [exact Hb | lia].
  - apply (Forall2_drop _ _ _ 3) in F3. eapply Forall2_among; [|exact F3].
    intros i rec Hi Hb. change (i ∈ [1; 10; 21; 25]) in Hi.
    apply upd_all_in in Hb as (old & Hold & HM);
      [|apply (bool_decide_unpack _); vm_compute; exact I | exact Hi].
    apply (ext_old _ _ 25) in Hold as [Hold Hb]; [|among Hi; lia].
    exists old. split; [|exact HM]. rewrite Hc1, Hc2.
    among Hi.
    + apply upd_all_out in Hb; [|not_among].
      apply (ext_old _ _ 20) in Hb as [Hb _]; [|lia].
      apply lookup_app_l_Some. exact Hb.
    + apply upd_all_out in Hb; [|not_among].
      apply (ext_old _ _ 20) in Hb as [Hb _]; [|lia].
      apply lookup_app_l_Some. exact Hb.
    + rewrite lookup_app_r by (rewrite Hl0; simpl; lia). rewrite Hl0. simpl.
      f_equal. apply deref_lookup. exact Hold.
    + rewrite lookup_app_r by (rewrite Hl0; simpl; lia). rewrite Hl0. simpl.
      f_equal. apply deref_lookup. exact Hold.
Qed.

(** ** The product records *)

Lemma spec_bind_run {S A B} (m : M S A) (k : A -> M S B) (a : A) (P : B -> Prop) :
  (forall s, m s = Ok a s) -> spec (k a) P -> spec (bind m k) P.
Proof. intros Hm Hk s. unfold bind. rewrite Hm. apply Hk. Qed.

Lemma generate_product_record_built product_id :
  spec (generate_product_record product_id) (BuiltProduct product_id).
Proof.
  unfold generate_product_record.
  eapply spec_bind; [apply choice_spec; discriminate|]. intros category Hc.
  eapply spec_bind; [apply choice_spec; discriminate|]. intros adjective Ha.
  eapply spec_bind; [apply choice_spec; discriminate|]. intros noun Hn.
  eapply spec_bind; [apply (uniform_within _ _ (lit 999 2) (lit 99999 2)); qle|].
  intros price [Hp1 Hp2].
  eapply spec_bind; [apply (randint_spec 0 500); lia|]. intros stock Hs.
  eapply spec_bind; [apply (randint_spec 1 20); lia|]. intros supplier Hsup.
  eapply spec_bind; [apply choice_spec; discriminate|]. intros is_active Hact.
  apply spec_ret. exists category, adjective, noun, price, stock, supplier, is_active.
  split; [exact Hc|]. split; [exact Ha|]. split; [exact Hn|]. split; [exact Hp1|].
  split; [exact Hp2|]. split; [exact Hs|]. split; [exact Hsup|].
  split; [|reflexivity].
  among Hact; [left | left | left | right; left].
Qed.

Lemma add_product_built (append : bool) i st :
  spec (add_product append i st)
       (fun st' => exists rec, BuiltProduct i rec /\ st' = insert_record append i rec st).
Proof.
  unfold add_product. eapply spec_bind; [apply generate_product_record_built|].
  intros rec Hrec. apply spec_ret. exists rec. split; [exact Hrec | reflexivity].
Qed.

(** the part the two product mutations share *)
Lemma reprice_step P n D st pid a b lo hi (k : Env -> Rand Env) (Q : Env -> Prop) :
  Inv P n D st -> 1 <= pid <= Z.of_nat n ->
  (forall rec, P pid rec -> exists x, od_get String.eqb rec "price" = Some (VFloat x)) ->
  (0 <= fsub b a)%Q ->
  (lo <= fadd a (fmul (fsub b a) 0))%Q -> (fadd a (fmul (fsub b a) 1) <= hi)%Q ->
  (forall old x factor stock,
     heap st !! Z.to_nat (pid - 1) = Some old ->
     od_get String.eqb old "price" = Some (VFloat x) ->
     (lo <= factor)%Q -> (factor <= hi)%Q -> 0 <= stock <= 500 ->
     spec (k (mk_env (<[Z.to_nat (pid - 1) :=
                        od_set String.eqb
                          (od_set String.eqb old "price"
                             (VFloat (round_ndigits (fmul x factor) 2)))
                          "stock_quantity" (VInt stock)]> (heap st))
                     (snapshot st) (delta_records st))) Q) ->
  spec (let* old := get_field st pid "price" in
        let* factor := uniform a b in
        let* scaled := of_option TypeError (mul_float old factor) in
        let* st := set_field st pid "price" (VFloat (round_ndigits scaled 2)) in
        let* stock_quantity := randint 0 500 in
        let* st := set_field st pid "stock_quantity" (VInt stock_quantity) in
        k st) Q.
Proof.
  intros HI Hpid Hfloat Hd Hlo Hhi Hk.
  destruct (inv_lookup _ _ _ _ _ HI Hpid) as (_ & old & Hold & HP).
  destruct (Hfloat old HP) as [x Hx].
  eapply spec_bind_run; [intros s; apply (get_field_run _ _ _ _ _ _ _ _ s HI Hpid Hold Hx)|].
  eapply spec_bind; [apply (uniform_within a b lo hi Hd Hlo Hhi)|].
  intros factor [Hf1 Hf2]. cbn [mul_float of_option]. apply spec_bind_ret.
  eapply spec_bind_run; [intros s; apply (set_field_run _ _ _ _ _ _ _ _ s HI Hpid Hold)|].
  eapply spec_bind; [apply (randint_spec 0 500); lia|]. intros stock Hs.
  pose proof (inv_replace _ _ _ _ (Z.to_nat (pid - 1))
                (od_set String.eqb old "price" (VFloat (round_ndigits (fmul x factor) 2)))
                HI) as HI1.
  eapply spec_bind_run;
    [intros s; apply (set_field_run _ _ _ _ _ _ _ _ s HI1 Hpid
                        (replaced_lookup _ _ _ _ _ _ _ HI Hpid Hold))|].
  cbn [heap snapshot delta_records]. rewrite list_insert_insert_eq.
  apply (Hk old x factor stock Hold Hx Hf1 Hf2 Hs).
Qed.

Lemma modify_product_delta1_step P n D st pid :
  Inv P n D st -> 1 <= pid <= Z.of_nat n ->
  (forall rec, P pid rec -> exists x, od_get String.eqb rec "price" = Some (VFloat x)) ->
  spec (modify_product_delta1 pid st) (modified (Repriced (lit 8 1) (lit 13 1)) pid st).
Proof.
  intros HI Hpid Hfloat. unfold modify_product_delta1.
  apply (reprice_step P n D st pid _ _ (lit 8 1) (lit 13 1) _ _ HI Hpid Hfloat);
    [qle | qle | qle |].
  intros old x factor stock Hold Hx Hf1 Hf2 Hs s.
  rewrite (append_ref_run _ _ _ _ _ s (inv_replace _ _ _ _ _ _ HI) Hpid).
  cbn [heap snapshot delta_records].
  eexists old, _. split; [exact Hold|]. split; [|reflexivity].
  exists x, factor, stock. auto.
Qed.

Lemma modify_product_delta2_step P n D st pid :
  Inv P n D st -> 1 <= pid <= Z.of_nat n ->
  (forall rec, P pid rec -> exists x, od_get String.eqb rec "price" = Some (VFloat x)) ->
  spec (modify_product_delta2 pid st) (modified (Reflagged (lit 9 1) (lit 12 1)) pid st).
Proof.
  intros HI Hpid Hfloat. unfold modify_product_delta2.
  apply (reprice_step P n D st pid _ _ (lit 9 1) (lit 12 1) _ _ HI Hpid Hfloat);
    [qle | qle | qle |].
  intros old x factor stock Hold Hx Hf1 Hf2 Hs.
  eapply spec_bind; [apply choice_spec; discriminate|]. intros is_active Hact.
  pose proof (inv_replace _ _ _ _ (Z.to_nat (pid - 1))
                (od_set String.eqb
                   (od_set String.eqb old "price" (VFloat (round_ndigits (fmul x factor) 2)))
                   "stock_quantity" (VInt stock)) HI) as HI1.
  eapply spec_bind_run;
    [intros s; apply (set_field_run _ _ _ _ _ _ _ _ s HI1 Hpid
                        (replaced_lookup _ _ _ _ _ _ _ HI Hpid Hold))|].
  intros s.
  rewrite (append_ref_run _ _ _ _ _ s (inv_replace _ _ _ _ _ _ HI1) Hpid).
  cbn [heap snapshot delta_records]. rewrite list_insert_insert_eq.
  eexists old, _. split; [exact Hold|]. split; [|reflexivity].
  eexists _, is_active. split; [exists x, factor, stock; auto|]. split; [exact Hact | reflexivity].
Qed.

Lemma built_product_price i rec :
  BuiltProduct i rec -> exists x, od_get String.eqb rec "price" = Some (VFloat x).
Proof.
  intros (c & a & n & y & s & sup & act & H).
  destruct H as (_ & _ & _ & _ & _ & _ & _ & _ & ->).
  eexists. reflexivity.
Qed.

Lemma products_initial_built :
  spec products_initial (Inv (ext (fun _ _ => False) BuiltProduct 0) 25 []).
Proof.
  unfold products_initial. change (range 1 26) with (ids_from 0 25).
  apply (add_records_from _ false _ _ 0 25 [] empty_env).
  - intros i st. apply add_product_built.
  - repeat split. intros k rec Hk. discriminate.
Qed.

Lemma products_delta1_tracked P st :
  Inv P 25 [] st ->
  (forall i rec, P i rec -> exists x, od_get String.eqb rec "price" = Some (VFloat x)) ->
  spec (products_delta1 st)
       (Inv (upd_all (ext P BuiltProduct 25) [2; 8; 15; 22] (Repriced (lit 8 1) (lit 13 1)))
            30 [25; 26; 27; 28; 29; 1; 7; 14; 21]%nat).
Proof.
  intros HI HP. unfold products_delta1. change (range 26 31) with (ids_from 25 5).
  eapply spec_bind.
  { apply (add_records_from _ true P BuiltProduct 25 5 [] (new_delta st)).
    - intros i st'. apply add_product_built.
    - eapply new_delta_inv, HI. }
  intros st1 HI1.
  apply (modify_records_spec modify_product_delta1 (Repriced (lit 8 1) (lit 13 1))
           (fun rec => exists x, od_get String.eqb rec "price" = Some (VFloat x))
           30 (fun P D st i => modify_product_delta1_step P 30 D st i)
           [2; 8; 15; 22] _ _ st1 HI1).
  - repeat constructor; lia.
  - apply (bool_decide_unpack _). vm_compute. exact I.
  - intros i rec Hi H. eapply HP, (ext_old _ _ 25); [|exact H]. among Hi; lia.
Qed.

Lemma products_delta2_tracked P D st :
  Inv P 30 D st ->
  (forall i rec, i ∈ [1; 5; 12; 26; 28; 30] -> P i rec ->
     exists x, od_get String.eqb rec "price" = Some (VFloat x)) ->
  spec (products_delta2 st)
       (Inv (upd_all (ext P BuiltProduct 30) [1; 5; 12; 26; 28; 30]
               (Reflagged (lit 9 1) (lit 12 1)))
            34 [30; 31; 32; 33; 0; 4; 11; 25; 27; 29]%nat).
Proof.
  intros HI HP. unfold products_delta2. change (range 31 35) with (ids_from 30 4).
  eapply spec_bind.
  { apply (add_records_from _ true P BuiltProduct 30 4 [] (new_delta st)).
    - intros i st'. apply add_product_built.
    - eapply new_delta_inv, HI. }
  intros st1 HI1.
  apply (modify_records_spec modify_product_delta2 (Reflagged (lit 9 1) (lit 12 1))
           (fun rec => exists x, od_get String.eqb rec "price" = Some (VFloat x))
           34 (fun P D st i => modify_product_delta2_step P 34 D st i)
           [1; 5; 12; 26; 28; 30] _ _ st1 HI1).
  - repeat constructor; lia.
  - apply (bool_decide_unpack _). vm_compute. exact I.
  - intros i rec Hi H. eapply (HP i rec Hi), (ext_old _ _ 30); [|exact H]. among Hi; lia.
Qed.

Lemma products_records_history t p t' :
  products_records t = Ok p t' -> products_history p.
Proof.
  intros H. apply records_phases in H as (st0 & t0 & st1 & t1 & st2 & E0 & E1 & E2 & ->).
  pose proof (products_initial_built t) as H0. rewrite E0 in H0. apply inv_exact in H0.
  assert (H1 := products_delta1_tracked _ st0 H0).
  assert (Hfloat : forall i rec,
            heap st0 !! Z.to_nat (i - 1) = Some rec /\
            ext (fun _ _ => False) BuiltProduct 0 i rec ->
            exists x, od_get String.eqb rec "price" = Some (VFloat x)).
  { intros i rec [_ Hb]. unfold ext in Hb.
    destruct (i <=? Z.of_nat 0); [contradiction|]. eapply built_product_price, Hb. }
  specialize (H1 Hfloat t0). rewrite E1 in H1. apply inv_exact in H1.
  assert (H2 := products_delta2_tracked _ _ st1 H1).
  assert (Hfloat1 : forall i rec, i ∈ [1; 5; 12; 26; 28; 30] ->
            heap st1 !! Z.to_nat (i - 1) = Some rec /\
            upd_all (ext (fun id rec => heap st0 !! Z.to_nat (id - 1) = Some rec /\
                            ext (fun _ _ => False) BuiltProduct 0 id rec) BuiltProduct 25)
                    [2; 8; 15; 22] (Repriced (lit 8 1) (lit 13 1)) i rec ->
            exists x, od_get String.eqb rec "price" = Some (VFloat x)).
  { intros i rec Hi [_ Hb]. apply upd_all_out in Hb; [|among Hi; not_among].
    unfold ext in Hb. destruct (i <=? Z.of_nat 25).
    - apply Hfloat in Hb. exact Hb.
    - eapply built_product_price, Hb. }
  specialize (H2 Hfloat1 t1). rewrite E2 in H2.
  pose proof (snapshot_Forall2 _ _ _ _ H0) as F1.
  pose proof (delta_Forall2' _ _ _ _ H1 eq_refl) as F2.
  pose proof (delta_Forall2' _ _ _ _ H2 eq_refl) as F3.
  pose proof (snapshot_values_inv _ _ _ _ H0) as Hc1.
  pose proof (delta_values_inv _ _ _ _ H1) as Hc2.
  assert (Hl0 : length (heap st0) = 25%nat) by apply H0.
  unfold products_history. cbn [fst snd].
  split; [|split; [|split; [|split]]].
  - change (range 1 26) with (ids_from 0 25). eapply Forall2_among; [|exact F1].
    intros i rec Hi [_ Hb]. apply (ext_new _ _ 0) in Hb; [exact Hb|].
    change (ids_from 0 25) with (seqZ 1 25) in Hi. apply elem_of_seqZ in Hi. lia.
  - apply (Forall2_take _ _ _ 5) in F2. eapply Forall2_among; [|exact F2].
    intros i rec Hi [_ Hb]. change (i ∈ seqZ 26 5) in Hi. apply elem_of_seqZ in Hi.
    apply upd_all_out in Hb; [|not_among]. apply (ext_new _ _ 25) in Hb; [exact Hb | lia].
  - apply (Forall2_drop _ _ _ 5) in F2. eapply Forall2_among; [|exact F2].
    intros i rec Hi [_ Hb]. change (i ∈ [2; 8; 15; 22]) in Hi.
    apply upd_all_in in Hb as (old & Hold & HR);
      [|apply (bool_decide_unpack _); vm_compute; exact I | exact Hi].
    apply (ext_old _ _ 25) in Hold as [Hold _]; [|among Hi; lia].
    exists old. rewrite Hc1. split; [exact Hold | exact HR].
  - apply (Forall2_take _ _ _ 4) in F3. eapply Forall2_among; [|exact F3].
    intros i rec Hi Hb. change (i ∈ seqZ 31 4) in Hi. apply elem_of_seqZ in Hi.
    apply upd_all_out in Hb; [|not_among]. apply (ext_new _ _ 30) in Hb; [exact Hb | lia].
  - apply (Forall2_drop _ _ _ 4) in F3. eapply Forall2_among; [|exact F3].
    intros i rec Hi Hb. change (i ∈ [1; 5; 12; 26; 28; 30]) in Hi.
    apply upd_all_in in Hb as (old & Hold & HM);
      [|apply (bool_decide_unpack _); vm_compute; exact I | exact Hi].
    apply (ext_old _ _ 30) in Hold as [Hold Hb]; [|among Hi; lia].
    exists old. split; [|exact HM]. rewrite Hc1, Hc2.
    among Hi.
    1-3: apply upd_all_out in Hb; [|not_among];
         apply (ext_old _ _ 25) in Hb as [Hb _]; [|lia];
         apply lookup_app_l_Some; exact Hb.
    all: rewrite lookup_app_r by (rewrite Hl0; simpl; lia); rewrite Hl0; simpl;
         f_equal; apply deref_lookup; exact Hold.
Qed.

(** ** The history of the records in the files *)

Lemma main_history w w' :
  main w = Ok tt w' ->
  exists c p t,
    customers_records (rng w) = Ok c t /\ products_records t = Ok p (rng w') /\
    files w' = six_files c p (files w) /\
    customers_history c /\ products_history p /\ customer_files c /\ product_files p.
Proof.
  intros Hrun. destruct (main_returns _ _ Hrun) as (c & p & t & Hc & Hp & HC & HP & Hf).
  exists c, p, t. split; [exact Hc|]. split; [exact Hp|]. split; [exact Hf|].
  split; [eapply customers_records_history, Hc|].
  split; [eapply products_records_history, Hp|]. split; assumption.
Qed.

Lemma main_tables w w' :
  main w = Ok tt w' ->
  exists c p,
    customers_history c /\ products_history p /\
    customer_tables w' (map cells c.1.1) (map cells c.1.2) (map cells c.2) /\
    product_tables w' (map cells p.1.1) (map cells p.1.2) (map cells p.2).
Proof.
  intros Hrun.
  destruct (main_history _ _ Hrun) as (c & p & t & _ & _ & Hf & Hc & Hp & HC & HP).
  exists c, p. split; [exact Hc|]. split; [exact Hp|].
  destruct HC as (C1 & C2 & C3). destruct HP as (P1 & P2 & P3).
  destruct (six_files_lookup c p (files w)) as (F1 & F2 & F3 & F4 & F5 & F6).
  unfold customer_tables, product_tables.
  rewrite Hf, F1, F2, F3, F4, F5, F6.
  rewrite (customers_csv_text _ _ _ _ C1), (customers_csv_text _ _ _ _ C2),
    (customers_csv_text _ _ _ _ C3), (products_csv_text _ _ _ _ P1),
    (products_csv_text _ _ _ _ P2), (products_csv_text _ _ _ _ P3).
  repeat split; reflexivity.
Qed.

Lemma Forall2_range_lookup {B} (P : Z -> B -> Prop) a b (ys : list B) i y :
  Forall2 P (range a b) ys -> a <= i -> ys !! Z.to_nat (i - a) = Some y -> P i y.
Proof.
  intros H Hi Hy.
  destruct (Forall2_lookup_r _ _ _ _ _ H Hy) as (x & Hx & HP).
  unfold range in Hx. apply lookup_seqZ in Hx as [-> _].
  replace (a + Z.of_nat (Z.to_nat (i - a))) with i in HP by lia. exact HP.
Qed.

Lemma Forall2_split {A B} (P : A -> B -> Prop) n (xs : list A) (ys : list B) :
  Forall2 P (take n xs) (take n ys) -> Forall2 P (drop n xs) (drop n ys) -> Forall2 P xs ys.
Proof.
  intros H1 H2. rewrite <- (take_drop n xs), <- (take_drop n ys).
  apply Forall2_app; assumption.
Qed.

(** the records the two deltas mutate, with what they were built as *)
Lemma customers_origins c :
  customers_history c ->
  Forall2 (fun id new => exists old,
             c.1.1 !! Z.to_nat (id - 1) = Some old /\ BuiltCustomer base_time 60 id old /\
             Rescaled delta1_time old new) [3; 7; 15] (drop 5 c.1.2) /\
  Forall2 (fun id new => exists old,
             (c.1.1 ++ take 5 c.1.2) !! Z.to_nat (id - 1) = Some old /\
             (BuiltCustomer base_time 60 id old \/ BuiltCustomer delta1_time 30 id old) /\
             Moved delta2_time old new) [1; 10; 21; 25] (drop 3 c.2).
Proof.
  intros (H1 & H2 & H3 & H4 & H5). split.
  - eapply Forall2_among; [|exact H3]. intros i new Hi (old & Hold & HR).
    exists old. split; [exact Hold|]. split; [|exact HR].
    apply (Forall2_range_lookup _ 1 21 _ i old H1); [among Hi; lia | exact Hold].
  - eapply Forall2_among; [|exact H5]. intros i new Hi (old & Hold & HM).
    exists old. split; [exact Hold|]. split; [|exact HM].
    assert (Hall : Forall2 (fun id rec => BuiltCustomer base_time 60 id rec \/
                                           BuiltCustomer delta1_time 30 id rec)
                     (range 1 26) (c.1.1 ++ take 5 c.1.2)).
    { change (range 1 26) with (range 1 21 ++ range 21 26). apply Forall2_app.
      - eapply Forall2_impl; [exact H1|]. intros; left; assumption.
      - eapply Forall2_impl; [exact H2|]. intros; right; assumption. }
    apply (Forall2_range_lookup _ 1 26 _ i old Hall); [among Hi; lia | exact Hold].
Qed.

Lemma products_origins p :
  products_history p ->
  Forall2 (fun id new => exists old,
             p.1.1 !! Z.to_nat (id - 1) = Some old /\ BuiltProduct id old /\
             Repriced (lit 8 1) (lit 13 1) old new) [2; 8; 15; 22] (drop 5 p.1.2) /\
  Forall2 (fun id new => exists old,
             (p.1.1 ++ take 5 p.1.2) !! Z.to_nat (id - 1) = Some old /\ BuiltProduct id old /\
             Reflagged (lit 9 1) (lit 12 1) old new) [1; 5; 12; 26; 28; 30] (drop 4 p.2).
Proof.
  intros (H1 & H2 & H3 & H4 & H5). split.
  - eapply Forall2_among; [|exact H3]. intros i new Hi (old & Hold & HR).
    exists old. split; [exact Hold|]. split; [|exact HR].
    apply (Forall2_range_lookup _ 1 26 _ i old H1); [among Hi; lia | exact Hold].
  - eapply Forall2_among; [|exact H5]. intros i new Hi (old & Hold & HM).
    exists old. split; [exact Hold|]. split; [|exact HM].
    assert (Hall : Forall2 BuiltProduct (range 1 31) (p.1.1 ++ take 5 p.1.2)).
    { change (range 1 31) with (range 1 26 ++ range 26 31). apply Forall2_app; assumption. }
    apply (Forall2_range_lookup _ 1 31 _ i old Hall); [among Hi; lia | exact Hold].
Qed.

(** ** The shape of the records *)

Lemma rescaled_record time id fn ln em ph city st credit ts new :
  Rescaled time (customer_record id fn ln em ph city st credit ts) new ->
  exists minutes,
    0 <= minutes <= 30 /\
    new = customer_record id fn ln em ph city st
            (round_ndigits (fmul credit (lit 12 1)) 2) (stamp time minutes).
Proof.
  intros (x & m & Hx & Hm & ->). simpl in Hx. injection Hx as ->.
  exists m. split; [exact Hm | reflexivity].
Qed.

Lemma moved_record time id fn ln em ph city st credit ts new :
  Moved time (customer_record id fn ln em ph city st credit ts) new ->
  exists city' area exchange line minutes,
    city' ∈ CITIES /\ 200 <= area <= 999 /\ 200 <= exchange <= 999 /\ 1000 <= line <= 9999 /\
    0 <= minutes <= 30 /\
    new = customer_record id fn ln em (phone_text area exchange line) city' st credit
            (stamp time minutes).
Proof.
  intros (city' & a & e & l & m & Hc & Ha & He & Hl & Hm & ->).
  exists city', a, e, l, m. repeat (split; [assumption|]). reflexivity.
Qed.

Lemma built_customer_shape time spread id rec :
  BuiltCustomer time spread id rec -> CustomerShape id rec.
Proof.
  intros (fn & ln & dom & a & e & l & idx & city & state & y & m & H).
  destruct H as (Hfn & Hln & Hd & Ha & He & Hl & Hc & Hs & _ & _ & _ & ->).
  exists fn, ln, dom, a, e, l, city, state, (round_ndigits y 2), (stamp time m).
  split; [exact Hfn|]. split; [exact Hln|]. split; [exact Hd|]. split; [exact Ha|].
  split; [exact He|]. split; [exact Hl|].
  split; [eapply list_elem_of_lookup_2, Hc|]. split; [eapply list_elem_of_lookup_2, Hs|].
  reflexivity.
Qed.

Lemma rescaled_shape time id old new :
  CustomerShape id old -> Rescaled time old new -> CustomerShape id new.
Proof.
  intros (fn & ln & dom & a & e & l & city & state & credit & ts & H) HR.
  destruct H as (Hfn & Hln & Hd & Ha & He & Hl & Hc & Hs & ->).
  apply rescaled_record in HR as (m & _ & ->).
  exists fn, ln, dom, a, e, l, city, state. eexists _, _.
  split; [exact Hfn|]. split; [exact Hln|]. split; [exact Hd|]. split; [exact Ha|].
  split; [exact He|]. split; [exact Hl|]. split; [exact Hc|]. split; [exact Hs|].
  reflexivity.
Qed.

Lemma moved_shape time id old new :
  CustomerShape id old -> Moved time old new -> CustomerShape id new.
Proof.
  intros (fn & ln & dom & a & e & l & city & state & credit & ts & H) HM.
  destruct H as (Hfn & Hln & Hd & _ & _ & _ & _ & Hs & ->).
  apply moved_record in HM as (city' & a' & e' & l' & m & Hc' & Ha' & He' & Hl' & _ & ->).
  exists fn, ln, dom, a', e', l', city', state. eexists _, _.
  split; [exact Hfn|]. split; [exact Hln|]. split; [exact Hd|]. split; [exact Ha'|].
  split; [exact He'|]. split; [exact Hl'|]. split; [exact Hc'|]. split; [exact Hs|].
  reflexivity.
Qed.

Lemma customers_shapes c :
  customers_history c ->
  Forall2 CustomerShape (range 1 21) c.1.1 /\
  Forall2 CustomerShape [21; 22; 23; 24; 25; 3; 7; 15] c.1.2 /\
  Forall2 CustomerShape [26; 27; 28; 1; 10; 21; 25] c.2.
Proof.
  intros H. destruct (customers_origins c H) as (O1 & O2).
  destruct H as (H1 & H2 & _ & H4 & _).
  split; [|split].
  - eapply Forall2_impl; [exact H1|]. intros id rec. apply built_customer_shape.
  - apply (Forall2_split _ 5).
    + eapply Forall2_impl; [exact H2|]. intros id rec. apply built_customer_shape.
    + eapply Forall2_impl; [exact O1|]. intros id new (old & _ & Hb & HR).
      eapply rescaled_shape; [eapply built_customer_shape, Hb | exact HR].
  - apply (Forall2_split _ 3).
    + eapply Forall2_impl; [exact H4|]. intros id rec. apply built_customer_shape.
    + eapply Forall2_impl; [exact O2|]. intros id new (old & _ & Hb & HM).
      eapply moved_shape; [|exact HM].
      destruct Hb as [Hb|Hb]; eapply built_customer_shape, Hb.
Qed.

Lemma repriced_record lo hi id name category price stock supplier is_active new :
  Repriced lo hi (product_record id name category price stock supplier is_active) new ->
  exists factor stock',
    (lo <= factor)%Q /\ (factor <= hi)%Q /\ 0 <= stock' <= 500 /\
    new = product_record id name category (round_ndigits (fmul price factor) 2) stock'
            supplier is_active.
Proof.
  intros (x & f & s & Hx & Hf1 & Hf2 & Hs & ->). simpl in Hx. injection Hx as ->.
  exists f, s. repeat (split; [assumption|]). reflexivity.
Qed.

Lemma reflagged_record lo hi id name category price stock supplier is_active new :
  Reflagged lo hi (product_record id name category price stock supplier is_active) new ->
  exists factor stock' is_active',
    (lo <= factor)%Q /\ (factor <= hi)%Q /\ 0 <= stock' <= 500 /\
    is_active' ∈ ["true"; "false"]%string /\
    new = product_record id name category (round_ndigits (fmul price factor) 2) stock'
            supplier is_active'.
Proof.
  intros (mid & act & HR & Hact & ->).
  apply repriced_record in HR as (f & s & Hf1 & Hf2 & Hs & ->).
  exists f, s, act. repeat (split; [assumption|]). reflexivity.
Qed.

Lemma built_product_shape id rec : BuiltProduct id rec -> ProductShape id rec.
Proof.
  intros (c & a & n & y & s & sup & act & H).
  destruct H as (Hc & Ha & Hn & _ & _ & Hs & Hsup & Hact & ->).
  exists c, a, n, (round_ndigits y 2), s, sup, act. auto 10.
Qed.

Lemma repriced_shape lo hi id old new :
  ProductShape id old -> Repriced lo hi old new -> ProductShape id new.
Proof.
  intros (c & a & n & y & s & sup & act & H) HR.
  destruct H as (Hc & Ha & Hn & Hs & Hsup & Hact & ->).
  apply repriced_record in HR as (f & s' & _ & _ & Hs' & ->).
  exists c, a, n. eexists _. exists s', sup, act. auto 10.
Qed.

Lemma reflagged_shape lo hi id old new :
  ProductShape id old -> Reflagged lo hi old new -> ProductShape id new.
Proof.
  intros (c & a & n & y & s & sup & act & H) HR.
  destruct H as (Hc & Ha & Hn & Hs & Hsup & Hact & ->).
  apply reflagged_record in HR as (f & s' & act' & _ & _ & Hs' & Hact' & ->).
  exists c, a, n. eexists _. exists s', sup, act'. auto 10.
Qed.

Lemma products_shapes p :
  products_history p ->
  Forall2 ProductShape (range 1 26) p.1.1 /\
  Forall2 ProductShape [26; 27; 28; 29; 30; 2; 8; 15; 22] p.1.2 /\
  Forall2 ProductShape [31; 32; 33; 34; 1; 5; 12; 26; 28; 30] p.2.
Proof.
  intros H. destruct (products_origins p H) as (O1 & O2).
  destruct H as (H1 & H2 & _ & H4 & _).
  split; [|split].
  - eapply Forall2_impl; [exact H1|]. intros id rec. apply built_product_shape.
  - apply (Forall2_split _ 5).
    + eapply Forall2_impl; [exact H2|]. intros id rec. apply built_product_shape.
    + eapply Forall2_impl; [exact O1|]. intros id new (old & _ & Hb & HR).
      eapply repriced_shape; [eapply built_product_shape, Hb | exact HR].
  - apply (Forall2_split _ 4).
    + eapply Forall2_impl; [exact H4|]. intros id rec. apply built_product_shape.
    + eapply Forall2_impl; [exact O2|]. intros id new (old & _ & Hb & HM).
      eapply reflagged_shape; [eapply built_product_shape, Hb | exact HM].
Qed.

(** a property of every row, from a property of every record *)
Lemma rows_of_shapes {A} (S : A -> record -> Prop) (R : list string -> Prop) ids records :
  (forall id rec, S id rec -> R (cells rec)) ->
  Forall2 S ids records -> Forall R (map cells records).
Proof.
  intros HR H. induction H as [|id rec ids recs Hs _ IH]; constructor; [|exact IH].
  eapply HR, Hs.
Qed.

Lemma customer_rows_all w w' (R : list string -> Prop) :
  (forall id rec, CustomerShape id rec -> R (cells rec)) ->
  main w = Ok tt w' ->
  exists initial delta1 delta2,
    customer_tables w' initial delta1 delta2 /\ Forall R (initial ++ delta1 ++ delta2).
Proof.
  intros HR Hrun. destruct (main_tables _ _ Hrun) as (c & p & Hc & _ & Ht & _).
  exists (map cells c.1.1), (map cells c.1.2), (map cells c.2). split; [exact Ht|].
  destruct (customers_shapes c Hc) as (S1 & S2 & S3).
  rewrite !Forall_app. repeat split; eapply rows_of_shapes; eauto.
Qed.

Lemma product_rows_all w w' (R : list string -> Prop) :
  (forall id rec, ProductShape id rec -> R (cells rec)) ->
  main w = Ok tt w' ->
  exists initial delta1 delta2,
    product_tables w' initial delta1 delta2 /\ Forall R (initial ++ delta1 ++ delta2).
Proof.
  intros HR Hrun. destruct (main_tables _ _ Hrun) as (c & p & _ & Hp & _ & Ht).
  exists (map cells p.1.1), (map cells p.1.2), (map cells p.2). split; [exact Ht|].
  destruct (products_shapes p Hp) as (S1 & S2 & S3).
  rewrite !Forall_app. repeat split; eapply rows_of_shapes; eauto.
Qed.

(** ** The text fields of the customer files *)

(** X1. In every row of the three customer files the first and last names
    come from the two pools, and the email is the lower-cased first name, a
    dot, the lower-cased last name, the customer identifier as written in
    the first column, an at sign and one of the five domains. *)
Theorem customer_emails_follow_names (w w' : World) :
  main w = Ok tt w' ->
  exists initial delta1 delta2,
    customer_tables w' initial delta1 delta2 /\
    Forall (fun row =>
              cell 1 row ∈ FIRST_NAMES /\ cell 2 row ∈ LAST_NAMES /\
              exists domain,
                domain ∈ EMAIL_DOMAINS /\
                cell 3 row = lower (cell 1 row) +++ "." +++ lower (cell 2 row)
                             +++ cell 0 row +++ "@" +++ domain)
           (initial ++ delta1 ++ delta2).
Proof.
  apply customer_rows_all.
  intros id rec (fn & ln & dom & a & e & l & city & state & credit & ts & H).
  destruct H as (Hfn & Hln & Hd & _ & _ & _ & _ & _ & ->).
  split; [exact Hfn|]. split; [exact Hln|]. exists dom. split; [exact Hd | reflexivity].
Qed.

Lemma customer_emails_follow_names_witness :
  exists initial delta1 delta2,
    customer_tables script_end initial delta1 delta2 /\
    Forall (fun row =>
              cell 1 row ∈ FIRST_NAMES /\ cell 2 row ∈ LAST_NAMES /\
              exists domain,
                domain ∈ EMAIL_DOMAINS /\
                cell 3 row = lower (cell 1 row) +++ "." +++ lower (cell 2 row)
                             +++ cell 0 row +++ "@" +++ domain)
           (initial ++ delta1 ++ delta2).
Proof.
  apply (customer_emails_follow_names script_world script_end). vm_compute. reflexivity.
Defined.

Lemma str_int_length (m : nat) n :
  10 ^ Z.of_nat m <= n < 10 ^ (Z.of_nat m + 1) -> String.length (str_int n) = S m.
Proof.
  intros Hn. unfold str_int.
  assert (0 < 10 ^ Z.of_nat m) by (apply Z.pow_pos_nonneg; lia).
  destruct (Z.ltb_spec n 0); [lia|]. apply digits_length, Hn.
Qed.

Lemma phone_text_length area exchange line :
  200 <= area <= 999 -> 200 <= exchange <= 999 -> 1000 <= line <= 9999 ->
  String.length (phone_text area exchange line) = 14%nat.
Proof.
  intros Ha He Hl. unfold phone_text. rewrite !length_append.
  rewrite (str_int_length 2 area), (str_int_length 2 exchange), (str_int_length 3 line)
    by (simpl; lia).
  reflexivity.
Qed.

(** X2. Every phone cell of the three customer files is an opening
    parenthesis, an area code between 200 and 999, a closing parenthesis and
    a space, an exchange code between 200 and 999, a hyphen and a line
    number between 1000 and 9999, all in decimal: 14 characters. *)
Theorem customer_phones_are_well_formed (w w' : World) :
  main w = Ok tt w' ->
  exists initial delta1 delta2,
    customer_tables w' initial delta1 delta2 /\
    Forall (fun row =>
              String.length (cell 4 row) = 14%nat /\
              exists area exchange line,
                200 <= area <= 999 /\ 200 <= exchange <= 999 /\ 1000 <= line <= 9999 /\
                cell 4 row = "(" +++ str_int area +++ ") " +++ str_int exchange
                             +++ "-" +++ str_int line)
           (initial ++ delta1 ++ delta2).
Proof.
  apply customer_rows_all.
  intros id rec (fn & ln & dom & a & e & l & city & state & credit & ts & H).
  destruct H as (_ & _ & _ & Ha & He & Hl & _ & _ & ->).
  split; [apply (phone_text_length a e l Ha He Hl)|].
  exists a, e, l. split; [exact Ha|]. split; [exact He|]. split; [exact Hl | reflexivity].
Qed.

Lemma customer_phones_are_well_formed_witness :
  exists initial delta1 delta2,
    customer_tables script_end initial delta1 delta2 /\
    Forall (fun row =>
              String.length (cell 4 row) = 14%nat /\
              exists area exchange line,
                200 <= area <= 999 /\ 200 <= exchange <= 999 /\ 1000 <= line <= 9999 /\
                cell 4 row = "(" +++ str_int area +++ ") " +++ str_int exchange
                             +++ "-" +++ str_int line)
           (initial ++ delta1 ++ delta2).
Proof.
  apply (customer_phones_are_well_formed script_world script_end). vm_compute. reflexivity.
Defined.

(** ** Cities, states and timestamps, file by file *)

Lemma customer_rows_by_file w w' (R1 R2 R3 : list string -> Prop) :
  (forall c, customers_history c ->
     Forall R1 (map cells c.1.1) /\ Forall R2 (map cells c.1.2) /\ Forall R3 (map cells c.2)) ->
  main w = Ok tt w' ->
  exists initial delta1 delta2,
    customer_tables w' initial delta1 delta2 /\
    Forall R1 initial /\ Forall R2 delta1 /\ Forall R3 delta2.
Proof.
  intros HR Hrun. destruct (main_tables _ _ Hrun) as (c & p & Hc & _ & Ht & _).
  exists (map cells c.1.1), (map cells c.1.2), (map cells c.2). split; [exact Ht|].
  apply HR, Hc.
Qed.

Lemma Forall_split {A} (P : A -> Prop) n (xs : list A) :
  Forall P (take n xs) -> Forall P (drop n xs) -> Forall P xs.
Proof. intros H1 H2. rewrite <- (take_drop n xs). apply Forall_app. auto. Qed.

Lemma map_cells_take n records : map cells (take n records) = take n (map cells records).
Proof. change (map cells ?l) with (fmap (M := list) cells l). apply fmap_take. Qed.

Lemma map_cells_drop n records : map cells (drop n records) = drop n (map cells records).
Proof. change (map cells ?l) with (fmap (M := list) cells l). apply fmap_drop. Qed.

Lemma built_customer_stamp time spread id rec :
  BuiltCustomer time spread id rec ->
  exists minutes, 0 <= minutes <= spread /\ cell 8 (cells rec) = stamp time minutes.
Proof.
  intros (fn & ln & dom & a & e & l & idx & city & state & y & m & H).
  destruct H as (_ & _ & _ & _ & _ & _ & _ & _ & _ & _ & Hm & ->).
  exists m. split; [exact Hm | reflexivity].
Qed.

Lemma rescaled_stamp time id old new :
  CustomerShape id old -> Rescaled time old new ->
  exists minutes, 0 <= minutes <= 30 /\ cell 8 (cells new) = stamp time minutes.
Proof.
  intros (fn & ln & dom & a & e & l & city & state & credit & ts & H) HR.
  destruct H as (_ & _ & _ & _ & _ & _ & _ & _ & ->).
  apply rescaled_record in HR as (m & Hm & ->). exists m. split; [exact Hm | reflexivity].
Qed.

Lemma moved_stamp time id old new :
  CustomerShape id old -> Moved time old new ->
  exists minutes, 0 <= minutes <= 30 /\ cell 8 (cells new) = stamp time minutes.
Proof.
  intros (fn & ln & dom & a & e & l & city & state & credit & ts & H) HM.
  destruct H as (_ & _ & _ & _ & _ & _ & _ & _ & ->).
  apply moved_record in HM as (city' & a' & e' & l' & m & _ & _ & _ & _ & Hm & ->).
  exists m. split; [exact Hm | reflexivity].
Qed.

Lemma customers_stamps c :
  customers_history c ->
  Forall (fun row => exists m, 0 <= m <= 60 /\ cell 8 row = stamp base_time m)
         (map cells c.1.1) /\
  Forall (fun row => exists m, 0 <= m <= 30 /\ cell 8 row = stamp delta1_time m)
         (map cells c.1.2) /\
  Forall (fun row => exists m, 0 <= m <= 30 /\ cell 8 row = stamp delta2_time m)
         (map cells c.2).
Proof.
  intros H. destruct (customers_origins c H) as (O1 & O2).
  destruct H as (H1 & H2 & _ & H4 & _).
  split; [|split].
  - eapply rows_of_shapes; [|exact H1]. intros id rec. apply built_customer_stamp.
  - apply (Forall_split _ 5); rewrite <- ?map_cells_take, <- ?map_cells_drop.
    + eapply rows_of_shapes; [|exact H2]. intros id rec. apply built_customer_stamp.
    + eapply rows_of_shapes; [|exact O1]. intros id new (old & _ & Hb & HR).
      eapply rescaled_stamp; [eapply built_customer_shape, Hb | exact HR].
  - apply (Forall_split _ 3); rewrite <- ?map_cells_take, <- ?map_cells_drop.
    + eapply rows_of_shapes; [|exact H4]. intros id rec. apply built_customer_stamp.
    + eapply rows_of_shapes; [|exact O2]. intros id new (old & _ & Hb & HM).
      eapply moved_stamp; [|exact HM].
      destruct Hb as [Hb|Hb]; eapply built_customer_shape, Hb.
Qed.

Lemma in_seqZ m a n : a <= m < a + n -> In m (seqZ a n).
Proof. intros H. apply list_elem_of_In, elem_of_seqZ. exact H. Qed.

Lemma stamp_base m :
  0 <= m <= 60 -> stamp base_time m = clock (10 + m / 60) (m mod 60).
Proof.
  intros Hm.
  assert (H : forallb (fun m => String.eqb (stamp base_time m) (clock (10 + m / 60) (m mod 60)))
                (seqZ 0 61) = true) by (vm_compute; reflexivity).
  rewrite forallb_forall in H. apply String.eqb_eq, H, in_seqZ. lia.
Qed.

Lemma stamp_delta1 m : 0 <= m <= 30 -> stamp delta1_time m = clock 12 m.
Proof.
  intros Hm.
  assert (H : forallb (fun m => String.eqb (stamp delta1_time m) (clock 12 m))
                (seqZ 0 31) = true) by (vm_compute; reflexivity).
  rewrite forallb_forall in H. apply String.eqb_eq, H, in_seqZ. lia.
Qed.

Lemma stamp_delta2 m : 0 <= m <= 30 -> stamp delta2_time m = clock 14 m.
Proof.
  intros Hm.
  assert (H : forallb (fun m => String.eqb (stamp delta2_time m) (clock 14 m))
                (seqZ 0 31) = true) by (vm_compute; reflexivity).
  rewrite forallb_forall in H. apply String.eqb_eq, H, in_seqZ. lia.
Qed.

(** X3. The timestamps of the initial customer file lie between 10:00 and
    11:00 on 1 January 2025, at a whole minute; those of the delta1 file
    between 12:00 and 12:30, those of the delta2 file between 14:00 and
    14:30, mutated rows included. *)
Theorem customer_timestamps_by_file (w w' : World) :
  main w = Ok tt w' ->
  exists initial delta1 delta2,
    customer_tables w' initial delta1 delta2 /\
    Forall (fun row => exists m, 0 <= m <= 60 /\ cell 8 row = clock (10 + m / 60) (m mod 60))
           initial /\
    Forall (fun row => exists m, 0 <= m <= 30 /\ cell 8 row = clock 12 m) delta1 /\
    Forall (fun row => exists m, 0 <= m <= 30 /\ cell 8 row = clock 14 m) delta2.
Proof.
  apply customer_rows_by_file. intros c Hc.
  destruct (customers_stamps c Hc) as (S1 & S2 & S3).
  split; [|split].
  - eapply Forall_impl; [exact S1|]. intros row (m & Hm & ->).
    exists m. split; [exact Hm | apply stamp_base, Hm].
  - eapply Forall_impl; [exact S2|]. intros row (m & Hm & ->).
    exists m. split; [exact Hm | apply stamp_delta1, Hm].
  - eapply Forall_impl; [exact S3|]. intros row (m & Hm & ->).
    exists m. split; [exact Hm | apply stamp_delta2, Hm].
Qed.

Lemma customer_timestamps_by_file_witness :
  exists initial delta1 delta2,
    customer_tables script_end initial delta1 delta2 /\
    Forall (fun row => exists m, 0 <= m <= 60 /\ cell 8 row = clock (10 + m / 60) (m mod 60))
           initial /\
    Forall (fun row => exists m, 0 <= m <= 30 /\ cell 8 row = clock 12 m) delta1 /\
    Forall (fun row => exists m, 0 <= m <= 30 /\ cell 8 row = clock 14 m) delta2.
Proof.
  apply (customer_timestamps_by_file script_world script_end). vm_compute. reflexivity.
Defined.

Lemma stamps_ordered (time time' : datetime) (spread spread' : Z) a b :
  forallb (fun x => forallb (fun y => match String.compare x y with Lt => true | _ => false end)
                      (map (stamp time') (seqZ 0 (spread' + 1))))
          (map (stamp time) (seqZ 0 (spread + 1))) = true ->
  (exists m, 0 <= m <= spread /\ a = stamp time m) ->
  (exists m, 0 <= m <= spread' /\ b = stamp time' m) ->
  String.compare a b = Lt.
Proof.
  intros H (m & Hm & ->) (m' & Hm' & ->).
  rewrite forallb_forall in H.
  specialize (H (stamp time m) (in_map _ _ _ (in_seqZ m 0 (spread + 1) ltac:(lia)))).
  rewrite forallb_forall in H.
  specialize (H (stamp time' m') (in_map _ _ _ (in_seqZ m' 0 (spread' + 1) ltac:(lia)))).
  destruct (String.compare (stamp time m) (stamp time' m')); congruence.
Qed.

(** X4. The timestamp column orders the three customer files: as strings,
    every timestamp of the initial file is below every timestamp of the
    delta1 file, and every timestamp of the delta1 file below every
    timestamp of the delta2 file. *)
Theorem customer_timestamps_order_the_files (w w' : World) :
  main w = Ok tt w' ->
  exists initial delta1 delta2,
    customer_tables w' initial delta1 delta2 /\
    forall r0 r1 r2, r0 ∈ initial -> r1 ∈ delta1 -> r2 ∈ delta2 ->
      String.compare (cell 8 r0) (cell 8 r1) = Lt /\
      String.compare (cell 8 r1) (cell 8 r2) = Lt.
Proof.
  intros Hrun. destruct (main_tables _ _ Hrun) as (c & p & Hc & _ & Ht & _).
  exists (map cells c.1.1), (map cells c.1.2), (map cells c.2). split; [exact Ht|].
  destruct (customers_stamps c Hc) as (S1 & S2 & S3).
  rewrite Forall_forall in S1, S2, S3.
  intros r0 r1 r2 H0 H1 H2.
  specialize (S1 r0 H0). specialize (S2 r1 H1). specialize (S3 r2 H2). split.
  - apply (stamps_ordered base_time delta1_time 60 30); [vm_compute; reflexivity | |]; assumption.
  - apply (stamps_ordered delta1_time delta2_time 30 30); [vm_compute; reflexivity | |]; assumption.
Qed.

Lemma customer_timestamps_order_the_files_witness :
  exists initial delta1 delta2,
    customer_tables script_end initial delta1 delta2 /\
    forall r0 r1 r2, r0 ∈ initial -> r1 ∈ delta1 -> r2 ∈ delta2 ->
      String.compare (cell 8 r0) (cell 8 r1) = Lt /\
      String.compare (cell 8 r1) (cell 8 r2) = Lt.
Proof.
  apply (customer_timestamps_order_the_files script_world script_end). vm_compute. reflexivity.
Defined.

(** ** Where the city and the state stay paired *)

Lemma built_customer_aligned time spread id rec :
  BuiltCustomer time spread id rec -> aligned (cell 5 (cells rec)) (cell 6 (cells rec)).
Proof.
  intros (fn & ln & dom & a & e & l & idx & city & state & y & m & H).
  destruct H as (_ & _ & _ & _ & _ & _ & Hc & Hs & _ & _ & _ & ->).
  exists idx. split; [exact Hc | exact Hs].
Qed.

Lemma rescaled_aligned time time' spread id old new :
  BuiltCustomer time spread id old -> Rescaled time' old new ->
  aligned (cell 5 (cells new)) (cell 6 (cells new)).
Proof.
  intros (fn & ln & dom & a & e & l & idx & city & state & y & m & H) HR.
  destruct H as (_ & _ & _ & _ & _ & _ & Hc & Hs & _ & _ & _ & ->).
  apply rescaled_record in HR as (m' & _ & ->).
  exists idx. split; [exact Hc | exact Hs].
Qed.

(** X5. In the initial customer file, in the delta1 file (its three mutated
    rows included) and in the three new rows of the delta2 file, the city
    and the state stand at one index of CITIES and STATES.  In the four
    mutated rows of the delta2 file the city is one of CITIES and the state
    one of STATES. *)
Theorem city_and_state_paired_outside_delta2_mutation (w w' : World) :
  main w = Ok tt w' ->
  exists initial delta1 delta2,
    customer_tables w' initial delta1 delta2 /\
    Forall (fun row => aligned (cell 5 row) (cell 6 row)) (initial ++ delta1 ++ take 3 delta2) /\
    Forall (fun row => cell 5 row ∈ CITIES /\ cell 6 row ∈ STATES) (drop 3 delta2).
Proof.
  intros Hrun. destruct (main_tables _ _ Hrun) as (c & p & Hc & _ & Ht & _).
  exists (map cells c.1.1), (map cells c.1.2), (map cells c.2). split; [exact Ht|].
  destruct (customers_origins c Hc) as (O1 & O2).
  destruct (customers_shapes c Hc) as (_ & _ & S3).
  destruct Hc as (H1 & H2 & _ & H4 & _).
  rewrite !Forall_app. repeat split.
  - eapply rows_of_shapes; [|exact H1]. intros id rec. apply built_customer_aligned.
  - apply (Forall_split _ 5); rewrite <- ?map_cells_take, <- ?map_cells_drop.
    + eapply rows_of_shapes; [|exact H2]. intros id rec. apply built_customer_aligned.
    + eapply rows_of_shapes; [|exact O1]. intros id new (old & _ & Hb & HR).
      eapply rescaled_aligned; [exact Hb | exact HR].
  - rewrite <- map_cells_take.
    eapply rows_of_shapes; [|exact H4]. intros id rec. apply built_customer_aligned.
  - rewrite <- map_cells_drop. apply (Forall2_drop _ _ _ 3) in S3.
    eapply rows_of_shapes; [|exact S3].
    intros id rec (fn & ln & dom & a & e & l & city & state & credit & ts & H).
    destruct H as (_ & _ & _ & _ & _ & _ & Hcity & Hstate & ->).
    split; [exact Hcity | exact Hstate].
Qed.

Lemma city_and_state_paired_outside_delta2_mutation_witness :
  exists initial delta1 delta2,
    customer_tables script_end initial delta1 delta2 /\
    Forall (fun row => aligned (cell 5 row) (cell 6 row)) (initial ++ delta1 ++ take 3 delta2) /\
    Forall (fun row => cell 5 row ∈ CITIES /\ cell 6 row ∈ STATES) (drop 3 delta2).
Proof.
  apply (city_and_state_paired_outside_delta2_mutation script_world script_end).
  vm_compute. reflexivity.
Defined.

(** ** What a mutation keeps *)

Ltac same_keys Hk :=
  repeat match goal with
         | |- context [String.eqb ?k ?key] =>
             destruct (String.eqb_spec k key) as [<-|?];
             [first [reflexivity | exfalso; apply Hk; repeat constructor]|]
         end;
  reflexivity.

Lemma same_but_credit_and_ts id fn ln em ph city st credit ts credit' ts' :
  same_but ["credit_limit"; "last_updated_ts"]%string
    (customer_record id fn ln em ph city st credit ts)
    (customer_record id fn ln em ph city st credit' ts').
Proof.
  split; [reflexivity|]. intros key Hk. unfold customer_record. cbn [od_get]. same_keys Hk.
Qed.

Lemma same_but_city_phone_and_ts id fn ln em ph city st credit ts ph' city' ts' :
  same_but ["city"; "phone"; "last_updated_ts"]%string
    (customer_record id fn ln em ph city st credit ts)
    (customer_record id fn ln em ph' city' st credit ts').
Proof.
  split; [reflexivity|]. intros key Hk. unfold customer_record. cbn [od_get]. same_keys Hk.
Qed.

(** X6. Each of the three rows the delta1 loop mutates (customers 3, 7, 15)
    is the customer's record of the initial file with two fields replaced:
    the credit limit, now [round(old * 1.2, 2)], and the timestamp.  The
    identifier, names, email, phone, city and state are those of the
    initial file. *)
Theorem delta1_mutation_rescales_credit_only (w w' : World) :
  main w = Ok tt w' ->
  exists c p t,
    customers_records (rng w) = Ok c t /\ products_records t = Ok p (rng w') /\
    files w' = six_files c p (files w) /\
    Forall2 (fun id new => exists old x,
               c.1.1 !! Z.to_nat (id - 1) = Some old /\
               od_get String.eqb old "customer_id" = Some (VInt id) /\
               same_but ["credit_limit"; "last_updated_ts"]%string old new /\
               float_at "credit_limit" old x /\
               float_at "credit_limit" new (round_ndigits (fmul x (lit 12 1)) 2))
            [3; 7; 15] (drop 5 c.1.2).
Proof.
  intros Hrun.
  destruct (main_history _ _ Hrun) as (c & p & t & Hc & Hp & Hf & HC & _).
  exists c, p, t. split; [exact Hc|]. split; [exact Hp|]. split; [exact Hf|].
  destruct (customers_origins c HC) as (O1 & _).
  eapply Forall2_impl; [exact O1|]. intros id new (old & Hold & Hb & HR).
  apply built_customer_shape in Hb.
  destruct Hb as (fn & ln & dom & a & e & l & city & state & credit & ts & H).
  destruct H as (_ & _ & _ & _ & _ & _ & _ & _ & ->).
  apply rescaled_record in HR as (m & _ & ->).
  eexists _, credit. split; [exact Hold|]. split; [reflexivity|].
  split; [apply same_but_credit_and_ts|]. split; reflexivity.
Qed.

Lemma delta1_mutation_rescales_credit_only_witness :
  exists c p t,
    customers_records (rng script_world) = Ok c t /\
    products_records t = Ok p (rng script_end) /\
    files script_end = six_files c p (files script_world) /\
    Forall2 (fun id new => exists old x,
               c.1.1 !! Z.to_nat (id - 1) = Some old /\
               od_get String.eqb old "customer_id" = Some (VInt id) /\
               same_but ["credit_limit"; "last_updated_ts"]%string old new /\
               float_at "credit_limit" old x /\
               float_at "credit_limit" new (round_ndigits (fmul x (lit 12 1)) 2))
            [3; 7; 15] (drop 5 c.1.2).
Proof.
  apply (delta1_mutation_rescales_credit_only script_world script_end).
  vm_compute. reflexivity.
Defined.

(** X7. Each of the four rows the delta2 loop mutates (customers 1, 10, 21,
    25) is the customer's record as first written (in the initial file for
    1 and 10, in the delta1 file for 21 and 25) with three fields replaced:
    city, phone and timestamp.  The state and the credit limit, with the
    identifier, names and email, are unchanged. *)
Theorem delta2_mutation_keeps_state_and_credit (w w' : World) :
  main w = Ok tt w' ->
  exists c p t,
    customers_records (rng w) = Ok c t /\ products_records t = Ok p (rng w') /\
    files w' = six_files c p (files w) /\
    Forall2 (fun id new => exists old,
               (c.1.1 ++ take 5 c.1.2) !! Z.to_nat (id - 1) = Some old /\
               od_get String.eqb old "customer_id" = Some (VInt id) /\
               same_but ["city"; "phone"; "last_updated_ts"]%string old new)
            [1; 10; 21; 25] (drop 3 c.2).
Proof.
  intros Hrun.
  destruct (main_history _ _ Hrun) as (c & p & t & Hc & Hp & Hf & HC & _).
  exists c, p, t. split; [exact Hc|]. split; [exact Hp|]. split; [exact Hf|].
  destruct (customers_origins c HC) as (_ & O2).
  eapply Forall2_impl; [exact O2|]. intros id new (old & Hold & Hb & HM).
  assert (Hs : CustomerShape id old)
    by (destruct Hb as [Hb|Hb]; eapply built_customer_shape, Hb).
  destruct Hs as (fn & ln & dom & a & e & l & city & state & credit & ts & H).
  destruct H as (_ & _ & _ & _ & _ & _ & _ & _ & ->).
  apply moved_record in HM as (city' & a' & e' & l' & m & _ & _ & _ & _ & _ & ->).
  eexists. split; [exact Hold|]. split; [reflexivity|].
  apply same_but_city_phone_and_ts.
Qed.

Lemma delta2_mutation_keeps_state_and_credit_witness :
  exists c p t,
    customers_records (rng script_world) = Ok c t /\
    products_records t = Ok p (rng script_end) /\
    files script_end = six_files c p (files script_world) /\
    Forall2 (fun id new => exists old,
               (c.1.1 ++ take 5 c.1.2) !! Z.to_nat (id - 1) = Some old /\
               od_get String.eqb old "customer_id" = Some (VInt id) /\
               same_but ["city"; "phone"; "last_updated_ts"]%string old new)
            [1; 10; 21; 25] (drop 3 c.2).
Proof.
  apply (delta2_mutation_keeps_state_and_credit script_world script_end).
  vm_compute. reflexivity.
Defined.

(** ** The fields of the product files *)

Lemma products_bounded_shapes p :
  products_history p ->
  Forall2 (fun id rec => 1 <= id <= 34 /\ ProductShape id rec) (range 1 26) p.1.1 /\
  Forall2 (fun id rec => 1 <= id <= 34 /\ ProductShape id rec)
          [26; 27; 28; 29; 30; 2; 8; 15; 22] p.1.2 /\
  Forall2 (fun id rec => 1 <= id <= 34 /\ ProductShape id rec)
          [31; 32; 33; 34; 1; 5; 12; 26; 28; 30] p.2.
Proof.
  intros H. destruct (products_shapes p H) as (S1 & S2 & S3). split; [|split].
  - eapply Forall2_among; [|exact S1]. intros id rec Hi Hs. split; [|exact Hs].
    change (id ∈ seqZ 1 25) in Hi. apply elem_of_seqZ in Hi. lia.
  - eapply Forall2_among; [|exact S2]. intros id rec Hi Hs. split; [|exact Hs].
    among Hi; lia.
  - eapply Forall2_among; [|exact S3]. intros id rec Hi Hs. split; [|exact Hs].
    among Hi; lia.
Qed.

Lemma product_rows_bounded w w' (R : list string -> Prop) :
  (forall id rec, 1 <= id <= 34 -> ProductShape id rec -> R (cells rec)) ->
  main w = Ok tt w' ->
  exists initial delta1 delta2,
    product_tables w' initial delta1 delta2 /\ Forall R (initial ++ delta1 ++ delta2).
Proof.
  intros HR Hrun. destruct (main_tables _ _ Hrun) as (c & p & _ & Hp & _ & Ht).
  exists (map cells p.1.1), (map cells p.1.2), (map cells p.2). split; [exact Ht|].
  destruct (products_bounded_shapes p Hp) as (S1 & S2 & S3).
  rewrite !Forall_app.
  repeat split; (eapply rows_of_shapes; [|eassumption]); intros id rec [Hi Hs]; eauto.
Qed.

(** X8. In every row of the three product files the category is one of the
    six categories, and the name is an adjective and a noun of the two
    pools followed by the number of the product, the one the identifier of
    the first column carries, in decimal without padding. *)
Theorem product_names_carry_the_identifier (w w' : World) :
  main w = Ok tt w' ->
  exists initial delta1 delta2,
    product_tables w' initial delta1 delta2 /\
    Forall (fun row =>
              cell 2 row ∈ PRODUCT_CATEGORIES /\
              exists adjective noun id,
                adjective ∈ PRODUCT_ADJECTIVES /\ noun ∈ PRODUCT_NOUNS /\ 1 <= id <= 34 /\
                cell 0 row = "PROD-" +++ format_0d 4 id /\
                cell 1 row = adjective +++ " " +++ noun +++ " " +++ str_int id)
           (initial ++ delta1 ++ delta2).
Proof.
  apply product_rows_bounded.
  intros id rec Hid (c & a & n & y & s & sup & act & H).
  destruct H as (Hc & Ha & Hn & _ & _ & _ & ->).
  split; [exact Hc|]. exists a, n, id.
  split; [exact Ha|]. split; [exact Hn|]. split; [exact Hid|]. split; reflexivity.
Qed.

Lemma product_names_carry_the_identifier_witness :
  exists initial delta1 delta2,
    product_tables script_end initial delta1 delta2 /\
    Forall (fun row =>
              cell 2 row ∈ PRODUCT_CATEGORIES /\
              exists adjective noun id,
                adjective ∈ PRODUCT_ADJECTIVES /\ noun ∈ PRODUCT_NOUNS /\ 1 <= id <= 34 /\
                cell 0 row = "PROD-" +++ format_0d 4 id /\
                cell 1 row = adjective +++ " " +++ noun +++ " " +++ str_int id)
           (initial ++ delta1 ++ delta2).
Proof.
  apply (product_names_carry_the_identifier script_world script_end). vm_compute. reflexivity.
Defined.

Lemma supplier_length n : 1 <= n <= 20 -> String.length ("SUP-" +++ format_0d 3 n) = 7%nat.
Proof.
  intros Hn.
  assert (H : forallb (fun n => Nat.eqb (String.length ("SUP-" +++ format_0d 3 n)) 7)
                (seqZ 1 20) = true) by (vm_compute; reflexivity).
  rewrite forallb_forall in H. apply Nat.eqb_eq, H, in_seqZ. lia.
Qed.

(** X9. Every supplier identifier of the three product files is SUP-
    followed by a number between 1 and 20 written with three digits: seven
    characters. *)
Theorem supplier_identifiers_are_well_formed (w w' : World) :
  main w = Ok tt w' ->
  exists initial delta1 delta2,
    product_tables w' initial delta1 delta2 /\
    Forall (fun row =>
              String.length (cell 5 row) = 7%nat /\
              exists n, 1 <= n <= 20 /\ cell 5 row = "SUP-" +++ format_0d 3 n)
           (initial ++ delta1 ++ delta2).
Proof.
  apply product_rows_all.
  intros id rec (c & a & n & y & s & sup & act & H).
  destruct H as (_ & _ & _ & _ & Hsup & _ & ->).
  split; [apply (supplier_length sup Hsup)|]. exists sup. split; [exact Hsup | reflexivity].
Qed.

Lemma supplier_identifiers_are_well_formed_witness :
  exists initial delta1 delta2,
    product_tables script_end initial delta1 delta2 /\
    Forall (fun row =>
              String.length (cell 5 row) = 7%nat /\
              exists n, 1 <= n <= 20 /\ cell 5 row = "SUP-" +++ format_0d 3 n)
           (initial ++ delta1 ++ delta2).
Proof.
  apply (supplier_identifiers_are_well_formed script_world script_end). vm_compute. reflexivity.
Defined.

(** X10. In every row of the three product files, mutated rows included,
    the stock quantity is an integer between 0 and 500 in decimal and the
    active flag is the text true or the text false. *)
Theorem stock_and_flag_stay_in_range (w w' : World) :
  main w = Ok tt w' ->
  exists initial delta1 delta2,
    product_tables w' initial delta1 delta2 /\
    Forall (fun row =>
              (exists n, 0 <= n <= 500 /\ cell 4 row = str_int n) /\
              (cell 6 row = "true"%string \/ cell 6 row = "false"%string))
           (initial ++ delta1 ++ delta2).
Proof.
  apply product_rows_all.
  intros id rec (c & a & n & y & s & sup & act & H).
  destruct H as (_ & _ & _ & Hs & _ & Hact & ->).
  split; [exists s; split; [exact Hs | reflexivity]|].
  among Hact; [left | right]; reflexivity.
Qed.

Lemma stock_and_flag_stay_in_range_witness :
  exists initial delta1 delta2,
    product_tables script_end initial delta1 delta2 /\
    Forall (fun row =>
              (exists n, 0 <= n <= 500 /\ cell 4 row = str_int n) /\
              (cell 6 row = "true"%string \/ cell 6 row = "false"%string))
           (initial ++ delta1 ++ delta2).
Proof.
  apply (stock_and_flag_stay_in_range script_world script_end). vm_compute. reflexivity.
Defined.

(** ** The prices of the product files *)

Lemma built_product_price_range id rec :
  BuiltProduct id rec ->
  exists name category price stock supplier is_active,
    rec = product_record id name category price stock supplier is_active /\
    (lit 999 2 <= price)%Q /\ (price <= lit 99999 2)%Q.
Proof.
  intros (c & a & n & y & s & sup & act & H).
  destruct H as (_ & _ & _ & Hy1 & Hy2 & _ & _ & _ & ->).
  do 6 eexists. split; [reflexivity|].
  apply fresh_price_bounds. exists y. auto.
Qed.

Lemma rescaled_price_within lo hi lo' hi' x f :
  (lit 999 2 <= x)%Q -> (x <= lit 99999 2)%Q -> (lo <= f)%Q -> (f <= hi)%Q -> (0 <= lo)%Q ->
  (lo' <= round_ndigits (fmul (lit 999 2) lo) 2)%Q ->
  (round_ndigits (fmul (lit 99999 2) hi) 2 <= hi')%Q ->
  (lo' <= round_ndigits (fmul x f) 2)%Q /\ (round_ndigits (fmul x f) 2 <= hi')%Q.
Proof.
  intros Hx1 Hx2 Hf1 Hf2 Hlo Hlo' Hhi'.
  assert (P1 : (0 <= lit 999 2)%Q) by qle.
  split.
  - eapply Qle_trans; [exact Hlo'|]. apply round_ndigits_mono, fmul_mono2; lra.
  - eapply Qle_trans; [|exact Hhi']. apply round_ndigits_mono, fmul_mono2; lra.
Qed.

(** X11. The prices the record builder draws lie between 9.99 and 999.99
    (as floats): all prices of the initial product file and of the new rows
    of the two deltas.  The four prices the delta1 loop rescales lie between
    7.99 and 1299.99, the six the delta2 loop rescales between 8.99 and
    1199.99. *)
Theorem product_price_bounds (w w' : World) :
  main w = Ok tt w' ->
  exists c p t,
    customers_records (rng w) = Ok c t /\ products_records t = Ok p (rng w') /\
    files w' = six_files c p (files w) /\
    Forall (float_within "price" (lit 999 2) (lit 99999 2))
           (p.1.1 ++ take 5 p.1.2 ++ take 4 p.2) /\
    Forall (float_within "price" (lit 799 2) (lit 129999 2)) (drop 5 p.1.2) /\
    Forall (float_within "price" (lit 899 2) (lit 119999 2)) (drop 4 p.2).
Proof.
  intros Hrun.
  destruct (main_history _ _ Hrun) as (c & p & t & Hc & Hp & Hf & _ & HP & _).
  exists c, p, t. split; [exact Hc|]. split; [exact Hp|]. split; [exact Hf|].
  destruct (products_origins p HP) as (O1 & O2).
  destruct HP as (H1 & H2 & _ & H4 & _).
  assert (Hbuilt : forall ids recs, Forall2 BuiltProduct ids recs ->
                     Forall (float_within "price" (lit 999 2) (lit 99999 2)) recs).
  { intros ids recs H. induction H as [|id rec ids recs Hb _ IH]; constructor; [|exact IH].
    apply built_product_price_range in Hb as (? & ? & price & ? & ? & ? & -> & Hb1 & Hb2).
    exists price. split; [reflexivity|]. split; assumption. }
  rewrite !Forall_app. repeat split; try (eapply Hbuilt; eassumption).
  - induction O1 as [|id new ids recs (old & _ & Hb & HR) _ IH]; constructor; [|exact IH].
    apply built_product_price_range in Hb as (? & ? & price & ? & ? & ? & -> & Hb1 & Hb2).
    apply repriced_record in HR as (f & s' & Hf1 & Hf2 & _ & ->).
    eexists. split; [reflexivity|].
    apply (rescaled_price_within (lit 8 1) (lit 13 1)); try assumption; qle.
  - induction O2 as [|id new ids recs (old & _ & Hb & HR) _ IH]; constructor; [|exact IH].
    apply built_product_price_range in Hb as (? & ? & price & ? & ? & ? & -> & Hb1 & Hb2).
    apply reflagged_record in HR as (f & s' & act' & Hf1 & Hf2 & _ & _ & ->).
    eexists. split; [reflexivity|].
    apply (rescaled_price_within (lit 9 1) (lit 12 1)); try assumption; qle.
Qed.

Lemma product_price_bounds_witness :
  exists c p t,
    customers_records (rng script_world) = Ok c t /\
    products_records t = Ok p (rng script_end) /\
    files script_end = six_files c p (files script_world) /\
    Forall (float_within "price" (lit 999 2) (lit 99999 2))
           (p.1.1 ++ take 5 p.1.2 ++ take 4 p.2) /\
    Forall (float_within "price" (lit 799 2) (lit 129999 2)) (drop 5 p.1.2) /\
    Forall (float_within "price" (lit 899 2) (lit 119999 2)) (drop 4 p.2).
Proof.
  apply (product_price_bounds script_world script_end). vm_compute. reflexivity.
Defined.

(** ** What a product mutation keeps *)

Lemma same_but_price_and_stock id name category price stock supplier is_active price' stock' :
  same_but ["price"; "stock_quantity"]%string
    (product_record id name category price stock supplier is_active)
    (product_record id name category price' stock' supplier is_active).
Proof.
  split; [reflexivity|]. intros key Hk. unfold product_record. cbn [od_get]. same_keys Hk.
Qed.

Lemma same_but_price_stock_and_flag id name category price stock supplier is_active
    price' stock' is_active' :
  same_but ["price"; "stock_quantity"; "is_active"]%string
    (product_record id name category price stock supplier is_active)
    (product_record id name category price' stock' supplier is_active').
Proof.
  split; [reflexivity|]. intros key Hk. unfold product_record. cbn [od_get]. same_keys Hk.
Qed.

(** X12. Each of the four rows the delta1 loop mutates (products 2, 8, 15,
    22) is the product's record of the initial file with two fields
    replaced: the stock quantity, and the price, now [round(old * f, 2)]
    for a factor f between 0.8 and 1.3.  Identifier, name, category,
    supplier and active flag are those of the initial file. *)
Theorem delta1_mutation_reprices_products (w w' : World) :
  main w = Ok tt w' ->
  exists c p t,
    customers_records (rng w) = Ok c t /\ products_records t = Ok p (rng w') /\
    files w' = six_files c p (files w) /\
    Forall2 (fun id new => exists old x factor,
               p.1.1 !! Z.to_nat (id - 1) = Some old /\
               od_get String.eqb old "product_id" = Some (VStr (product_id_text id)) /\
               same_but ["price"; "stock_quantity"]%string old new /\
               float_at "price" old x /\
               (lit 8 1 <= factor)%Q /\ (factor <= lit 13 1)%Q /\
               float_at "price" new (round_ndigits (fmul x factor) 2))
            [2; 8; 15; 22] (drop 5 p.1.2).
Proof.
  intros Hrun.
  destruct (main_history _ _ Hrun) as (c & p & t & Hc & Hp & Hf & _ & HP & _).
  exists c, p, t. split; [exact Hc|]. split; [exact Hp|]. split; [exact Hf|].
  destruct (products_origins p HP) as (O1 & _).
  eapply Forall2_impl; [exact O1|]. intros id new (old & Hold & Hb & HR).
  apply built_product_price_range in Hb as (? & ? & price & ? & ? & ? & -> & _ & _).
  apply repriced_record in HR as (f & s' & Hf1 & Hf2 & _ & ->).
  eexists _, price, f. split; [exact Hold|]. split; [reflexivity|].
  split; [apply same_but_price_and_stock|]. split; [reflexivity|].
  split; [exact Hf1|]. split; [exact Hf2 | reflexivity].
Qed.

Lemma delta1_mutation_reprices_products_witness :
  exists c p t,
    customers_records (rng script_world) = Ok c t /\
    products_records t = Ok p (rng script_end) /\
    files script_end = six_files c p (files script_world) /\
    Forall2 (fun id new => exists old x factor,
               p.1.1 !! Z.to_nat (id - 1) = Some old /\
               od_get String.eqb old "product_id" = Some (VStr (product_id_text id)) /\
               same_but ["price"; "stock_quantity"]%string old new /\
               float_at "price" old x /\
               (lit 8 1 <= factor)%Q /\ (factor <= lit 13 1)%Q /\
               float_at "price" new (round_ndigits (fmul x factor) 2))
            [2; 8; 15; 22] (drop 5 p.1.2).
Proof.
  apply (delta1_mutation_reprices_products script_world script_end). vm_compute. reflexivity.
Defined.

(** X13. Each of the six rows the delta2 loop mutates (products 1, 5, 12,
    26, 28, 30) is the product's record as first written (in the initial
    file for 1, 5, 12; in the delta1 file for 26, 28, 30) with three fields
    replaced: the stock quantity, the active flag, and the price, now
    [round(old * f, 2)] for a factor f between 0.9 and 1.2.  No product is
    repriced twice. *)
Theorem delta2_mutation_reprices_products (w w' : World) :
  main w = Ok tt w' ->
  exists c p t,
    customers_records (rng w) = Ok c t /\ products_records t = Ok p (rng w') /\
    files w' = six_files c p (files w) /\
    Forall2 (fun id new => exists old x factor,
               (p.1.1 ++ take 5 p.1.2) !! Z.to_nat (id - 1) = Some old /\
               od_get String.eqb old "product_id" = Some (VStr (product_id_text id)) /\
               same_but ["price"; "stock_quantity"; "is_active"]%string old new /\
               float_at "price" old x /\
               (lit 9 1 <= factor)%Q /\ (factor <= lit 12 1)%Q /\
               float_at "price" new (round_ndigits (fmul x factor) 2))
            [1; 5; 12; 26; 28; 30] (drop 4 p.2).
Proof.
  intros Hrun.
  destruct (main_history _ _ Hrun) as (c & p & t & Hc & Hp & Hf & _ & HP & _).
  exists c, p, t. split; [exact Hc|]. split; [exact Hp|]. split; [exact Hf|].
  destruct (products_origins p HP) as (_ & O2).
  eapply Forall2_impl; [exact O2|]. intros id new (old & Hold & Hb & HR).
  apply built_product_price_range in Hb as (? & ? & price & ? & ? & ? & -> & _ & _).
  apply reflagged_record in HR as (f & s' & act' & Hf1 & Hf2 & _ & _ & ->).
  eexists _, price, f. split; [exact Hold|]. split; [reflexivity|].
  split; [apply same_but_price_stock_and_flag|]. split; [reflexivity|].
  split; [exact Hf1|]. split; [exact Hf2 | reflexivity].
Qed.

Lemma delta2_mutation_reprices_products_witness :
  exists c p t,
    customers_records (rng script_world) = Ok c t /\
    products_records t = Ok p (rng script_end) /\
    files script_end = six_files c p (files script_world) /\
    Forall2 (fun id new => exists old x factor,
               (p.1.1 ++ take 5 p.1.2) !! Z.to_nat (id - 1) = Some old /\
               od_get String.eqb old "product_id" = Some (VStr (product_id_text id)) /\
               same_but ["price"; "stock_quantity"; "is_active"]%string old new /\
               float_at "price" old x /\
               (lit 9 1 <= factor)%Q /\ (factor <= lit 12 1)%Q /\
               float_at "price" new (round_ndigits (fmul x factor) 2))
            [1; 5; 12; 26; 28; 30] (drop 4 p.2).
Proof.
  apply (delta2_mutation_reprices_products script_world script_end). vm_compute. reflexivity.
Defined.

(** ** Cells that need no quoting *)

Lemma has_special_append a b :
  Csv.has_special (a +++ b) = Csv.has_special a || Csv.has_special b.
Proof.
  induction a as [|c a IH]; [reflexivity|].
  change (String c a +++ b) with (String c (a +++ b)). cbn [Csv.has_special].
  rewrite IH, orb_assoc. reflexivity.
Qed.

Lemma digit_char_plain d : 0 <= d < 10 -> Csv.special (digit_char d) = false.
Proof.
  intros H. assert (E : d = 0 \/ d = 1 \/ d = 2 \/ d = 3 \/ d = 4 \/ d = 5 \/ d = 6 \/ d = 7
                       \/ d = 8 \/ d = 9) by lia.
  repeat (destruct E as [-> | E]; [reflexivity|]). subst. reflexivity.
Qed.

Lemma digits_fuel_plain fuel : forall n acc,
  Csv.has_special acc = false -> Csv.has_special (digits_fuel fuel n acc) = false.
Proof.
  induction fuel as [|fuel IH]; intros n acc Hacc; [exact Hacc|].
  cbn [digits_fuel].
  assert (H : Csv.has_special (String (digit_char (n mod 10)) acc) = false).
  { cbn [Csv.has_special]. rewrite digit_char_plain by (apply Z.mod_pos_bound; lia).
    exact Hacc. }
  destruct (n <? 10); [exact H | apply IH, H].
Qed.

Lemma digits_plain n : Csv.has_special (digits n) = false.
Proof. apply digits_fuel_plain. reflexivity. Qed.

Lemma str_int_plain n : Csv.has_special (str_int n) = false.
Proof.
  unfold str_int. destruct (n <? 0); [|apply digits_plain].
  cbn [Csv.has_special]. rewrite digits_plain. reflexivity.
Qed.

Lemma zeros_plain n : Csv.has_special (zeros n) = false.
Proof. induction n as [|n IH]; [reflexivity|]. cbn [zeros Csv.has_special]. rewrite IH. reflexivity. Qed.

Lemma format_0d_plain width n : Csv.has_special (format_0d width n) = false.
Proof.
  unfold format_0d. destruct (n <? 0).
  - cbn [Csv.has_special]. rewrite has_special_append, zeros_plain, digits_plain. reflexivity.
  - rewrite has_special_append, zeros_plain, digits_plain. reflexivity.
Qed.

Lemma substring_plain s : forall a len,
  Csv.has_special s = false -> Csv.has_special (substring a len s) = false.
Proof.
  induction s as [|c s IH]; intros a len H.
  - destruct a, len; reflexivity.
  - cbn [Csv.has_special] in H. apply orb_false_iff in H as [Hc Hs].
    destruct a as [|a]; [destruct len as [|len]|]; cbn [substring]; [reflexivity | | apply IH, Hs].
    cbn [Csv.has_special]. rewrite Hc. apply IH, Hs.
Qed.

Ltac plain :=
  rewrite ?has_special_append, ?digits_plain, ?str_int_plain, ?zeros_plain, ?format_0d_plain;
  try reflexivity.

Lemma layout_plain c ex : Csv.has_special (Repr.layout c ex) = false.
Proof.
  unfold Repr.layout.
  assert (Hs : forall a len, Csv.has_special (substring a len (digits c)) = false)
    by (intros; apply substring_plain, digits_plain).
  assert (Hf : forall a, Csv.has_special (substr_from a (digits c)) = false)
    by (intros; apply Hs).
  repeat match goal with |- context [if ?b then _ else _] => destruct b end;
    rewrite ?has_special_append, ?Hs, ?Hf, ?digits_plain, ?zeros_plain, ?format_0d_plain;
    reflexivity.
Qed.

Lemma repr_plain x : Csv.has_special (Repr.repr x) = false.
Proof.
  unfold Repr.repr, Repr.repr_pos.
  destruct (Qcompare x 0); [reflexivity | |].
  - rewrite has_special_append.
    destruct (Repr.shortest (- x)) as [c0 ex0]. destruct (Repr.strip_zeros 18 c0 ex0) as [c ex].
    rewrite layout_plain. reflexivity.
  - destruct (Repr.shortest x) as [c0 ex0]. destruct (Repr.strip_zeros 18 c0 ex0) as [c ex].
    apply layout_plain.
Qed.

Lemma stamp_plain time minutes : Csv.has_special (stamp time minutes) = false.
Proof. unfold stamp, format_timestamp, strftime. plain. Qed.

Lemma pool_plain (pool : list string) s :
  forallb (fun s => negb (Csv.has_special s) && negb (Csv.has_special (lower s))) pool = true ->
  s ∈ pool -> Csv.has_special s = false /\ Csv.has_special (lower s) = false.
Proof.
  intros H Hs. rewrite forallb_forall in H.
  specialize (H s (proj1 (list_elem_of_In _ _) Hs)).
  apply andb_true_iff in H as [H1 H2]. apply negb_true_iff in H1, H2. auto.
Qed.

Lemma customer_cells_plain id rec :
  CustomerShape id rec -> Csv.has_special (cell 8 (cells rec)) = false ->
  length (cells rec) = 9%nat /\ Forall (fun c => Csv.has_special c = false) (cells rec).
Proof.
  intros (fn & ln & dom & a & e & l & city & state & credit & ts & H) Hts.
  destruct H as (Hfn & Hln & Hd & _ & _ & _ & Hc & Hs & ->).
  split; [reflexivity|].
  apply (pool_plain FIRST_NAMES) in Hfn as [F1 F2]; [|vm_compute; reflexivity].
  apply (pool_plain LAST_NAMES) in Hln as [L1 L2]; [|vm_compute; reflexivity].
  apply (pool_plain EMAIL_DOMAINS) in Hd as [D1 _]; [|vm_compute; reflexivity].
  apply (pool_plain CITIES) in Hc as [C1 _]; [|vm_compute; reflexivity].
  apply (pool_plain STATES) in Hs as [S1 _]; [|vm_compute; reflexivity].
  change (cells (customer_record id fn ln (email_text fn ln id dom) (phone_text a e l)
                   city state credit ts))
    with [str_int id; fn; ln; email_text fn ln id dom; phone_text a e l; city; state;
          Repr.repr credit; ts].
  change (Csv.has_special ts = false) in Hts.
  repeat constructor; try assumption.
  - apply str_int_plain.
  - unfold email_text. rewrite !has_special_append, F2, L2, D1, str_int_plain. reflexivity.
  - unfold phone_text. plain.
  - apply repr_plain.
Qed.

Lemma product_cells_plain id rec :
  ProductShape id rec ->
  length (cells rec) = 7%nat /\ Forall (fun c => Csv.has_special c = false) (cells rec).
Proof.
  intros (c & a & n & y & s & sup & act & H).
  destruct H as (Hc & Ha & Hn & _ & _ & Hact & ->).
  split; [reflexivity|].
  apply (pool_plain PRODUCT_CATEGORIES) in Hc as [C1 _]; [|vm_compute; reflexivity].
  apply (pool_plain PRODUCT_ADJECTIVES) in Ha as [A1 _]; [|vm_compute; reflexivity].
  apply (pool_plain PRODUCT_NOUNS) in Hn as [N1 _]; [|vm_compute; reflexivity].
  apply (pool_plain ["true"; "false"]%string) in Hact as [T1 _]; [|vm_compute; reflexivity].
  change (cells (product_record id (a +++ " " +++ n +++ " " +++ str_int id) c y s
                   ("SUP-" +++ format_0d 3 sup) act))
    with ["PROD-" +++ format_0d 4 id; a +++ " " +++ n +++ " " +++ str_int id; c;
          Repr.repr y; str_int s; "SUP-" +++ format_0d 3 sup; act].
  repeat constructor; try assumption.
  - plain.
  - rewrite !has_special_append, A1, N1, str_int_plain. reflexivity.
  - apply repr_plain.
  - apply str_int_plain.
  - plain.
Qed.

Lemma fields_plain row :
  Forall (fun c => Csv.has_special c = false) row -> map Csv.field row = row.
Proof.
  induction 1 as [|c row Hc _ IH]; [reflexivity|].
  simpl. unfold Csv.field at 1. rewrite Hc, IH. reflexivity.
Qed.

Lemma row_plain row :
  (2 <= length row)%nat -> Forall (fun c => Csv.has_special c = false) row ->
  Csv.row row = Csv.join row +++ Csv.CRLF.
Proof.
  intros Hlen Hall. rewrite <- (fields_plain row Hall) at 2.
  destruct row as [|a [|b rest]]; simpl in Hlen; [lia | lia |].
  destruct a; reflexivity.
Qed.

Lemma plain_rows {A} (S : A -> record -> Prop) (Q R : list string -> Prop) ids records :
  (forall id rec, S id rec -> Q (cells rec) -> R (cells rec)) ->
  Forall2 S ids records -> Forall Q (map cells records) -> Forall R (map cells records).
Proof.
  intros HR H. induction H as [|id rec ids recs Hs _ IH]; intros HQ; [constructor|].
  simpl in HQ. apply Forall_cons in HQ as [Hq HQ]. constructor; [|apply IH, HQ].
  apply (HR id rec Hs Hq).
Qed.

(** X17. No cell of the six files holds a comma, a quote or a line break:
    the writer quotes nothing, and every line, the header included, is its
    cells joined by commas and ended by CR LF, nine cells in a customer
    file and seven in a product file. *)
Theorem files_need_no_quoting (w w' : World) :
  main w = Ok tt w' ->
  exists c1 c2 c3 p1 p2 p3,
    customer_tables w' c1 c2 c3 /\ product_tables w' p1 p2 p3 /\
    Forall (fun row =>
              length row = 9%nat /\ Forall (fun c => Csv.has_special c = false) row /\
              Csv.row row = Csv.join row +++ Csv.CRLF)
           (CUSTOMER_COLUMNS :: c1 ++ c2 ++ c3) /\
    Forall (fun row =>
              length row = 7%nat /\ Forall (fun c => Csv.has_special c = false) row /\
              Csv.row row = Csv.join row +++ Csv.CRLF)
           (PRODUCT_COLUMNS :: p1 ++ p2 ++ p3).
Proof.
  intros Hrun. destruct (main_tables _ _ Hrun) as (c & p & Hc & Hp & Ht & Ht').
  exists (map cells c.1.1), (map cells c.1.2), (map cells c.2).
  exists (map cells p.1.1), (map cells p.1.2), (map cells p.2).
  split; [exact Ht|]. split; [exact Ht'|].
  destruct (customers_shapes c Hc) as (S1 & S2 & S3).
  destruct (customers_stamps c Hc) as (Q1 & Q2 & Q3).
  destruct (products_shapes p Hp) as (P1 & P2 & P3).
  assert (HC : forall id rec, CustomerShape id rec ->
            (exists time m, cell 8 (cells rec) = stamp time m) ->
            length (cells rec) = 9%nat /\
            Forall (fun c => Csv.has_special c = false) (cells rec) /\
            Csv.row (cells rec) = Csv.join (cells rec) +++ Csv.CRLF).
  { intros id rec Hs (time & m & Hts).
    destruct (customer_cells_plain id rec Hs) as [Hl Hall];
      [rewrite Hts; apply stamp_plain|].
    split; [exact Hl|]. split; [exact Hall|]. apply row_plain; [lia | exact Hall]. }
  assert (HP : forall id rec, ProductShape id rec ->
            length (cells rec) = 7%nat /\
            Forall (fun c => Csv.has_special c = false) (cells rec) /\
            Csv.row (cells rec) = Csv.join (cells rec) +++ Csv.CRLF).
  { intros id rec Hs. destruct (product_cells_plain id rec Hs) as [Hl Hall].
    split; [exact Hl|]. split; [exact Hall|]. apply row_plain; [lia | exact Hall]. }
  split.
  - constructor.
    + split; [reflexivity|]. split; [|reflexivity]. repeat constructor.
    + rewrite !Forall_app. repeat split.
      * eapply (plain_rows _ (fun row => exists time m, cell 8 row = stamp time m));
          [exact HC | exact S1|].
        eapply Forall_impl; [exact Q1|]. intros row (m & _ & Hm). eauto.
      * eapply (plain_rows _ (fun row => exists time m, cell 8 row = stamp time m));
          [exact HC | exact S2|].
        eapply Forall_impl; [exact Q2|]. intros row (m & _ & Hm). eauto.
      * eapply (plain_rows _ (fun row => exists time m, cell 8 row = stamp time m));
          [exact HC | exact S3|].
        eapply Forall_impl; [exact Q3|]. intros row (m & _ & Hm). eauto.
  - constructor.
    + split; [reflexivity|]. split; [|reflexivity]. repeat constructor.
    + rewrite !Forall_app. repeat split; eapply rows_of_shapes; eauto.
Qed.

Lemma files_need_no_quoting_witness :
  exists c1 c2 c3 p1 p2 p3,
    customer_tables script_end c1 c2 c3 /\ product_tables script_end p1 p2 p3 /\
    Forall (fun row =>
              length row = 9%nat /\ Forall (fun c => Csv.has_special c = false) row /\
              Csv.row row = Csv.join row +++ Csv.CRLF)
           (CUSTOMER_COLUMNS :: c1 ++ c2 ++ c3) /\
    Forall (fun row =>
              length row = 7%nat /\ Forall (fun c => Csv.has_special c = false) row /\
              Csv.row row = Csv.join row +++ Csv.CRLF)
           (PRODUCT_COLUMNS :: p1 ++ p2 ++ p3).
Proof.
  apply (files_need_no_quoting script_world script_end). vm_compute. reflexivity.
Defined.

(** ** The writer on records that differ in their keys *)

Lemma dict_to_list_within fieldnames (r : record) :
  od_keys r ⊆ fieldnames -> Csv.dict_to_list fieldnames r = Some (projected fieldnames r).
Proof.
  intros Hsub. unfold Csv.dict_to_list.
  assert (H : forallb (fun k => existsb (String.eqb k) fieldnames) (od_keys r) = true).
  { apply forallb_forall. intros k Hin. apply existsb_own, Hsub, list_elem_of_In, Hin. }
  rewrite H. reflexivity.
Qed.

Lemma dict_to_list_extra fieldnames (r : record) :
  ~ od_keys r ⊆ fieldnames -> Csv.dict_to_list fieldnames r = None.
Proof.
  intros Hsub. unfold Csv.dict_to_list.
  destruct (forallb (fun k => existsb (String.eqb k) fieldnames) (od_keys r)) eqn:E;
    [|reflexivity].
  exfalso. apply Hsub. intros k Hk. rewrite forallb_forall in E.
  specialize (E k (proj1 (list_elem_of_In _ _) Hk)).
  apply existsb_exists in E as (k' & Hin & Heq). apply String.eqb_eq in Heq. subst k'.
  apply list_elem_of_In, Hin.
Qed.

Lemma writerows_within fieldnames rows : forall out,
  Forall (fun r => od_keys r ⊆ fieldnames) rows ->
  Csv.writerows fieldnames rows out
  = (out +++ csv_lines (map (projected fieldnames) rows), true).
Proof.
  induction rows as [|r rows IH]; intros out Hall; simpl.
  - rewrite append_nil_r. reflexivity.
  - apply Forall_cons in Hall as [Hr Hall].
    rewrite (dict_to_list_within _ _ Hr), (IH _ Hall), append_assoc. reflexivity.
Qed.

Lemma writerows_stops fieldnames pre bad post : forall out,
  Forall (fun r => od_keys r ⊆ fieldnames) pre -> ~ od_keys bad ⊆ fieldnames ->
  Csv.writerows fieldnames (pre ++ bad :: post) out
  = (out +++ csv_lines (map (projected fieldnames) pre), false).
Proof.
  induction pre as [|r pre IH]; intros out Hall Hbad; simpl.
  - rewrite (dict_to_list_extra _ _ Hbad), append_nil_r. reflexivity.
  - apply Forall_cons in Hall as [Hr Hall].
    rewrite (dict_to_list_within _ _ Hr), (IH _ Hall Hbad), append_assoc. reflexivity.
Qed.

(** X16. [write_csv] takes its columns from the first record alone.  A
    later record may hold its keys in another order, or lack some: as long
    as it has no key the first record lacks, it is written in the column
    order of the first record, with an empty cell for each missing key,
    and no error is raised. *)
Theorem write_csv_fills_missing_keys (filepath : string) (first : record)
    (rest : list record) (w : World) :
  Forall (fun r => od_keys r ⊆ od_keys first) rest ->
  write_csv filepath (first :: rest) w
  = Ok tt (mk_world (rng w)
             (<[filepath := csv_lines (od_keys first
                                       :: map (projected (od_keys first)) (first :: rest))]>
                (files w))).
Proof.
  intros Hall. unfold write_csv.
  rewrite (writerows_within (od_keys first) (first :: rest))
    by (constructor; [intros k Hk; exact Hk | exact Hall]).
  reflexivity.
Qed.

Lemma write_csv_fills_missing_keys_witness :
  write_csv "out.csv"
    [[("id"%string, VInt 1); ("name"%string, VStr "a"); ("city"%string, VStr "Austin")];
     [("city"%string, VStr "Boston"); ("id"%string, VInt 2)]] script_world
  = Ok tt (mk_world (rng script_world)
             (<["out.csv"%string :=
                  csv_lines [["id"; "name"; "city"]; ["1"; "a"; "Austin"];
                             ["2"; EmptyString; "Boston"]]%string]>
                (files script_world))).
Proof.
  apply (write_csv_fills_missing_keys "out.csv"
           [("id"%string, VInt 1); ("name"%string, VStr "a"); ("city"%string, VStr "Austin")]
           [[("city"%string, VStr "Boston"); ("id"%string, VInt 2)]] script_world).
  constructor; [|constructor]. intros k Hk. simpl in *.
  repeat (apply elem_of_cons in Hk as [->|Hk]); [repeat constructor..|].
  apply elem_of_nil in Hk. contradiction.
Defined.

(** X15. A record with a key the first record lacks makes [write_csv]
    raise [ValueError], and not before the file is opened: the file then
    holds the header and the rows of the records that came before the
    offending one, and nothing of it or of those after. *)
Theorem write_csv_stops_at_unknown_key (filepath : string) (first : record)
    (pre : list record) (bad : record) (post : list record) (w : World) :
  Forall (fun r => od_keys r ⊆ od_keys first) pre ->
  ~ od_keys bad ⊆ od_keys first ->
  write_csv filepath (first :: pre ++ bad :: post) w
  = Raise ValueError
      (mk_world (rng w)
         (<[filepath := csv_lines (od_keys first
                                   :: map (projected (od_keys first)) (first :: pre))]>
            (files w))).
Proof.
  intros Hall Hbad. unfold write_csv.
  change (first :: pre ++ bad :: post) with ((first :: pre) ++ bad :: post).
  rewrite (writerows_stops (od_keys first) (first :: pre) bad post)
    by first [exact Hbad | constructor; [intros k Hk; exact Hk | exact Hall]].
  reflexivity.
Qed.

Lemma write_csv_stops_at_unknown_key_witness :
  write_csv "out.csv"
    [[("id"%string, VInt 1); ("name"%string, VStr "a")];
     [("id"%string, VInt 2); ("name"%string, VStr "b")];
     [("id"%string, VInt 3); ("email"%string, VStr "c@d")];
     [("id"%string, VInt 4); ("name"%string, VStr "e")]] script_world
  = Raise ValueError
      (mk_world (rng script_world)
         (<["out.csv"%string := csv_lines [["id"; "name"]; ["1"; "a"]; ["2"; "b"]]%string]>
            (files script_world))).
Proof.
  apply (write_csv_stops_at_unknown_key "out.csv"
           [("id"%string, VInt 1); ("name"%string, VStr "a")]
           [[("id"%string, VInt 2); ("name"%string, VStr "b")]]
           [("id"%string, VInt 3); ("email"%string, VStr "c@d")]
           [[("id"%string, VInt 4); ("name"%string, VStr "e")]] script_world).
  - constructor; [|constructor]. intros k Hk. exact Hk.
  - intros Hsub. specialize (Hsub "email"%string). simpl in Hsub.
    assert (Hin : "email"%string ∈ ["id"; "name"]%string) by (apply Hsub; repeat constructor).
    repeat (apply elem_of_cons in Hin as [Hin|Hin]; [discriminate|]).
    apply elem_of_nil in Hin. exact Hin.
Defined.

(** ** The regular files [main] writes *)

(** X14. Of regular files only: [files] maps the path of a regular file to
    its text, and the directories that the two generators create with
    [os.makedirs(..., exist_ok=True)] are no part of it.  A run that
    returns has opened for writing the six files of [output_paths] and no
    other: each of the six exists afterwards, and every other path holds
    the text it held before, or is no regular file as before. *)
Theorem main_writes_no_other_file (w w' : World) :
  main w = Ok tt w' ->
  Forall (fun path => is_Some (files w' !! path)) output_paths /\
  forall path, path ∉ output_paths -> files w' !! path = files w !! path.
Proof.
  intros Hrun. destruct (main_returns _ _ Hrun) as (c & p & t & _ & _ & _ & _ & ->).
  split.
  - destruct (six_files_lookup c p (files w)) as (F1 & F2 & F3 & F4 & F5 & F6).
    unfold output_paths. repeat constructor; eexists; eassumption.
  - intros path Hp. unfold six_files.
    rewrite !lookup_insert_ne; [reflexivity|..];
      intros <-; apply Hp; unfold output_paths; repeat constructor.
Qed.

Lemma main_writes_no_other_file_witness :
  Forall (fun path => is_Some (files script_end !! path)) output_paths /\
  forall path, path ∉ output_paths -> files script_end !! path = files script_world !! path.
Proof.
  apply (main_writes_no_other_file script_world script_end). vm_compute. reflexivity.
Defined.

(** ** The rescaled credit limit *)

Lemma round2_error y :
  (2 <= y)%Q -> (y <= 1000000)%Q ->
  (y - (6 # 1000) <= round_ndigits y 2)%Q /\ (round_ndigits y 2 <= y + (6 # 1000))%Q.
Proof.
  intros H1 H2. unfold round_ndigits. change (pow10 2) with (100 # 1)%Q.
  pose proof (rne_bounds (y * (100 # 1))) as [B1 B2].
  set (k := inject_Z (rne (y * (100 # 1)))) in *. clearbody k.
  assert (W1 : (y - (1 # 200) <= k / (100 # 1))%Q).
  { apply Qle_shift_div_l; [reflexivity|]. lra. }
  assert (W2 : (k / (100 # 1) <= y + (1 # 200))%Q).
  { apply Qle_shift_div_r; [reflexivity|]. lra. }
  destruct (rnd53_error (k / (100 # 1))) as [E1 E2]; [lra | lra |].
  split; lra.
Qed.

Lemma rescaled_credit_raised x :
  (1000 <= x)%Q -> (x <= 50000)%Q ->
  (x < round_ndigits (fmul x (lit 12 1)) 2)%Q /\
  (x * (119 # 100) <= round_ndigits (fmul x (lit 12 1)) 2)%Q /\
  (round_ndigits (fmul x (lit 12 1)) 2 <= x * (121 # 100))%Q.
Proof.
  intros H1 H2.
  assert (C1 : (1199 # 1000 <= lit 12 1)%Q) by qle.
  assert (C2 : (lit 12 1 <= 12 # 10)%Q) by qle.
  set (c := lit 12 1) in *. clearbody c.
  destruct (rnd53_error (x * c)) as [E1 E2]; [nra | nra |].
  change (rnd53 (x * c)) with (fmul x c) in E1, E2.
  destruct (round2_error (fmul x c)) as [R1 R2]; [nra | nra |].
  repeat split; nra.
Qed.

(** X18. The delta1 mutation raises the credit limit: for each of the
    customers 3, 7 and 15 the limit written to the delta1 file is strictly
    above the one in the initial file, between 1.19 and 1.21 times it. *)
Theorem delta1_mutation_raises_credit (w w' : World) :
  main w = Ok tt w' ->
  exists c p t,
    customers_records (rng w) = Ok c t /\ products_records t = Ok p (rng w') /\
    files w' = six_files c p (files w) /\
    Forall2 (fun id new => exists old x x',
               c.1.1 !! Z.to_nat (id - 1) = Some old /\
               float_at "credit_limit" old x /\ float_at "credit_limit" new x' /\
               (x < x')%Q /\ (x * (119 # 100) <= x')%Q /\ (x' <= x * (121 # 100))%Q)
            [3; 7; 15] (drop 5 c.1.2).
Proof.
  intros Hrun.
  destruct (main_history _ _ Hrun) as (c & p & t & Hc & Hp & Hf & HC & _).
  exists c, p, t. split; [exact Hc|]. split; [exact Hp|]. split; [exact Hf|].
  destruct (customers_origins c HC) as (O1 & _).
  eapply Forall2_impl; [exact O1|]. intros id new (old & Hold & Hb & HR).
  destruct Hb as (fn & ln & dom & a & e & l & idx & city & state & y & m & H).
  destruct H as (_ & _ & _ & _ & _ & _ & _ & _ & Hy1 & Hy2 & _ & ->).
  apply rescaled_record in HR as (m' & _ & ->).
  assert (Hx : (1000 <= round_ndigits y 2)%Q /\ (round_ndigits y 2 <= 50000)%Q)
    by (apply fresh_credit_bounds; exists y; auto).
  destruct Hx as [Hx1 Hx2].
  eexists _, (round_ndigits y 2), _. split; [exact Hold|].
  split; [reflexivity|]. split; [reflexivity|].
  apply rescaled_credit_raised; assumption.
Qed.

Lemma delta1_mutation_raises_credit_witness :
  exists c p t,
    customers_records (rng script_world) = Ok c t /\
    products_records t = Ok p (rng script_end) /\
    files script_end = six_files c p (files script_world) /\
    Forall2 (fun id new => exists old x x',
               c.1.1 !! Z.to_nat (id - 1) = Some old /\
               float_at "credit_limit" old x /\ float_at "credit_limit" new x' /\
               (x < x')%Q /\ (x * (119 # 100) <= x')%Q /\ (x' <= x * (121 # 100))%Q)
            [3; 7; 15] (drop 5 c.1.2).
Proof.
  apply (delta1_mutation_raises_credit script_world script_end). vm_compute. reflexivity.
Defined.

(** ** The digits [repr] writes *)

Lemma digits_fuel_step fuel n acc :
  digits_fuel (S fuel) n acc
  = if n <? 10 then String (digit_char (n mod 10)) acc
    else digits_fuel fuel (n / 10) (String (digit_char (n mod 10)) acc).
Proof. reflexivity. Qed.

Lemma digits_fuel_acc fuel : forall n acc,
  digits_fuel fuel n acc = digits_fuel fuel n EmptyString +++ acc.
Proof.
  induction fuel as [|fuel IH]; intros n acc; [reflexivity|].
  rewrite !digits_fuel_step. destruct (n <? 10); [reflexivity|].
  rewrite (IH _ (String _ acc)), (IH _ (String _ EmptyString)).
  rewrite append_assoc. reflexivity.
Qed.

(** any fuel beyond the number of digits gives the same text *)
Lemma digits_fuel_enough g : forall g' n acc,
  0 <= n < 10 ^ Z.of_nat (S g) -> n < 10 ^ Z.of_nat (S g') ->
  digits_fuel (S g) n acc = digits_fuel (S g') n acc.
Proof.
  induction g as [|g IH]; intros g' n acc Hn Hn'; rewrite !digits_fuel_step;
    destruct (Z.ltb_spec n 10) as [H|H]; try reflexivity.
  - change (10 ^ Z.of_nat 1) with 10 in Hn. lia.
  - destruct g' as [|g']; [change (10 ^ Z.of_nat 1) with 10 in Hn'; lia|].
    rewrite Nat2Z.inj_succ, Z.pow_succ_r in Hn, Hn' by lia.
    apply IH.
    + split; [apply Z.div_pos; lia|]. apply Z.div_lt_upper_bound; lia.
    + apply Z.div_lt_upper_bound; lia.
Qed.

Lemma below_pow10_of_log2 n : 0 <= n -> n < 10 ^ Z.of_nat (S (Z.to_nat (Z.log2 n))).
Proof.
  intros Hn. rewrite Nat2Z.inj_succ, Z2Nat.id by apply Z.log2_nonneg.
  destruct (Z.eq_dec n 0) as [->|H0]; [reflexivity|].
  destruct (Z.log2_spec n ltac:(lia)) as [_ H].
  eapply Z.lt_le_trans; [exact H|].
  apply Z.pow_le_mono_l. lia.
Qed.

Lemma digits_snoc n :
  10 <= n -> digits n = digits (n / 10) +++ String (digit_char (n mod 10)) EmptyString.
Proof.
  intros Hn. unfold digits.
  rewrite digits_fuel_step. replace (n <? 10) with false by (symmetry; apply Z.ltb_ge; lia).
  rewrite digits_fuel_acc. f_equal.
  assert (HL : 3 <= Z.log2 n) by (apply Z.log2_le_pow2; simpl; lia).
  destruct (Z.to_nat (Z.log2 n)) as [|g] eqn:EL; [lia|].
  assert (Eg : Z.of_nat (S g) = Z.log2 n) by lia.
  apply digits_fuel_enough.
  - split; [apply Z.div_pos; lia|]. rewrite Eg.
    destruct (Z.log2_spec n ltac:(lia)) as [_ H]. rewrite Z.pow_succ_r in H by lia.
    assert (2 ^ Z.log2 n <= 10 ^ Z.log2 n) by (apply Z.pow_le_mono_l; lia).
    apply Z.div_lt_upper_bound; lia.
  - apply below_pow10_of_log2. apply Z.div_pos; lia.
Qed.

Lemma digits_digit d : 0 <= d < 10 -> digits d = String (digit_char d) EmptyString.
Proof.
  intros H. unfold digits. rewrite digits_fuel_step, Z.mod_small by lia.
  replace (d <? 10) with true by (symmetry; apply Z.ltb_lt; lia). reflexivity.
Qed.

Lemma digits_times10 n : 1 <= n -> digits (10 * n) = digits n +++ "0".
Proof.
  intros H. rewrite digits_snoc by lia.
  replace (10 * n / 10) with n by (rewrite Z.mul_comm, Z.div_mul; lia).
  replace (10 * n mod 10) with 0 by (rewrite Z.mul_comm, Z.mod_mul; lia).
  reflexivity.
Qed.

Lemma digits_pow10 m : forall n,
  1 <= n -> digits (n * 10 ^ Z.of_nat m) = digits n +++ zeros m.
Proof.
  induction m as [|m IH]; intros n Hn.
  - change (10 ^ Z.of_nat 0) with 1. rewrite Z.mul_1_r, append_nil_r. reflexivity.
  - rewrite Nat2Z.inj_succ, Z.pow_succ_r by lia.
    replace (n * (10 * 10 ^ Z.of_nat m)) with (10 * n * 10 ^ Z.of_nat m) by ring.
    rewrite IH, digits_times10, append_assoc by lia. reflexivity.
Qed.

Lemma substring_append_l a b : substring 0 (String.length a) (a +++ b) = a.
Proof.
  induction a as [|c a IH].
  - destruct b; reflexivity.
  - change (String c a +++ b) with (String c (a +++ b)).
    cbn [String.length substring]. rewrite IH. reflexivity.
Qed.

Lemma substring_whole b : substring 0 (String.length b) b = b.
Proof.
  induction b as [|c b IH]; [reflexivity|]. cbn [String.length substring]. rewrite IH. reflexivity.
Qed.

Lemma substring_append_r a b : substring (String.length a) (String.length b) (a +++ b) = b.
Proof.
  induction a as [|c a IH]; [apply substring_whole|].
  change (String c a +++ b) with (String c (a +++ b)). cbn [String.length substring]. exact IH.
Qed.

(** ** The layout of a decimal of a few digits *)

Lemma layout_fraction c ex a b :
  digits c = a +++ b -> ex = - Z.of_nat (String.length b) ->
  (1 <= String.length a <= 16)%nat -> (1 <= String.length b)%nat ->
  layout c ex = a +++ "." +++ b.
Proof.
  intros Hd -> Ha Hb. unfold layout. rewrite Hd, length_append.
  set (la := String.length a) in *. set (lb := String.length b) in *.
  replace (Z.of_nat (la + lb) + - Z.of_nat lb) with (Z.of_nat la) by lia.
  replace (Z.of_nat la <=? -4) with false by (symmetry; apply Z.leb_gt; lia).
  replace (16 <? Z.of_nat la) with false by (symmetry; apply Z.ltb_ge; lia).
  cbn [orb].
  replace (Z.of_nat la <=? 0) with false by (symmetry; apply Z.leb_gt; lia).
  replace (Z.of_nat (la + lb) <=? Z.of_nat la) with false by (symmetry; apply Z.leb_gt; lia).
  rewrite Nat2Z.id. unfold substr_from. rewrite length_append. fold la. fold lb.
  replace (la + lb - la)%nat with lb by lia.
  unfold la at 1. rewrite substring_append_l.
  unfold la, lb. rewrite substring_append_r. reflexivity.
Qed.

Lemma layout_integer c ex :
  0 <= ex -> (1 <= String.length (digits c))%nat ->
  Z.of_nat (String.length (digits c)) + ex <= 16 ->
  layout c ex = digits c +++ zeros (Z.to_nat ex) +++ ".0".
Proof.
  intros Hex Hl Hb. unfold layout.
  set (nd := Z.of_nat (String.length (digits c))) in *.
  replace (nd + ex <=? -4) with false by (symmetry; apply Z.leb_gt; lia).
  replace (16 <? nd + ex) with false by (symmetry; apply Z.ltb_ge; lia).
  cbn [orb].
  replace (nd + ex <=? 0) with false by (symmetry; apply Z.leb_gt; lia).
  replace (nd <=? nd + ex) with true by (symmetry; apply Z.leb_le; lia).
  replace (nd + ex - nd) with ex by lia. reflexivity.
Qed.

Lemma strip_zeros_done fuel : forall c ex,
  1 <= c < 10 ^ Z.of_nat fuel -> (strip_zeros fuel c ex).1 mod 10 <> 0.
Proof.
  induction fuel as [|fuel IH]; intros c ex Hc.
  - change (10 ^ Z.of_nat 0) with 1 in Hc. lia.
  - cbn [strip_zeros].
    destruct (Z.eqb_spec (c mod 10) 0) as [Hm|Hm]; cbn [andb]; [|exact Hm].
    destruct (Z.eqb_spec c 0) as [H0|H0]; cbn [negb]; [lia|].
    apply IH. rewrite Nat2Z.inj_succ, Z.pow_succ_r in Hc by lia.
    assert (Hdiv : c = 10 * (c / 10)) by (pose proof (Z.div_mod c 10); lia).
    lia.
Qed.

(** ** The text of a number of hundredths *)

Lemma str_int_nonneg n : 0 <= n -> str_int n = digits n.
Proof.
  intros H. unfold str_int.
  replace (n <? 0) with false by (symmetry; apply Z.ltb_ge; lia). reflexivity.
Qed.

Lemma money_text_after_point k :
  0 <= k -> after_point (money_text k) = Some (if k mod 10 =? 0 then 1%nat else 2%nat).
Proof.
  intros Hk. unfold money_text.
  rewrite str_int_nonneg by (apply Z.div_pos; lia).
  rewrite after_point_no_dot by apply digits_no_dot.
  destruct (k mod 10 =? 0); reflexivity.
Qed.

(** [layout] on a decimal [c * 10^ex] of [q] hundredths whose last digit is
    not zero *)
Lemma layout_money c ex q :
  1 <= c -> c mod 10 <> 0 -> -2 <= ex -> q = c * 10 ^ (ex + 2) -> 100 <= q < 10 ^ 9 ->
  layout c ex = money_text q.
Proof.
  intros Hc Hm Hex Hq Hb. unfold money_text.
  assert (Hq0 : 0 <= q / 100) by (apply Z.div_pos; lia).
  rewrite (str_int_nonneg _ Hq0).
  assert (Hlen : (1 <= String.length (digits (q / 100)) <= 9)%nat).
  { apply digits_length_small. split; [|apply Z.div_lt_upper_bound; lia].
    apply Z.div_le_lower_bound; lia. }
  assert (Hcase : ex = -2 \/ ex = -1 \/ 0 <= ex) by lia.
  destruct Hcase as [-> | [-> | Hnn]].
  - change (10 ^ (-2 + 2)) with 1 in Hq. rewrite Z.mul_1_r in Hq. subst c.
    replace (q mod 10 =? 0) with false by (symmetry; apply Z.eqb_neq; exact Hm).
    apply layout_fraction; [| reflexivity | lia | cbn; lia].
    rewrite (digits_snoc q) by lia. rewrite (digits_snoc (q / 10)).
    + rewrite Z.div_div by lia. change (10 * 10) with 100. rewrite append_assoc. reflexivity.
    + apply Z.div_le_lower_bound; lia.
  - change (10 ^ (-1 + 2)) with 10 in Hq.
    assert (E1 : q / 100 = c / 10).
    { subst q. change 100 with (10 * 10). rewrite <- Z.div_div, Z.div_mul by lia. reflexivity. }
    assert (E2 : q / 10 mod 10 = c mod 10) by (subst q; rewrite Z.div_mul by lia; reflexivity).
    assert (E3 : q mod 10 = 0) by (subst q; apply Z.mod_mul; lia).
    rewrite E2, E3. change (0 =? 0) with true. cbn match.
    rewrite E1 in *.
    apply layout_fraction; [| reflexivity | lia | cbn; lia].
    apply digits_snoc. lia.
  - assert (Hp : q = c * 10 ^ ex * 100).
    { rewrite Hq, Z.pow_add_r by lia. change (10 ^ 2) with 100. ring. }
    assert (E1 : q / 100 = c * 10 ^ ex) by (rewrite Hp, Z.div_mul; lia).
    assert (E2 : q / 10 mod 10 = 0).
    { rewrite Hp. replace (c * 10 ^ ex * 100) with (c * 10 ^ ex * 10 * 10) by ring.
      rewrite Z.div_mul by lia. apply Z.mod_mul. lia. }
    assert (E3 : q mod 10 = 0).
    { rewrite Hp. replace (c * 10 ^ ex * 100) with (c * 10 ^ ex * 10 * 10) by ring.
      apply Z.mod_mul. lia. }
    rewrite E2, E3. change (0 =? 0) with true. cbn match.
    rewrite E1 in *.
    assert (Ed : digits (c * 10 ^ ex) = digits c +++ zeros (Z.to_nat ex)).
    { rewrite <- (Z2Nat.id ex) at 1 by lia. apply digits_pow10. exact Hc. }
    rewrite Ed in *. rewrite length_append, length_zeros in Hlen.
    rewrite layout_integer; [| lia | | lia].
    + rewrite append_assoc. reflexivity.
    + assert (1 <= String.length (digits c))%nat; [|lia].
      apply digits_length_small. split; [lia|].
      assert (1 <= 10 ^ (ex + 2)) by (apply Z.pow_le_mono_r with (b := 0) (a := 10); lia).
      nia.
Qed.

(** ** The shortest decimal of a float of hundredths *)

(** Two numbers of hundredths that read back as the same float are the
    same: floats of this size are far closer to their decimals than a
    hundredth. *)
Lemma hundredths_read_back q q' :
  101 <= q <= 100000000 ->
  (rnd53 (inject_Z q' / 100) == rnd53 (inject_Z q / 100))%Q -> q' = q.
Proof.
  intros [Q1 Q2] Hrt.
  assert (A1 : (101 <= inject_Z q)%Q) by (rewrite Zle_Qle in Q1; exact Q1).
  assert (A2 : (inject_Z q <= 100000000)%Q) by (rewrite Zle_Qle in Q2; exact Q2).
  assert (Em : (inject_Z (q - 1) == inject_Z q - 1)%Q).
  { unfold Z.sub. rewrite inject_Z_plus. reflexivity. }
  assert (Ep : (inject_Z (q + 1) == inject_Z q + 1)%Q).
  { rewrite inject_Z_plus. reflexivity. }
  unfold Qdiv in *. change (/ 100)%Q with (1 # 100)%Q in *.
  destruct (rnd53_error (inject_Z q * (1 # 100))) as [E1 E2]; [lra | lra |].
  destruct (Z.lt_trichotomy q' q) as [Hlt | [Heq | Hgt]]; [exfalso | exact Heq | exfalso].
  - assert (Hle : (inject_Z q' <= inject_Z (q - 1))%Q) by (rewrite <- Zle_Qle; lia).
    destruct (rnd53_error (inject_Z (q - 1) * (1 # 100))) as [_ F2]; [lra | lra |].
    assert (Hm : (rnd53 (inject_Z q' * (1 # 100)) <= rnd53 (inject_Z (q - 1) * (1 # 100)))%Q)
      by (apply rnd53_mono; lra).
    set (a := inject_Z q) in *. set (r := rnd53 (a * (1 # 100))) in *.
    set (r' := rnd53 (inject_Z q' * (1 # 100))) in *.
    set (rm := rnd53 (inject_Z (q - 1) * (1 # 100))) in *.
    set (am := inject_Z (q - 1)) in *.
    clearbody a r r' rm am. lra.
  - assert (Hle : (inject_Z (q + 1) <= inject_Z q')%Q) by (rewrite <- Zle_Qle; lia).
    destruct (rnd53_error (inject_Z (q + 1) * (1 # 100))) as [F1 _]; [lra | lra |].
    assert (Hm : (rnd53 (inject_Z (q + 1) * (1 # 100)) <= rnd53 (inject_Z q' * (1 # 100)))%Q)
      by (apply rnd53_mono; lra).
    set (a := inject_Z q) in *. set (r := rnd53 (a * (1 # 100))) in *.
    set (r' := rnd53 (inject_Z q' * (1 # 100))) in *.
    set (rp := rnd53 (inject_Z (q + 1) * (1 # 100))) in *.
    set (ap := inject_Z (q + 1)) in *.
    clearbody a r r' rp ap. lra.
Qed.

(** A float [round(y, 2)] between 2 and a million is the float nearest to
    [k / 100] for the whole number [k = rne (y * 100)], and [repr] writes
    it as [money_text k]: the shortest decimal that reads back is [k / 100]
    itself, trailing zeros dropped. *)
Theorem repr_money y :
  (2 <= y)%Q -> (y <= 1000000)%Q ->
  exists k, 100 <= k /\
    round_ndigits y 2 = rnd53 (inject_Z k / 100) /\
    repr (round_ndigits y 2) = money_text k.
Proof.
  intros Hy1 Hy2. unfold round_ndigits.
  change (pow10 2) with 100%Q.
  set (q := rne (y * 100)).
  assert (Hq : 200 <= q <= 100000000).
  { unfold q. split.
    - apply Z.le_trans with (rne (inject_Z 200)); [rewrite rne_inject; lia|].
      apply rne_mono. change (inject_Z 200) with 200%Q. lra.
    - apply Z.le_trans with (rne (inject_Z 100000000)); [|rewrite rne_inject; lia].
      apply rne_mono. change (inject_Z 100000000) with 100000000%Q. lra. }
  exists q. split; [lia|]. split; [reflexivity|].
  set (x := (inject_Z q / 100)%Q).
  assert (Hx : (2 <= x)%Q /\ (x <= 1000000)%Q).
  { unfold x. destruct Hq as [Q1 Q2]. rewrite Zle_Qle in Q1, Q2.
    change (inject_Z 200) with 200%Q in Q1. change (inject_Z 100000000) with 100000000%Q in Q2.
    split; [apply Qle_shift_div_l | apply Qle_shift_div_r]; lra. }
  destruct Hx as [Hx1 Hx2].
  set (v := rnd53 x).
  assert (Hv1 : (1 <= v)%Q) by (change 1%Q with (rnd53 1); apply rnd53_mono; lra).
  assert (Hv2 : (v <= 1000000)%Q) by (change 1000000%Q with (rnd53 1000000); apply rnd53_mono, Hx2).
  destruct (ilog10_spec v Hv1) as [K1 K2].
  set (k := ilog10 v) in *.
  assert (Hk : 0 <= k <= 6).
  { split.
    - assert (0 < k + 1); [|lia]. apply pow10_lt_inv. change (pow10 0) with 1%Q. lra.
    - assert (k < 7); [|lia]. apply pow10_lt_inv.
      assert (1000000 < pow10 7)%Q by reflexivity. lra. }
  (* the candidate with two places reads back *)
  assert (Hfound : candidate v (k + 3) <> None).
  { destruct (rnd53_error x ltac:(lra) ltac:(lra)) as [E1 E2]. fold v in E1, E2.
    apply candidate_found. fold k. replace (k + 1 - (k + 3)) with (-2) by lia.
    assert (Es : (v / pow10 (-2) == v * 100)%Q).
    { change (pow10 (-2)) with (1 # 100)%Q. field. }
    assert (Ex : (x * 100 == inject_Z q)%Q) by (unfold x; field).
    pose proof (floor_bounds (v / pow10 (-2))) as [F1 F2].
    set (lo := Qfloor (v / pow10 (-2))) in *.
    assert (Hlo : lo = q \/ lo = q - 1).
    { assert (A1 : (inject_Z (q - 2) < inject_Z lo)%Q).
      { unfold Z.sub. rewrite inject_Z_plus. change (inject_Z (- (2))) with (- 2)%Q. lra. }
      assert (A2 : (inject_Z lo < inject_Z (q + 1))%Q).
      { rewrite inject_Z_plus. change (inject_Z 1) with 1%Q. lra. }
      rewrite <- Zlt_Qlt in A1, A2. lia. }
    destruct Hlo as [-> | ->]; [left | right].
    - assert (Ed : (inject_Z q * pow10 (-2) == x)%Q).
      { unfold x. change (pow10 (-2)) with (1 # 100)%Q. field. }
      rewrite (rnd53_comp _ _ Ed). reflexivity.
    - assert (Ed : (inject_Z (q - 1 + 1) * pow10 (-2) == x)%Q).
      { replace (q - 1 + 1) with q by lia. unfold x. change (pow10 (-2)) with (1 # 100)%Q. field. }
      rewrite (rnd53_comp _ _ Ed). reflexivity. }
  destruct (shortest_from_found v (k + 3) 17 1 ltac:(lia) Hfound) as (n0 & Hn0 & Hcand).
  fold (shortest v) in Hcand.
  destruct (shortest v) as [c ex] eqn:Esh.
  apply candidate_Some in Hcand as (Hex & Hrt & Hc). fold k in Hex.
  assert (Hexb : -2 <= ex <= k) by lia.
  (* the shortest decimal is q hundredths *)
  assert (Hcq : c * 10 ^ (ex + 2) = q).
  { apply hundredths_read_back; [lia|]. fold x. fold v. rewrite <- Hrt.
    assert (Ed : (inject_Z (c * 10 ^ (ex + 2)) / 100 == inject_Z c * pow10 ex)%Q).
    { rewrite inject_Z_mult, pow10_inject by lia. rewrite pow10_plus.
      change (pow10 2) with 100%Q. field. }
    rewrite (rnd53_comp _ _ Ed). reflexivity. }
  assert (Hp : 1 <= 10 ^ (ex + 2)) by (apply Z.pow_le_mono_r with (b := 0) (a := 10); lia).
  assert (Hc1 : 1 <= c <= q).
  { clear - Hcq Hp Hq. set (p := 10 ^ (ex + 2)) in *. clearbody p q. nia. }
  (* stripping and laying out *)
  assert (Hpos : (0 < v)%Q) by lra.
  unfold repr. apply Qgt_alt in Hpos. rewrite Hpos. unfold repr_pos. rewrite Esh.
  destruct (strip_zeros_spec 18 c ex ltac:(lia)) as (S1 & S2 & S3).
  assert (S4 : (strip_zeros 18 c ex).1 mod 10 <> 0).
  { apply strip_zeros_done. change (10 ^ Z.of_nat 18) with 1000000000000000000. lia. }
  destruct (strip_zeros 18 c ex) as [c' ex'] eqn:Est. cbn [fst snd] in S1, S2, S3, S4.
  apply layout_money; [exact S1 | exact S4 | lia | | change (10 ^ 9) with 1000000000; lia].
  rewrite <- Hcq. rewrite S3 at 1.
  replace (ex' + 2) with ((ex' - ex) + (ex + 2)) by lia.
  rewrite (Z.pow_add_r 10 (ex' - ex) (ex + 2)) by lia. ring.
Qed.

(** ** The money columns of the six files *)

Lemma R2_money lo hi x :
  (2 <= lo)%Q -> (hi <= 1000000)%Q -> R2 lo hi x ->
  exists k, 100 <= k /\ x = rnd53 (inject_Z k / 100) /\ repr x = money_text k.
Proof.
  intros Hlo Hhi (y & H1 & H2 & ->). apply repr_money; lra.
Qed.

Lemma credit_range_money S id x :
  credit_range S id x ->
  exists k, 100 <= k /\ x = rnd53 (inject_Z k / 100) /\ repr x = money_text k.
Proof.
  unfold credit_range. destruct (bool_decide (id ∈ S)); apply R2_money; qle.
Qed.

Lemma price_range_money S id x :
  price_range S id x ->
  exists k, 100 <= k /\ x = rnd53 (inject_Z k / 100) /\ repr x = money_text k.
Proof.
  unfold price_range. destruct (bool_decide (id ∈ S)); apply R2_money; qle.
Qed.

Lemma customers_money_cells S ids records :
  Forall2 (CustomerAt S) ids records -> Forall (money_cell "credit_limit" 7) records.
Proof.
  induction 1 as [|id rec ids recs H _ IH]; constructor; [|exact IH].
  destruct H as (? & ? & ? & ? & ? & ? & credit & ? & -> & HC).
  destruct (credit_range_money _ _ _ HC) as (k & Hk & Hx & Ht).
  exists k. split; [exact Hk|]. split; [rewrite <- Hx; reflexivity|].
  change (cell 7 (cells (customer_record _ _ _ _ _ _ _ credit _))) with (repr credit).
  rewrite Ht. split; [reflexivity|]. apply money_text_after_point. lia.
Qed.

Lemma products_money_cells S ids records :
  Forall2 (ProductAt S) ids records -> Forall (money_cell "price" 3) records.
Proof.
  induction 1 as [|id rec ids recs H _ IH]; constructor; [|exact IH].
  destruct H as (? & ? & price & ? & ? & ? & -> & HC).
  destruct (price_range_money _ _ _ HC) as (k & Hk & Hx & Ht).
  exists k. split; [exact Hk|]. split; [rewrite <- Hx; reflexivity|].
  change (cell 3 (cells (product_record _ _ _ price _ _ _))) with (repr price).
  rewrite Ht. split; [reflexivity|]. apply money_text_after_point. lia.
Qed.

(** C7, as the code has it.  Every credit_limit and price of the six files
    is the float nearest to [k / 100] for a whole number [k] of hundredths,
    and its cell is the shortest decimal that reads back as that float: the
    integer part of [k / 100], a point, the tenths digit, and the hundredths
    digit only when it is not zero.  So the cell has exactly two digits
    after the decimal point when the hundredths digit of [k] is not zero,
    and exactly one when it is zero: no cell ends in a padding zero. *)
Theorem money_cells_keep_no_trailing_zero (w w' : World) :
  main w = Ok tt w' ->
  exists c p t,
    customers_records (rng w) = Ok c t /\ products_records t = Ok p (rng w') /\
    customer_tables w' (map cells c.1.1) (map cells c.1.2) (map cells c.2) /\
    product_tables w' (map cells p.1.1) (map cells p.1.2) (map cells p.2) /\
    nth 7 CUSTOMER_COLUMNS EmptyString = "credit_limit"%string /\
    nth 3 PRODUCT_COLUMNS EmptyString = "price"%string /\
    Forall (money_cell "credit_limit" 7) (c.1.1 ++ c.1.2 ++ c.2) /\
    Forall (money_cell "price" 3) (p.1.1 ++ p.1.2 ++ p.2).
Proof.
  intros Hrun.
  destruct (main_history _ _ Hrun) as (c & p & t & Hc & Hp & Hf & _ & _ & HC & HP).
  exists c, p, t. split; [exact Hc|]. split; [exact Hp|].
  destruct HC as (C1 & C2 & C3). destruct HP as (P1 & P2 & P3).
  destruct (six_files_lookup c p (files w)) as (F1 & F2 & F3 & F4 & F5 & F6).
  unfold customer_tables, product_tables.
  rewrite Hf, F1, F2, F3, F4, F5, F6.
  rewrite (customers_csv_text _ _ _ _ C1), (customers_csv_text _ _ _ _ C2),
    (customers_csv_text _ _ _ _ C3), (products_csv_text _ _ _ _ P1),
    (products_csv_text _ _ _ _ P2), (products_csv_text _ _ _ _ P3).
  split; [repeat split; reflexivity|]. split; [repeat split; reflexivity|].
  split; [reflexivity|]. split; [reflexivity|].
  rewrite !Forall_app.
  repeat split;
    first [eapply customers_money_cells; eassumption
          | eapply products_money_cells; eassumption].
Qed.

Lemma money_cells_keep_no_trailing_zero_witness :
  exists c p t,
    customers_records (rng script_world) = Ok c t /\
    products_records t = Ok p (rng script_end) /\
    customer_tables script_end (map cells c.1.1) (map cells c.1.2) (map cells c.2) /\
    product_tables script_end (map cells p.1.1) (map cells p.1.2) (map cells p.2) /\
    nth 7 CUSTOMER_COLUMNS EmptyString = "credit_limit"%string /\
    nth 3 PRODUCT_COLUMNS EmptyString = "price"%string /\
    Forall (money_cell "credit_limit" 7) (c.1.1 ++ c.1.2 ++ c.2) /\
    Forall (money_cell "price" 3) (p.1.1 ++ p.1.2 ++ p.2).
Proof.
  apply (money_cells_keep_no_trailing_zero script_world script_end). vm_compute. reflexivity.
Defined.

(** ** The bounds on the run of the script *)

Lemma within_of_check key (lo hi : Q) (records : list record) :
  forallb (fun rec => match od_get String.eqb rec key with
                      | Some (VFloat x) => Qle_bool lo x && Qle_bool x hi
                      | _ => false
                      end) records = true ->
  Forall (float_within key lo hi) records.
Proof.
  intros H. apply Forall_forall. intros rec Hin.
  rewrite forallb_forall in H. specialize (H rec (proj1 (list_elem_of_In _ _) Hin)).
  unfold float_within.
  destruct (od_get String.eqb rec key) as [[n|s|x]|]; try discriminate.
  apply andb_true_iff in H as [H1 H2]. apply Qle_bool_iff in H1, H2.
  exists x. split; [reflexivity|]. split; assumption.
Qed.

(** C2. The script seeds the generator with 42 before it draws anything and
    reads no input, so it has one run, the same whatever the output
    directory held before.  On that run every credit_limit of the three
    customer files lies within [1000, 50000], those of the three rows that
    delta1 multiplies by 1.2 included (they come to 35848.82, 3894.47 and
    47774.27), and every price of the initial product file lies within the
    floats 9.99 and 999.99. *)
Theorem script_credit_limits_and_prices_within_bounds :
  forall fs, exists w' c p t,
    script fs = Ok tt w' /\
    customers_records (MT19937.tape 42 2) = Ok c t /\ products_records t = Ok p (rng w') /\
    files w' = six_files c p fs /\
    Forall (float_within "credit_limit" 1000 50000) (c.1.1 ++ c.1.2 ++ c.2) /\
    column 7 (drop 5 (map cells c.1.2)) = ["35848.82"; "3894.47"; "47774.27"]%string /\
    Forall (float_within "price" (lit 999 2) (lit 99999 2)) p.1.1.
Proof.
  intros fs. unfold script.
  pose proof (main_outcome (MT19937.tape 42 2) fs) as H.
  pose proof script_credit_limits as HL.
  destruct script_records as (c & t1 & p & t2 & Ec & Ep).
  rewrite Ec in H, HL. rewrite Ep in H.
  destruct H as (_ & (P1 & _) & Hm). destruct HL as [L1 L2].
  exists (mk_world t2 (six_files c p fs)), c, p, t1.
  split; [exact Hm|]. split; [exact Ec|]. split; [exact Ep|]. split; [reflexivity|].
  split; [exact (within_of_check _ _ _ _ L1)|]. split; [exact L2|].
  exact (products_fresh_within _ _ P1).
Qed.
